(** * Double-buffered DRM dumb-buffer presentation (src/doublebuffer/main.cpp)

    A shallow embedding of [Device] and [DumbBufferRenderer]: the per-output
    framebuffer pair, buffer allocation and teardown, the page-flip protocol
    ([swapBuffers], [pageFlipHandler]), the frame loop ([update]) and [main].

    The kernel and libdrm are not part of the program.  Every call into them
    is recorded in a chronological trace, and what they answer is supplied
    from outside: return codes and handles as response records, completion
    events as a schedule of reads on the DRM file descriptor. *)

From Stdlib Require Import ZArith List Bool Lia String.
Import ListNotations.
Local Open Scope string_scope.
Local Open Scope list_scope.
Local Open Scope Z_scope.

(** ** Data model *)

Definition BUFFER_COUNT : Z := 2.

(** [MAP_FAILED] is [(void * ) -1]. *)
Definition MAP_FAILED : Z := -1.

(** [struct Framebuffer]: the fields hold unsigned kernel values. *)
Record Framebuffer := mkFramebuffer {
  handle : Z;
  pitch : Z;
  size : Z;
  fb : Z;
  p : Z
}.

(** The constructor [Framebuffer()]. *)
Definition Framebuffer_new : Framebuffer := mkFramebuffer 0 0 0 0 MAP_FAILED.

(** The part of [QKmsOutput] this program reads or writes; [hdisplay] and
    [vdisplay] are those of [modes[mode]]. *)
Record QKmsOutput := mkQKmsOutput {
  crtc_id : Z;
  connector_id : Z;
  hdisplay : Z;
  vdisplay : Z;
  mode_set : bool
}.

(** [struct Output].  The array [Framebuffer fb[2]] is the pair [fbs] (the
    name [fb] is taken by the field of [Framebuffer]). *)
Record Output := mkOutput {
  kmsOutput : QKmsOutput;
  fbs : Framebuffer * Framebuffer;
  backFb : Z;
  flipped : bool
}.

(** The constructor [Output()], with [kmsOutput] assigned as [createScreen]
    does. *)
Definition Output_new (k : QKmsOutput) : Output :=
  mkOutput k (Framebuffer_new, Framebuffer_new) 0 false.

(** An index into [fb[2]] is in bounds when it is 0 or 1. *)
Definition in_bounds (idx : Z) : Prop := 0 <= idx < BUFFER_COUNT.

(** [output->fb[idx]].  Outside 0..1 the source has undefined behaviour; the
    model reads a default-constructed Framebuffer there and drops the write.
    The invariant proved at the end shows that the program never gets there. *)
Definition fb_at (o : Output) (idx : Z) : Framebuffer :=
  if idx =? 0 then fst (fbs o)
  else if idx =? 1 then snd (fbs o)
  else Framebuffer_new.

Definition set_fb (o : Output) (idx : Z) (f : Framebuffer) : Output :=
  mkOutput (kmsOutput o)
           (if idx =? 0 then (f, snd (fbs o))
            else if idx =? 1 then (fst (fbs o), f)
            else fbs o)
           (backFb o) (flipped o).

Definition set_backFb (o : Output) (b : Z) : Output :=
  mkOutput (kmsOutput o) (fbs o) b (flipped o).

Definition set_flipped (o : Output) (b : bool) : Output :=
  mkOutput (kmsOutput o) (fbs o) (backFb o) b.

Definition set_mode_set (o : Output) (b : bool) : Output :=
  let k := kmsOutput o in
  mkOutput (mkQKmsOutput (crtc_id k) (connector_id k) (hdisplay k) (vdisplay k) b)
           (fbs o) (backFb o) (flipped o).

(** ** The trace of calls leaving the program

    One entry per kernel or libdrm call (with the return code the call gave),
    per completion callback, per buffer fill and per warning. *)
Inductive Event :=
| OpenDevice (result : Z)
| GetCap (rc cap : Z)
| CloseDevice (descr : Z)
| CreateDumb (w h rc : Z)
| AddFB (w h fbpitch fbhandle rc : Z)
| MapDumb (fbhandle rc : Z)
| Mmap (len offset addr : Z)
| Memset (addr len : Z)
| Munmap (addr len : Z)
| RmFB (id rc : Z)
| DestroyDumb (fbhandle rc : Z)
| SetCrtc (crtc id connector rc : Z)
| PowerOn (crtc : Z)
| RestoreMode (crtc : Z)
| PageFlip (crtc id : Z) (user_data : nat) (rc : Z)
| HandleEvent
| FlipComplete (user_data : nat)
| Fill (user_data : nat) (slot addr words colour : Z)
| Warning (msg : string).

(** The entries that are calls into the kernel (through libc or libdrm). *)
Definition is_kernel_call (e : Event) : bool :=
  match e with
  | FlipComplete _ | Fill _ _ _ _ _ | Memset _ _ | Warning _ => false
  | _ => true
  end.

Definition is_warning (e : Event) : bool :=
  match e with Warning _ => true | _ => false end.

Definition kernel_calls (tr : list Event) : list Event := filter is_kernel_call tr.

(** ** Buffer allocation and teardown *)

(** What the kernel answers during one [createFramebuffer]. *)
Record AllocResp := mkAllocResp {
  create_rc : Z;
  create_handle : Z;
  create_pitch : Z;
  create_size : Z;
  addfb_rc : Z;
  addfb_id : Z;
  map_rc : Z;
  map_offset : Z;
  mmap_p : Z
}.

(** What the kernel answers during one [destroyFramebuffer] ([munmap]'s
    result is not looked at). *)
Record FreeResp := mkFreeResp {
  rmfb_rc : Z;
  destroy_rc : Z
}.

(** [Device::createFramebuffer].  The ioctl fills [creq] when it succeeds;
    [drmModeAddFB] stores the id through [&fb.fb] only when it returns 0. *)
Definition createFramebuffer (k : AllocResp) (o : Output) (bufferIdx : Z)
  : bool * Output * list Event :=
  let w := hdisplay (kmsOutput o) in
  let h := vdisplay (kmsOutput o) in
  let e1 := [CreateDumb w h (create_rc k)] in
  if create_rc k =? -1 then
    (false, o, e1 ++ [Warning "Failed to create dumb buffer"])
  else
    let f0 := fb_at o bufferIdx in
    let f1 := mkFramebuffer (create_handle k) (create_pitch k) (create_size k)
                            (fb f0) (p f0) in
    let e2 := e1 ++ [AddFB w h (pitch f1) (handle f1) (addfb_rc k)] in
    let f2 := mkFramebuffer (handle f1) (pitch f1) (size f1)
                            (if addfb_rc k =? 0 then addfb_id k else fb f1) (p f1) in
    if addfb_rc k =? -1 then
      (false, set_fb o bufferIdx f2, e2 ++ [Warning "Failed to add FB"])
    else
      let e3 := e2 ++ [MapDumb (handle f2) (map_rc k)] in
      if map_rc k =? -1 then
        (false, set_fb o bufferIdx f2, e3 ++ [Warning "Failed to map dumb buffer"])
      else
        let f3 := mkFramebuffer (handle f2) (pitch f2) (size f2) (fb f2) (mmap_p k) in
        let e4 := e3 ++ [Mmap (size f2) (map_offset k) (mmap_p k)] in
        if p f3 =? MAP_FAILED then
          (false, set_fb o bufferIdx f3, e4 ++ [Warning "Failed to mmap dumb buffer"])
        else
          (true, set_fb o bufferIdx f3, e4 ++ [Memset (p f3) (size f3)]).

(** [Device::destroyFramebuffer]. *)
Definition destroyFramebuffer (k : FreeResp) (o : Output) (bufferIdx : Z)
  : Output * list Event :=
  let f := fb_at o bufferIdx in
  let e1 := if p f =? MAP_FAILED then [] else [Munmap (p f) (size f)] in
  let e2 := if fb f =? 0 then []
            else RmFB (fb f) (rmfb_rc k)
                 :: (if rmfb_rc k =? -1 then [Warning "Failed to remove fb"] else []) in
  let e3 := if handle f =? 0 then []
            else DestroyDumb (handle f) (destroy_rc k)
                 :: (if destroy_rc k =? -1
                     then [Warning "Failed to destroy dumb buffer"] else []) in
  (set_fb o bufferIdx Framebuffer_new, e1 ++ e2 ++ e3).

(** A Buffer all of whose resources are held, and one that holds none. *)
Definition fully_constructed (f : Framebuffer) : Prop :=
  handle f <> 0 /\ fb f <> 0 /\ p f <> MAP_FAILED.

Definition torn_down (f : Framebuffer) : Prop := f = Framebuffer_new.

(** A kernel that answers 0 or -1 and hands out non-zero handles and ids. *)
Definition sane_alloc (k : AllocResp) : Prop :=
  (create_rc k = 0 \/ create_rc k = -1) /\
  (addfb_rc k = 0 \/ addfb_rc k = -1) /\
  (create_rc k = 0 -> create_handle k <> 0) /\
  (addfb_rc k = 0 -> addfb_id k <> 0).

(** ** The device, the kernel's flip queue and the schedule of reads

    [pending] is the kernel's side of the protocol: the flip requests it has
    accepted and whose completion event the program has not read yet, each
    named by the [user_data] of the request, which is the position of the
    Output in [m_outputs].  [reads] and [flip_rcs] are what the environment
    will do: for each coming read on the DRM descriptor a mask choosing which
    pending completions that read delivers, and the return codes of the coming
    [drmModePageFlip] calls (0 once the list is used up). *)
Record State := mkState {
  fd : Z;
  m_outputs : list Output;
  pending : list nat;
  trace : list Event;
  reads : list (list bool);
  flip_rcs : list Z;
  m_r : Z;
  m_g : Z;
  m_b : Z
}.

Definition set_outputs (st : State) (os : list Output) : State :=
  mkState (fd st) os (pending st) (trace st) (reads st) (flip_rcs st)
          (m_r st) (m_g st) (m_b st).

Definition set_pending (st : State) (q : list nat) : State :=
  mkState (fd st) (m_outputs st) q (trace st) (reads st) (flip_rcs st)
          (m_r st) (m_g st) (m_b st).

Definition emit (st : State) (es : list Event) : State :=
  mkState (fd st) (m_outputs st) (pending st) (trace st ++ es) (reads st)
          (flip_rcs st) (m_r st) (m_g st) (m_b st).

Definition set_reads (st : State) (rs : list (list bool)) : State :=
  mkState (fd st) (m_outputs st) (pending st) (trace st) rs (flip_rcs st)
          (m_r st) (m_g st) (m_b st).

Definition set_flip_rcs (st : State) (rcs : list Z) : State :=
  mkState (fd st) (m_outputs st) (pending st) (trace st) (reads st) rcs
          (m_r st) (m_g st) (m_b st).

Definition set_fd (st : State) (d : Z) : State :=
  mkState d (m_outputs st) (pending st) (trace st) (reads st) (flip_rcs st)
          (m_r st) (m_g st) (m_b st).

Definition set_rgb (st : State) (r g b : Z) : State :=
  mkState (fd st) (m_outputs st) (pending st) (trace st) (reads st)
          (flip_rcs st) r g b.

Fixpoint update_nth {A : Type} (i : nat) (f : A -> A) (l : list A) : list A :=
  match l, i with
  | [], _ => []
  | x :: l', O => f x :: l'
  | x :: l', S i' => x :: update_nth i' f l'
  end.

Definition no_output : Output := Output_new (mkQKmsOutput 0 0 0 0 false).

(** The Output an [Output *] into [m_outputs] points to.  The program only
    forms such pointers to elements of the vector; past the end the model
    reads [no_output] and drops writes. *)
Definition output_at (st : State) (i : nat) : Output := nth i (m_outputs st) no_output.

Definition modify_output (st : State) (i : nat) (f : Output -> Output) : State :=
  set_outputs st (update_nth i f (m_outputs st)).

(** A call returns in some state, or never returns: then [Blocks] holds the
    state in which the schedule of reads ran dry. *)
Inductive Outcome :=
| Returns (st : State)
| Blocks (st : State).

Definition final (r : Outcome) : State :=
  match r with Returns st | Blocks st => st end.

Definition returned (r : Outcome) : bool :=
  match r with Returns _ => true | Blocks _ => false end.

(** ** The flip protocol *)

(** [Device::pageFlipHandler]; [%] on [int] truncates, hence [Z.rem]. *)
Definition pageFlipHandler (user_data : nat) (st : State) : State :=
  emit (modify_output st user_data
          (fun output => set_backFb output (Z.rem (backFb output + 1) BUFFER_COUNT)))
       [FlipComplete user_data].

(** The completions one read takes out of the kernel's queue. *)
Fixpoint deliver (mask : list bool) (q : list nat) : list nat * list nat :=
  match mask, q with
  | true :: mask', t :: q' =>
      let (d, r) := deliver mask' q' in (t :: d, r)
  | false :: mask', t :: q' =>
      let (d, r) := deliver mask' q' in (d, t :: r)
  | _, _ => ([], q)
  end.

(** [drmHandleEvent] with [pageFlipHandler] as the page flip callback: one
    read, then the callback once per completion read, in queue order. *)
Definition drmHandleEvent (mask : list bool) (st : State) : State :=
  let (done, rest) := deliver mask (pending st) in
  fold_left (fun s user_data => pageFlipHandler user_data s) done
            (emit (set_pending st rest) [HandleEvent]).

(** The loop [while (output->backFb == fbIdx) drmHandleEvent(...)]. *)
Fixpoint wait_flip (rs : list (list bool)) (i : nat) (fbIdx : Z) (st : State)
  : Outcome :=
  if backFb (output_at st i) =? fbIdx then
    match rs with
    | [] => Blocks (set_reads st [])
    | mask :: rs' => wait_flip rs' i fbIdx (drmHandleEvent mask (set_reads st rs'))
    end
  else Returns (set_reads st rs).

(** [drmModePageFlip(fd(), crtc_id, fb.fb, DRM_MODE_PAGE_FLIP_EVENT, output)]:
    the kernel queues the request exactly when it answers 0. *)
Definition drmModePageFlip (i : nat) (st : State) : Z * State :=
  let output := output_at st i in
  let f := fb_at output (backFb output) in
  let rc := hd 0 (flip_rcs st) in
  let st1 := set_flip_rcs st (tl (flip_rcs st)) in
  let st2 := if rc =? 0 then set_pending st1 (pending st1 ++ [i]) else st1 in
  (rc, emit st2 [PageFlip (crtc_id (kmsOutput output)) (fb f) i rc]).

(** [Device::swapBuffers]. *)
Definition swapBuffers (i : nat) (st : State) : Outcome :=
  let output := output_at st i in
  let waited :=
    if flipped output then wait_flip (reads st) i (backFb output) st
    else Returns (modify_output st i (fun o => set_flipped o true)) in
  match waited with
  | Blocks s => Blocks s
  | Returns s =>
      let (rc, s') := drmModePageFlip i s in
      if rc =? -1 then Returns (emit s' [Warning "Page flip failed"])
      else Returns s'
  end.

(** ** The frame loop *)

(** The pixel value [(m_r << 16) | (m_g << 8) | (m_b)] stored as [quint32]. *)
Definition colour (st : State) : Z :=
  Z.lor (Z.lor (Z.shiftl (m_r st) 16) (Z.shiftl (m_g st) 8)) (m_b st) mod 2 ^ 32.

(** The body of the loop of [DumbBufferRenderer::update] for one Output. *)
Definition update_output (i : nat) (st : State) : Outcome :=
  let output := output_at st i in
  let f := fb_at output (backFb output) in
  if p f =? MAP_FAILED then Returns st
  else
    let st1 := emit st [Fill i (backFb output) (p f) (size f / 4) (colour st)] in
    let st2 := set_rgb st1 (m_r st + 1) (m_g st + 2) (m_b st + 3) in
    swapBuffers i st2.

Fixpoint update_loop (idxs : list nat) (st : State) : Outcome :=
  match idxs with
  | [] => Returns st
  | i :: more =>
      match update_output i st with
      | Returns s => update_loop more s
      | Blocks s => Blocks s
      end
  end.

(** [DumbBufferRenderer::update]. *)
Definition update (st : State) : Outcome :=
  update_loop (seq 0 (List.length (m_outputs st))) st.

(** [n] timer ticks, as long as each one returns. *)
Fixpoint ticks (n : nat) (st : State) : Outcome :=
  match n with
  | O => Returns st
  | S n' =>
      match update st with
      | Returns s => ticks n' s
      | Blocks s => Blocks s
      end
  end.

(** ** Start-up, shutdown and [main] *)

(** What the environment answers outside the frame loop: the result of
    opening the device and of the capability query, the outputs that
    [createScreens] reports, and the kernel's answers to the allocation,
    mode setting and teardown of each Output (by position) and slot. *)
Record Boot := mkBoot {
  open_result : Z;
  getcap_rc : Z;
  hasDumbBuf : Z;
  discovered : list QKmsOutput;
  alloc : nat -> Z -> AllocResp;
  setcrtc_rc : nat -> Z;
  free : nat -> Z -> FreeResp
}.

(** The state a fresh [Device] starts in, with the environment's schedule. *)
Definition initial (rs : list (list bool)) (rcs : list Z) : State :=
  mkState (-1) [] [] [] rs rcs 0 0 0.

(** [Device::open]. *)
Definition Device_open (b : Boot) (st : State) : bool * State :=
  let d := open_result b in
  let st1 := emit st [OpenDevice d] in
  if d =? -1 then (false, emit st1 [Warning "Could not open DRM device"])
  else
    let st2 := emit st1 [GetCap (getcap_rc b) (hasDumbBuf b)] in
    if (getcap_rc b =? -1) || (hasDumbBuf b =? 0) then
      (false, emit st2 [Warning "Dumb buffers not supported"; CloseDevice d])
    else (true, set_fd st2 d).

(** [Device::createScreen], called back once per discovered output. *)
Definition createScreen (output : QKmsOutput) (st : State) : State :=
  set_outputs st (m_outputs st ++ [Output_new output]).

Definition createScreens (b : Boot) (st : State) : State :=
  fold_left (fun s output => createScreen output s) (discovered b) st.

(** The values of [i] in [for (int i = 0; i < BUFFER_COUNT; ++i)]. *)
Definition buffer_indices : list Z := [0; 1].

(** The inner loop of [createFramebuffers]: stops at the first failure. *)
Fixpoint create_slots (k : Z -> AllocResp) (o : Output) (idxs : list Z)
  : bool * Output * list Event :=
  match idxs with
  | [] => (true, o, [])
  | i :: more =>
      let '(ok, o1, e1) := createFramebuffer (k i) o i in
      if ok then
        let '(ok2, o2, e2) := create_slots k o1 more in (ok2, o2, e1 ++ e2)
      else (false, o1, e1)
  end.

(** The outer loop of [createFramebuffers], over the Outputs from position
    [j] on; a failed slot leaves the whole function. *)
Fixpoint createFramebuffers_from (k : nat -> Z -> AllocResp) (j : nat)
         (os : list Output) : list Output * list Event :=
  match os with
  | [] => ([], [])
  | o :: more =>
      let '(ok, o1, e1) := create_slots (k j) o buffer_indices in
      if ok then
        let o2 := set_flipped (set_backFb o1 0) false in
        let (more', e2) := createFramebuffers_from k (S j) more in
        (o2 :: more', e1 ++ e2)
      else (o1 :: more, e1)
  end.

(** [Device::createFramebuffers]. *)
Definition createFramebuffers (b : Boot) (st : State) : State :=
  let (os, es) := createFramebuffers_from (alloc b) 0 (m_outputs st) in
  emit (set_outputs st os) es.

(** The loop of [Device::setMode] from position [j] on; a failed mode set
    leaves the whole function. *)
Fixpoint setMode_from (rc : nat -> Z) (j : nat) (os : list Output)
  : list Output * list Event :=
  match os with
  | [] => ([], [])
  | o :: more =>
      let k := kmsOutput o in
      let e1 := [SetCrtc (crtc_id k) (fb (fb_at o 0)) (connector_id k) (rc j)] in
      if rc j =? -1 then (o :: more, e1 ++ [Warning "Failed to set mode"])
      else
        let (more', e2) := setMode_from rc (S j) more in
        (set_mode_set o true :: more', e1 ++ [PowerOn (crtc_id k)] ++ e2)
  end.

(** [Device::setMode]. *)
Definition setMode (b : Boot) (st : State) : State :=
  let (os, es) := setMode_from (setcrtc_rc b) 0 (m_outputs st) in
  emit (set_outputs st os) es.

Fixpoint destroy_slots (k : Z -> FreeResp) (o : Output) (idxs : list Z)
  : Output * list Event :=
  match idxs with
  | [] => (o, [])
  | i :: more =>
      let (o1, e1) := destroyFramebuffer (k i) o i in
      let (o2, e2) := destroy_slots k o1 more in
      (o2, e1 ++ e2)
  end.

Fixpoint destroyFramebuffers_from (k : nat -> Z -> FreeResp) (j : nat)
         (os : list Output) : list Output * list Event :=
  match os with
  | [] => ([], [])
  | o :: more =>
      let (o1, e1) := destroy_slots (k j) o buffer_indices in
      let (more', e2) := destroyFramebuffers_from k (S j) more in
      (o1 :: more', e1 ++ e2)
  end.

(** [Device::destroyFramebuffers]. *)
Definition destroyFramebuffers (b : Boot) (st : State) : State :=
  let (os, es) := destroyFramebuffers_from (free b) 0 (m_outputs st) in
  emit (set_outputs st os) es.

(** [Device::close]; [QKmsOutput::cleanup] puts the saved mode back when
    [mode_set] is true. *)
Definition Device_close (st : State) : State :=
  let restores :=
    flat_map (fun o => if mode_set (kmsOutput o)
                       then [RestoreMode (crtc_id (kmsOutput o))] else [])
             (m_outputs st) in
  let st1 := set_outputs (emit st restores) [] in
  if fd st1 =? -1 then st1
  else set_fd (emit st1 [CloseDevice (fd st1)]) (-1).

(** The constructor of [DumbBufferRenderer]; the boolean tells whether the
    timer was started. *)
Definition DumbBufferRenderer_new (b : Boot) (st : State) : State * bool :=
  let (opened, st1) := Device_open b st in
  if opened then
    (setMode b (createFramebuffers b (createScreens b st1)), true)
  else (emit st1 [Warning "Failed to open DRM device"], false).

(** The destructor of [DumbBufferRenderer]. *)
Definition DumbBufferRenderer_delete (b : Boot) (st : State) : State :=
  Device_close (destroyFramebuffers b st).

(** How a run of [main] ends: with an exit code, or never. *)
Inductive Exit :=
| Exited (code : Z) (st : State)
| Hangs (st : State).

(** [QCoreApplication::quit] is [exit(0)]: it makes [app.exec()] return 0. *)
Definition quit_code : Z := 0.

(** [main]: the renderer is built, the event loop runs the timer's [n] ticks
    until the single-shot timer calls [quit], and [main] returns what
    [app.exec()] returned, after the renderer's destructor. *)
Definition main (b : Boot) (rs : list (list bool)) (rcs : list Z) (n : nat) : Exit :=
  let (st, timer) := DumbBufferRenderer_new b (initial rs rcs) in
  match (if timer then ticks n st else Returns st) with
  | Blocks s => Hangs s
  | Returns s =>
      let exec_result := quit_code in
      Exited exec_result (DumbBufferRenderer_delete b s)
  end.

Definition exit_code (e : Exit) : option Z :=
  match e with Exited c _ => Some c | Hangs _ => None end.

(** ** Reading the trace *)

(** Flip requests the kernel accepted for the Output at position [i], and
    completion callbacks run for it. *)
Definition is_submit (i : nat) (e : Event) : bool :=
  match e with
  | PageFlip _ _ u rc => Nat.eqb u i && (rc =? 0)
  | _ => false
  end.

Definition is_ack (i : nat) (e : Event) : bool :=
  match e with
  | FlipComplete u => Nat.eqb u i
  | _ => false
  end.

Definition is_flip_call (i : nat) (e : Event) : bool :=
  match e with
  | PageFlip _ _ u _ => Nat.eqb u i
  | _ => false
  end.

Definition is_fill (i : nat) (e : Event) : bool :=
  match e with
  | Fill u _ _ _ _ => Nat.eqb u i
  | _ => false
  end.

Definition count (f : Event -> bool) (tr : list Event) : nat :=
  List.length (filter f tr).

Definition submitted (i : nat) (tr : list Event) : nat := count (is_submit i) tr.
Definition acked (i : nat) (tr : list Event) : nat := count (is_ack i) tr.

(** [pre] is what the trace [tr] was at some earlier point. *)
Definition prefix_of (pre tr : list Event) : Prop := exists suf, tr = pre ++ suf.

(** At every point of the trace, the Output at position [i] has at most one
    accepted flip request whose completion callback has not run. *)
Definition one_in_flight (i : nat) (tr : list Event) : Prop :=
  forall pre, prefix_of pre tr -> (submitted i pre <= acked i pre + 1)%nat.

(** ** Scenarios used by the examples *)

Definition kms_A : QKmsOutput := mkQKmsOutput 31 41 640 480 false.
Definition kms_B : QKmsOutput := mkQKmsOutput 32 42 800 600 false.
Definition kms_C : QKmsOutput := mkQKmsOutput 33 43 1024 768 false.

(** A kernel that grants every allocation, with distinct handles. *)
Definition alloc_ok (j : nat) (i : Z) : AllocResp :=
  let n := 2 * Z.of_nat j + i + 1 in
  mkAllocResp 0 n 4096 16384 0 (100 + n) 0 0 (65536 * n).

(** The same kernel, except that it refuses to create the buffer of slot
    [bi] of the Output at position [bj]. *)
Definition alloc_create_fails_at (bj : nat) (bi : Z) (j : nat) (i : Z) : AllocResp :=
  if Nat.eqb j bj && (i =? bi)
  then mkAllocResp (-1) 0 0 0 0 0 0 0 MAP_FAILED
  else alloc_ok j i.

Definition free_ok (j : nat) (i : Z) : FreeResp := mkFreeResp 0 0.

Definition boot_ok (outs : list QKmsOutput) : Boot :=
  mkBoot 3 0 1 outs alloc_ok (fun _ => 0) free_ok.

Definition boot_open_fails (outs : list QKmsOutput) : Boot :=
  mkBoot (-1) 0 1 outs alloc_ok (fun _ => 0) free_ok.

Definition boot_alloc_fails (bj : nat) (bi : Z) (outs : list QKmsOutput) : Boot :=
  mkBoot 3 0 1 outs (alloc_create_fails_at bj bi) (fun _ => 0) free_ok.

(** Reads that each deliver every completion then pending. *)
Definition prompt_reads (n : nat) : list (list bool) := repeat [true; true; true] n.

(** An Output with one torn-down and one live-looking slot, and kernel
    answers in which single steps fail. *)
Definition sample_output : Output :=
  mkOutput kms_A (mkFramebuffer 7 4096 16384 107 458752, Framebuffer_new) 0 false.

Definition alloc_addfb_fails : AllocResp :=
  mkAllocResp 0 5 4096 16384 (-1) 0 0 0 MAP_FAILED.

Definition free_fails : FreeResp := mkFreeResp (-1) (-1).

(** What [destroyFramebuffer] has to release for a Buffer, in order. *)
Definition releases (k : FreeResp) (f : Framebuffer) : list Event :=
  (if p f =? MAP_FAILED then [] else [Munmap (p f) (size f)]) ++
  (if fb f =? 0 then [] else [RmFB (fb f) (rmfb_rc k)]) ++
  (if handle f =? 0 then [] else [DestroyDumb (handle f) (destroy_rc k)]).

(** The rotation [pageFlipHandler] applies to [backFb]. *)
Definition rot (b : Z) : Z := Z.rem (b + 1) BUFFER_COUNT.

(** The callbacks of one [drmHandleEvent], for the completions [done]. *)
Definition run_handlers (done : list nat) (st : State) : State :=
  fold_left (fun s user_data => pageFlipHandler user_data s) done st.

(** How often [i] occurs in a list of [user_data] tokens. *)
Definition occ (i : nat) (q : list nat) : nat := count_occ Nat.eq_dec q i.

Definition valid (st : State) (i : nat) : Prop := (i < List.length (m_outputs st))%nat.

(** Every [drmModePageFlip] call for the Output at position [i] is made at a
    point where each request accepted for it before has been acknowledged. *)
Definition submits_when_idle (i : nat) (tr : list Event) : Prop :=
  forall pre e suf, tr = pre ++ e :: suf -> is_flip_call i e = true ->
                    submitted i pre = acked i pre.

(** Every buffer fill recorded in the trace used a slot index in bounds. *)
Definition fill_in_bounds (e : Event) : Prop :=
  match e with Fill _ slot _ _ _ => in_bounds slot | _ => True end.

(** Entries that are neither flip requests nor completion callbacks. *)
Definition is_idle_event (e : Event) : bool :=
  match e with
  | PageFlip _ _ _ _ | FlipComplete _ => false
  | _ => true
  end.

(** Entries that are neither flip requests nor buffer fills. *)
Definition is_startup_event (e : Event) : bool :=
  match e with
  | PageFlip _ _ _ _ | FlipComplete _ | Fill _ _ _ _ _ => false
  | _ => true
  end.

(** The Output has no more than one request in the kernel's queue, and none
    before its first [swapBuffers]. *)
Definition flight_ok (st : State) (i : nat) : Prop :=
  (occ i (pending st) <= 1)%nat /\
  (flipped (output_at st i) = false -> occ i (pending st) = 0%nat).

(** [n] calls of [swapBuffers] in a row on the Output at position [i]. *)
Fixpoint swaps (n : nat) (i : nat) (st : State) : Outcome :=
  match n with
  | O => Returns st
  | S n' =>
      match swaps n' i st with
      | Returns s => swapBuffers i s
      | Blocks s => Blocks s
      end
  end.

(** What the program keeps true of the device, the kernel's queue and the
    trace between any two steps of the flip protocol. *)
Record protocol_inv (st : State) : Prop := {
  inv_parity : forall i, valid st i ->
      backFb (output_at st i) = Z.of_nat (acked i (trace st)) mod 2;
  inv_queue : forall i,
      (occ i (pending st) + acked i (trace st) = submitted i (trace st))%nat;
  inv_idle : forall i, flipped (output_at st i) = false -> occ i (pending st) = 0%nat;
  inv_one : forall i, one_in_flight i (trace st);
  inv_when_idle : forall i, submits_when_idle i (trace st);
  inv_fills : Forall fill_in_bounds (trace st)
}.

(** The entries a wait in [swapBuffers] adds: reads and callbacks. *)
Definition is_wait_event (e : Event) : bool :=
  match e with
  | HandleEvent | FlipComplete _ => true
  | _ => false
  end.

(** The last statement of [swapBuffers]: the flip request and, when it is
    refused, the warning. *)
Definition submit_flip (i : nat) (st : State) : State :=
  if fst (drmModePageFlip i st) =? -1
  then emit (snd (drmModePageFlip i st)) [Warning "Page flip failed"]
  else snd (drmModePageFlip i st).

(** How many of [n] calls in a row wait for a completion: all of them when a
    request is already out ([fl]), all but the first otherwise. *)
Definition rotations (fl : bool) (n : nat) : nat := if fl then n else pred n.

(** A device with the single Output [kms_A], just started. *)
Definition one_output (rs : list (list bool)) (rcs : list Z) : State :=
  fst (DumbBufferRenderer_new (boot_ok [kms_A]) (initial rs rcs)).

(** A device with the Outputs [kms_A] and [kms_B], just started. *)
Definition two_outputs (rs : list (list bool)) (rcs : list Z) : State :=
  fst (DumbBufferRenderer_new (boot_ok [kms_A; kms_B]) (initial rs rcs)).

(** An Output as the constructors leave it: slot 0 next, nothing requested. *)
Definition fresh (o : Output) : Prop := backFb o = 0 /\ flipped o = false.

(** The state in which a run of [main] ends or hangs. *)
Definition exit_state (e : Exit) : State :=
  match e with Exited _ st | Hangs st => st end.

(** The device as the constructor of [DumbBufferRenderer] leaves it. *)
Definition started (b : Boot) (rs : list (list bool)) (rcs : list Z) : State :=
  fst (DumbBufferRenderer_new b (initial rs rcs)).

(** A kernel that refuses every mode set. *)
Definition boot_modeset_fails (outs : list QKmsOutput) : Boot :=
  mkBoot 3 0 1 outs alloc_ok (fun _ => -1) free_ok.

(** The part of a trace after its first "Page flip failed" warning. *)
Fixpoint after_refusal (tr : list Event) : list Event :=
  match tr with
  | [] => []
  | Warning msg :: rest =>
      if String.eqb msg "Page flip failed" then rest else after_refusal rest
  | _ :: rest => after_refusal rest
  end.

(** An Output whose last flip request was refused, or whose completion was
    consumed already: [swapBuffers] has been called on it and the kernel
    holds no request for it. *)
Definition stuck (st : State) (i : nat) : Prop :=
  valid st i /\ in_bounds (backFb (output_at st i)) /\
  flipped (output_at st i) = true /\ occ i (pending st) = 0%nat.

(** The kernel grants the whole allocation: [createFramebuffer] gets past
    each of its four checks. *)
Definition grants (k : AllocResp) : bool :=
  negb (create_rc k =? -1) && negb (addfb_rc k =? -1) &&
  negb (map_rc k =? -1) && negb (mmap_p k =? MAP_FAILED).

(** [Device::open] gets past both of its checks. *)
Definition opens (b : Boot) : bool :=
  negb (open_result b =? -1) &&
  negb ((getcap_rc b =? -1) || (hasDumbBuf b =? 0)).

(** Both slots of the Output are mapped, or neither is. *)
Definition both_mapped (o : Output) : Prop :=
  p (fb_at o 0) <> MAP_FAILED /\ p (fb_at o 1) <> MAP_FAILED.

Definition none_mapped (o : Output) : Prop :=
  p (fb_at o 0) = MAP_FAILED /\ p (fb_at o 1) = MAP_FAILED.

(** A device with the single Output [kms_A] whose first flip request the
    kernel will refuse. *)
Definition refused_once : State := one_output (prompt_reads 3) [-1].

(** Two Outputs after their first tick: each has one request in flight. *)
Definition both_in_flight : State := final (ticks 1 (two_outputs [] [])).

(** ** Resources and phases of the trace *)

(** The three kernel resources behind a Buffer. *)
Inductive Resource :=
| Allocation
| Presentation
| Mapping.

(** The Buffer holds the resource, as [destroyFramebuffer] tests it. *)
Definition holds (r : Resource) (f : Framebuffer) : bool :=
  match r with
  | Allocation => negb (handle f =? 0)
  | Presentation => negb (fb f =? 0)
  | Mapping => negb (p f =? MAP_FAILED)
  end.

(** The call handed the resource out, as [createFramebuffer] stores it. *)
Definition acquires (r : Resource) (e : Event) : bool :=
  match r, e with
  | Allocation, CreateDumb _ _ rc => negb (rc =? -1)
  | Presentation, AddFB _ _ _ _ rc => rc =? 0
  | Mapping, Mmap _ _ addr => negb (addr =? MAP_FAILED)
  | _, _ => false
  end.

(** The call gives the resource back. *)
Definition gives_back (r : Resource) (e : Event) : bool :=
  match r, e with
  | Allocation, DestroyDumb _ _ => true
  | Presentation, RmFB _ _ => true
  | Mapping, Munmap _ _ => true
  | _, _ => false
  end.

Definition b2n (b : bool) : nat := if b then 1%nat else 0%nat.

(** How many of the resource the two slots of an Output, and all Outputs,
    hold. *)
Definition held_by (r : Resource) (o : Output) : nat :=
  (b2n (holds r (fb_at o 0)) + b2n (holds r (fb_at o 1)))%nat.

Fixpoint held (r : Resource) (os : list Output) : nat :=
  match os with
  | [] => 0%nat
  | o :: more => (held_by r o + held r more)%nat
  end.

(** A kernel that hands out non-zero handles and ids with its successes. *)
Definition honest (k : AllocResp) : Prop :=
  (create_rc k <> -1 -> create_handle k <> 0) /\
  (addfb_rc k = 0 -> addfb_id k <> 0).

(** What the flip protocol never changes in an Output. *)
Definition static (o : Output) : QKmsOutput * (Framebuffer * Framebuffer) :=
  (kmsOutput o, fbs o).

(** The kinds of entries each phase of the program adds to the trace. *)
Definition is_alloc_event (e : Event) : bool :=
  match e with
  | CreateDumb _ _ _ | AddFB _ _ _ _ _ | MapDumb _ _ | Mmap _ _ _ | Memset _ _
  | Warning _ => true
  | _ => false
  end.

Definition is_free_event (e : Event) : bool :=
  match e with
  | Munmap _ _ | RmFB _ _ | DestroyDumb _ _ | Warning _ => true
  | _ => false
  end.

Definition is_mode_event (e : Event) : bool :=
  match e with
  | SetCrtc _ _ _ _ | PowerOn _ | Warning _ => true
  | _ => false
  end.

Definition is_loop_event (e : Event) : bool :=
  match e with
  | HandleEvent | FlipComplete _ | PageFlip _ _ _ _ | Fill _ _ _ _ _
  | Warning _ => true
  | _ => false
  end.

Definition is_close (e : Event) : bool :=
  match e with CloseDevice _ => true | _ => false end.

Definition is_open_ok (e : Event) : bool :=
  match e with OpenDevice d => negb (d =? -1) | _ => false end.

Definition is_power_on (e : Event) : bool :=
  match e with PowerOn _ => true | _ => false end.

Definition is_restore (e : Event) : bool :=
  match e with RestoreMode _ => true | _ => false end.

(** The frame loop leaves the descriptor and the static part of every Output
    alone, and adds only entries of the loop to the trace. *)
Definition loop_frame (st s : State) : Prop :=
  fd s = fd st /\
  map static (m_outputs s) = map static (m_outputs st) /\
  exists es, trace s = trace st ++ es /\ forallb is_loop_event es = true.

(** Both slots of the Output are as [Framebuffer()] leaves them. *)
Definition unallocated (o : Output) : Prop :=
  fb_at o 0 = Framebuffer_new /\ fb_at o 1 = Framebuffer_new.

(** The mode restores of [Device::close], one per Output whose mode was set. *)
Definition restores_of (os : list Output) : list Event :=
  flat_map (fun o => if mode_set (kmsOutput o)
                     then [RestoreMode (crtc_id (kmsOutput o))] else []) os.

(** How many Outputs have their mode set. *)
Definition moded (os : list Output) : nat :=
  List.length (filter (fun o => mode_set (kmsOutput o)) os).

(** The run of [main] came to its end. *)
Definition exits (e : Exit) : Prop := exit_code e <> None.

(** A kernel that grants everything except the presentation handle of slot
    [bi] of the Output at position [bj]. *)
Definition alloc_addfb_fails_at (bj : nat) (bi : Z) (j : nat) (i : Z) : AllocResp :=
  if Nat.eqb j bj && (i =? bi)
  then mkAllocResp 0 (2 * Z.of_nat j + i + 1) 4096 16384 (-1) 0 0 0 MAP_FAILED
  else alloc_ok j i.

Definition boot_addfb_fails (bj : nat) (bi : Z) (outs : list QKmsOutput) : Boot :=
  mkBoot 3 0 1 outs (alloc_addfb_fails_at bj bi) (fun _ => 0) free_ok.

(** Two Outputs at the start of their second tick, with one read to come
    that delivers the completion of Output 0 only. *)
Definition second_tick : State := set_reads both_in_flight [[true; false]].

(** The read delivers the completion at the head of the kernel's queue. *)
Definition prompt (mask : list bool) : bool := hd false mask.

(** A device with a single Output, fully mapped, under a kernel that will
    accept every flip request and deliver each completion with the next
    read; nothing is in flight, or exactly the Output's one request. *)
Definition lone_ready (st : State) : Prop :=
  List.length (m_outputs st) = 1%nat /\
  both_mapped (output_at st 0) /\
  in_bounds (backFb (output_at st 0)) /\
  forallb (Z.eqb 0) (flip_rcs st) = true /\
  forallb prompt (reads st) = true /\
  ((flipped (output_at st 0) = false /\ pending st = []) \/
   (flipped (output_at st 0) = true /\ pending st = [0%nat])).

Definition is_set_crtc (e : Event) : bool :=
  match e with SetCrtc _ _ _ _ => true | _ => false end.

(** The entry names an Output by a position below [n]: the [user_data]
    pointer of a flip request or of a completion callback, or the Output a
    fill writes to, is an element of [m_outputs]. *)
Definition token_ok (n : nat) (e : Event) : Prop :=
  match e with
  | FlipComplete u | PageFlip _ _ u _ | Fill u _ _ _ _ => (u < n)%nat
  | _ => True
  end.

(** The device has [n] Outputs, and the kernel's queue and the trace name
    none but these. *)
Definition tokens_ok (n : nat) (st : State) : Prop :=
  List.length (m_outputs st) = n /\
  Forall (fun u => (u < n)%nat) (pending st) /\
  Forall (token_ok n) (trace st).

(** ** The legacy framebuffer variant (src/legacy_fb/main.cpp)

    The same renderer on [/dev/fb0]: one mapping of the whole framebuffer, no
    flips.  The kernel's answers to [Device::open] come as an [Info] record. *)
Module LegacyFb.

(** 32-bit wrap-around: [unsigned int] and [int]. *)
Definition u32 (x : Z) : Z := x mod 2 ^ 32.
Definition s32 (x : Z) : Z := (x + 2 ^ 31) mod 2 ^ 32 - 2 ^ 31.

(** [QRect(x, y, width, height)] with its accessors; [QRect()] is empty. *)
Record QRect := mkQRect {
  rx : Z;
  ry : Z;
  rwidth : Z;
  rheight : Z
}.

Definition QRect_null : QRect := mkQRect 0 0 0 0.

(** [struct Framebuffer] and its constructor. *)
Record Framebuffer := mkFramebuffer {
  size : Z;
  pitch : Z;
  p : Z;
  depth : Z;
  geom : QRect
}.

Definition Framebuffer_new : Framebuffer := mkFramebuffer 0 0 MAP_FAILED 0 QRect_null.

(** [class Device] and its constructor. *)
Record Device := mkDevice {
  fd : Z;
  fb : Framebuffer
}.

Definition Device_new : Device := mkDevice (-1) Framebuffer_new.

(** The calls leaving the program, the stores into the mapping, the
    warnings. *)
Inductive Call :=
| Open (result : Z)
| GetFixInfo (rc : Z)
| GetVarInfo (rc : Z)
| Mmap (len addr : Z)
| Munmap (addr len : Z)
| Close (descr : Z)
| Store (addr value : Z)
| Warn (msg : string).

(** What the kernel answers during [Device::open]: the descriptor, the two
    ioctls with the fields of [finfo] and [vinfo] the program reads, the
    mapping. *)
Record Info := mkInfo {
  open_result : Z;
  fix_rc : Z;
  smem_len : Z;
  line_length : Z;
  var_rc : Z;
  bits_per_pixel : Z;
  red_length : Z;
  green_length : Z;
  blue_length : Z;
  xoffset : Z;
  yoffset : Z;
  xres : Z;
  yres : Z;
  mmap_result : Z
}.

(** [fb.depth] as [open] works it out: for 24 and 16 bits per pixel the sum
    of the channel lengths (an unsigned sum stored in an [int]), unless that
    is not positive. *)
Definition effective_depth (k : Info) : Z :=
  let bpp := s32 (bits_per_pixel k) in
  let channels := s32 (u32 (red_length k + green_length k + blue_length k)) in
  if bpp =? 24 then (if channels <=? 0 then 24 else channels)
  else if bpp =? 16 then (if channels <=? 0 then 16 else channels)
  else bpp.

(** [Device::open]. *)
Definition Device_open (k : Info) (d : Device) : bool * Device * list Call :=
  let d1 := mkDevice (open_result k) (fb d) in
  let e1 := [Open (open_result k)] in
  if open_result k =? -1 then (false, d1, e1 ++ [Warn "Could not open device"])
  else
    let e2 := e1 ++ [GetFixInfo (fix_rc k)] in
    if negb (fix_rc k =? 0) then
      (false, d1, e2 ++ [Warn "Error reading fixed information"])
    else
      let e3 := e2 ++ [GetVarInfo (var_rc k)] in
      if negb (var_rc k =? 0) then
        (false, d1, e3 ++ [Warn "Error reading variable information"])
      else
        let f1 := mkFramebuffer (smem_len k) (line_length k) (mmap_result k)
                                (depth (fb d)) (geom (fb d)) in
        let e4 := e3 ++ [Mmap (size f1) (p f1)] in
        if p f1 =? MAP_FAILED then
          (false, mkDevice (open_result k) f1, e4 ++ [Warn "Failed to mmap framebuffer"])
        else
          let f2 := mkFramebuffer (size f1) (pitch f1) (p f1) (effective_depth k)
                                  (geom f1) in
          if negb (depth f2 =? 32) then
            (false, mkDevice (open_result k) f2,
             e4 ++ [Warn "Depths other than 32 will not work for now"])
          else
            let f3 := mkFramebuffer (size f2) (pitch f2) (p f2) (depth f2)
                        (mkQRect (s32 (xoffset k)) (s32 (yoffset k))
                                 (s32 (xres k)) (s32 (yres k))) in
            (true, mkDevice (open_result k) f3, e4).

(** [Device::close]. *)
Definition Device_close (d : Device) : Device * list Call :=
  let e1 := if p (fb d) =? MAP_FAILED then [] else [Munmap (p (fb d)) (size (fb d))] in
  let e2 := if fd d =? -1 then [] else [Close (fd d)] in
  (mkDevice (-1) Framebuffer_new, e1 ++ e2).

(** [Device::screenStart], as an address: [y * pitch] is unsigned 32-bit
    arithmetic, [x * depth / 8] is [int] arithmetic. *)
Definition screenStart (d : Device) : Z :=
  p (fb d) + u32 (ry (geom (fb d)) * pitch (fb d))
  + Z.quot (s32 (rx (geom (fb d)) * depth (fb d))) 8.

(** The values of a loop variable [for (int v = 0; v < n; ++v)]. *)
Definition upto (n : Z) : list Z := map Z.of_nat (seq 0 (Z.to_nat n)).

(** [class FbRenderer]. *)
Record FbRenderer := mkFbRenderer {
  m_device : Device;
  m_r : Z;
  m_g : Z;
  m_b : Z
}.

Definition pixel (r : FbRenderer) : Z :=
  Z.lor (Z.lor (Z.shiftl (m_r r) 16) (Z.shiftl (m_g r) 8)) (m_b r) mod 2 ^ 32.

(** The stores of one row [y] of [FbRenderer::update]. *)
Definition row_stores (r : FbRenderer) (y : Z) : list Call :=
  let ip := screenStart (m_device r) + u32 (y * pitch (fb (m_device r))) in
  map (fun x => Store (ip + 4 * x) (pixel r)) (upto (rwidth (geom (fb (m_device r))))).

(** [FbRenderer::update]. *)
Definition update (r : FbRenderer) : FbRenderer * list Call :=
  if p (fb (m_device r)) =? MAP_FAILED then (r, [])
  else
    (mkFbRenderer (m_device r) (m_r r + 1) (m_g r + 2) (m_b r + 3),
     flat_map (row_stores r) (upto (rheight (geom (fb (m_device r)))))).

(** A 4-byte store at [addr] lies inside the mapping of the device. *)
Definition in_mapping (d : Device) (c : Call) : Prop :=
  match c with
  | Store addr _ => p (fb d) <= addr /\ addr + 4 <= p (fb d) + size (fb d)
  | _ => True
  end.

(** The call that gives back what a call of [open] acquired, if anything. *)
Definition undo (c : Call) : list Call :=
  match c with
  | Open d => if d =? -1 then [] else [Close d]
  | Mmap len addr => if addr =? MAP_FAILED then [] else [Munmap addr len]
  | _ => []
  end.

(** The kernel reports a visible area that lies inside the memory it
    reports, with values that fit the [int]s of [QRect]. *)
Definition fits (k : Info) : Prop :=
  0 <= xoffset k /\ xoffset k * 32 < 2 ^ 31 /\
  0 <= yoffset k < 2 ^ 31 /\
  0 <= xres k < 2 ^ 31 /\ 0 <= yres k < 2 ^ 31 /\
  0 <= line_length k /\ smem_len k < 2 ^ 32 /\
  (xoffset k + xres k) * 4 <= line_length k /\
  (yoffset k + yres k) * line_length k <= smem_len k.

(** A 64 x 48 screen at 32 bits per pixel, shown from row 2 and column 4 of
    a larger virtual area. *)
Definition info_32 : Info :=
  mkInfo 5 0 16384 320 0 32 8 8 8 4 2 64 48 1048576.

End LegacyFb.

(** * Buffer lifecycle *)

Lemma in_bounds_0 : in_bounds 0.
Proof. unfold in_bounds, BUFFER_COUNT; lia. Qed.

Lemma in_bounds_1 : in_bounds 1.
Proof. unfold in_bounds, BUFFER_COUNT; lia. Qed.

Lemma fb_at_set_fb (o : Output) (idx : Z) (f : Framebuffer) :
  in_bounds idx -> fb_at (set_fb o idx f) idx = f.
Proof.
  unfold in_bounds, BUFFER_COUNT, fb_at, set_fb; intros Hb; simpl.
  destruct (idx =? 0) eqn:E0; [reflexivity|].
  destruct (idx =? 1) eqn:E1; [reflexivity|].
  apply Z.eqb_neq in E0, E1; lia.
Qed.

Lemma set_fb_set_fb (o : Output) (idx : Z) (f g : Framebuffer) :
  set_fb (set_fb o idx f) idx g = set_fb o idx g.
Proof.
  unfold set_fb; simpl.
  destruct (idx =? 0); [reflexivity|].
  destruct (idx =? 1); reflexivity.
Qed.

Lemma set_fb_same (o : Output) (idx : Z) (f : Framebuffer) :
  set_fb (set_fb o idx f) idx f = set_fb o idx f.
Proof. apply set_fb_set_fb. Qed.

Lemma destroyFramebuffer_output (k : FreeResp) (o : Output) (idx : Z) :
  fst (destroyFramebuffer k o idx) = set_fb o idx Framebuffer_new.
Proof. reflexivity. Qed.

(** C8.  Teardown is idempotent: after [destroyFramebuffer] the slot is
    torn down, and calling [destroyFramebuffer] on it again, whatever the
    kernel would answer, emits nothing at all (no munmap, no RmFB, no
    destroy, no warning) and leaves the Output as it was. *)
Theorem destroyFramebuffer_idempotent (k1 k2 : FreeResp) (o : Output) (idx : Z) :
  in_bounds idx ->
  torn_down (fb_at (fst (destroyFramebuffer k1 o idx)) idx) /\
  destroyFramebuffer k2 (fst (destroyFramebuffer k1 o idx)) idx
  = (fst (destroyFramebuffer k1 o idx), []).
Proof.
  intros Hb. rewrite destroyFramebuffer_output.
  split.
  - unfold torn_down. now apply fb_at_set_fb.
  - unfold destroyFramebuffer.
    rewrite (fb_at_set_fb o idx Framebuffer_new Hb), set_fb_same.
    reflexivity.
Qed.

Lemma destroyFramebuffer_idempotent_witness :
  in_bounds 0 /\
  destroyFramebuffer free_fails (fst (destroyFramebuffer (free_ok 0 0) sample_output 0)) 0
  = (fst (destroyFramebuffer (free_ok 0 0) sample_output 0), []).
Proof.
  assert (Hb : in_bounds 0) by (unfold in_bounds, BUFFER_COUNT; lia).
  split; [exact Hb|].
  exact (proj2 (destroyFramebuffer_idempotent (free_ok 0 0) free_fails sample_output 0 Hb)).
Defined.

(** C9.  Whatever the kernel answers (so also when a release step fails),
    the kernel calls of [destroyFramebuffer] are, in this order: the munmap
    if the Buffer is mapped, the RmFB if it has a presentation handle, the
    destroy if it has an allocation handle; nothing else, and none skipped
    because an earlier one failed. *)
Theorem destroyFramebuffer_release_order (k : FreeResp) (o : Output) (idx : Z) :
  in_bounds idx ->
  kernel_calls (snd (destroyFramebuffer k o idx)) = releases k (fb_at o idx).
Proof.
  intros _. unfold destroyFramebuffer, releases, kernel_calls; simpl.
  rewrite !filter_app.
  destruct (p (fb_at o idx) =? MAP_FAILED);
    destruct (fb (fb_at o idx) =? 0);
    destruct (handle (fb_at o idx) =? 0);
    destruct (rmfb_rc k =? -1);
    destruct (destroy_rc k =? -1); reflexivity.
Qed.

Lemma destroyFramebuffer_release_order_witness :
  in_bounds 0 /\
  kernel_calls (snd (destroyFramebuffer free_fails sample_output 0))
  = [Munmap 458752 16384; RmFB 107 (-1); DestroyDumb 7 (-1)].
Proof.
  assert (Hb : in_bounds 0) by (unfold in_bounds, BUFFER_COUNT; lia).
  split; [exact Hb|].
  exact (destroyFramebuffer_release_order free_fails sample_output 0 Hb).
Defined.

Lemma createFramebuffer_true (k : AllocResp) (o : Output) (idx : Z) :
  fst (fst (createFramebuffer k o idx)) = true ->
  create_rc k <> -1 /\ addfb_rc k <> -1 /\ map_rc k <> -1 /\ mmap_p k <> MAP_FAILED /\
  snd (fst (createFramebuffer k o idx))
  = set_fb o idx (mkFramebuffer (create_handle k) (create_pitch k) (create_size k)
                    (if addfb_rc k =? 0 then addfb_id k else fb (fb_at o idx))
                    (mmap_p k)).
Proof.
  unfold createFramebuffer.
  destruct (create_rc k =? -1) eqn:E1; [discriminate|].
  destruct (addfb_rc k =? -1) eqn:E2; [discriminate|].
  destruct (map_rc k =? -1) eqn:E3; [discriminate|].
  cbn [p]. destruct (mmap_p k =? MAP_FAILED) eqn:E4; [discriminate|].
  intros _. apply Z.eqb_neq in E1, E2, E3, E4. cbn. auto.
Qed.

Lemma createFramebuffer_false_unmapped (k : AllocResp) (o : Output) (idx : Z) :
  in_bounds idx ->
  p (fb_at o idx) = MAP_FAILED ->
  fst (fst (createFramebuffer k o idx)) = false ->
  p (fb_at (snd (fst (createFramebuffer k o idx))) idx) = MAP_FAILED.
Proof.
  intros Hb Hp. unfold createFramebuffer.
  destruct (create_rc k =? -1) eqn:E1; [intros _; exact Hp|].
  destruct (addfb_rc k =? -1) eqn:E2;
    [intros _; cbn; rewrite fb_at_set_fb by exact Hb; exact Hp|].
  destruct (map_rc k =? -1) eqn:E3;
    [intros _; cbn; rewrite fb_at_set_fb by exact Hb; exact Hp|].
  cbn [p]. destruct (mmap_p k =? MAP_FAILED) eqn:E4; [|discriminate].
  intros _; cbn. rewrite fb_at_set_fb by exact Hb. cbn.
  now apply Z.eqb_eq in E4.
Qed.

(** C4, as stated, fails: when [drmModeAddFB] fails, [createFramebuffer]
    returns false and leaves the slot with its allocation handle set, no
    presentation handle and no mapping, neither fully constructed nor torn
    down. *)
Lemma createFramebuffer_partial_counterexample :
  fst (fst (createFramebuffer alloc_addfb_fails (Output_new kms_A) 0)) = false /\
  fb_at (snd (fst (createFramebuffer alloc_addfb_fails (Output_new kms_A) 0))) 0
  = mkFramebuffer 5 4096 16384 0 MAP_FAILED /\
  ~ fully_constructed
      (fb_at (snd (fst (createFramebuffer alloc_addfb_fails (Output_new kms_A) 0))) 0) /\
  ~ torn_down
      (fb_at (snd (fst (createFramebuffer alloc_addfb_fails (Output_new kms_A) 0))) 0).
Proof.
  repeat split.
  - intros (_ & H & _). apply H. reflexivity.
  - intros H. discriminate H.
Qed.

(** C4, amended.  After [destroyFramebuffer] the slot is fully torn down.
    After a [createFramebuffer] that returns true, with a kernel that answers
    0 or -1 and hands out non-zero handles, the slot is fully constructed.
    After a [createFramebuffer] that returns false on a slot that was not
    mapped, the slot is still not mapped (so not fully constructed), whatever
    handles the steps before the failure left in it. *)
Theorem buffer_states_after_calls (ka : AllocResp) (kf : FreeResp) (o : Output) (idx : Z) :
  in_bounds idx ->
  torn_down (fb_at (fst (destroyFramebuffer kf o idx)) idx) /\
  (sane_alloc ka ->
   fst (fst (createFramebuffer ka o idx)) = true ->
   fully_constructed (fb_at (snd (fst (createFramebuffer ka o idx))) idx)) /\
  (p (fb_at o idx) = MAP_FAILED ->
   fst (fst (createFramebuffer ka o idx)) = false ->
   p (fb_at (snd (fst (createFramebuffer ka o idx))) idx) = MAP_FAILED /\
   ~ fully_constructed (fb_at (snd (fst (createFramebuffer ka o idx))) idx)).
Proof.
  intros Hb. split; [|split].
  - rewrite destroyFramebuffer_output. unfold torn_down. now apply fb_at_set_fb.
  - intros (Hc & Ha & Hh & Hi) Hok.
    destruct (createFramebuffer_true ka o idx Hok) as (N1 & N2 & _ & N4 & ->).
    rewrite fb_at_set_fb by exact Hb.
    assert (C0 : create_rc ka = 0) by (destruct Hc; [assumption|contradiction]).
    assert (A0 : addfb_rc ka = 0) by (destruct Ha; [assumption|contradiction]).
    unfold fully_constructed; cbn. rewrite A0; cbn. auto.
  - intros Hp Hfail.
    pose proof (createFramebuffer_false_unmapped ka o idx Hb Hp Hfail) as Hu.
    split; [exact Hu|]. intros (_ & _ & H). exact (H Hu).
Qed.

Lemma buffer_states_after_calls_witness :
  in_bounds 1 /\
  torn_down (fb_at (fst (destroyFramebuffer free_fails sample_output 1)) 1) /\
  fully_constructed (fb_at (snd (fst (createFramebuffer (alloc_ok 0 1) sample_output 1))) 1) /\
  p (fb_at (snd (fst (createFramebuffer alloc_addfb_fails sample_output 1))) 1) = MAP_FAILED.
Proof.
  assert (Hb : in_bounds 1) by (unfold in_bounds, BUFFER_COUNT; lia).
  destruct (buffer_states_after_calls (alloc_ok 0 1) free_fails sample_output 1 Hb)
    as (H1 & H2 & _).
  destruct (buffer_states_after_calls alloc_addfb_fails free_fails sample_output 1 Hb)
    as (_ & _ & H3).
  split; [exact Hb|]. split; [exact H1|]. split.
  - apply H2; [|reflexivity].
    unfold sane_alloc; cbn. repeat split; try (left; reflexivity); intros _; discriminate.
  - exact (proj1 (H3 eq_refl eq_refl)).
Defined.

(** * The flip protocol: what one read does *)

Lemma nth_update_nth {A : Type} (f : A -> A) (d : A) (l : list A) (i j : nat) :
  nth i (update_nth j f l) d
  = if Nat.eqb i j && Nat.ltb i (List.length l) then f (nth i l d) else nth i l d.
Proof.
  revert i j. induction l as [|x l IH]; intros i j.
  - destruct i, j; cbn; try reflexivity; now rewrite andb_false_r.
  - destruct i, j; cbn [update_nth nth]; try reflexivity.
    rewrite IH. reflexivity.
Qed.

Lemma length_update_nth {A : Type} (f : A -> A) (l : list A) (j : nat) :
  List.length (update_nth j f l) = List.length l.
Proof.
  revert j. induction l as [|x l IH]; intros [|j]; cbn; try reflexivity.
  now rewrite IH.
Qed.

Lemma output_at_modify (st : State) (j : nat) (f : Output -> Output) (i : nat) :
  output_at (modify_output st j f) i
  = if Nat.eqb i j && Nat.ltb i (List.length (m_outputs st))
    then f (output_at st i) else output_at st i.
Proof. unfold output_at, modify_output; cbn. apply nth_update_nth. Qed.

Lemma output_at_handler_other (st : State) (u i : nat) :
  i <> u -> output_at (pageFlipHandler u st) i = output_at st i.
Proof.
  intros Hne. unfold pageFlipHandler.
  change (output_at (emit ?s ?e) i) with (output_at s i).
  rewrite output_at_modify.
  apply Nat.eqb_neq in Hne. now rewrite Hne.
Qed.

Lemma output_at_handler_same (st : State) (u : nat) :
  valid st u ->
  output_at (pageFlipHandler u st) u
  = set_backFb (output_at st u) (rot (backFb (output_at st u))).
Proof.
  intros Hv. unfold pageFlipHandler.
  change (output_at (emit ?s ?e) u) with (output_at s u).
  rewrite output_at_modify, Nat.eqb_refl.
  apply Nat.ltb_lt in Hv. now rewrite Hv.
Qed.

Lemma length_handler (st : State) (u : nat) :
  List.length (m_outputs (pageFlipHandler u st)) = List.length (m_outputs st).
Proof. unfold pageFlipHandler; cbn. apply length_update_nth. Qed.

Lemma run_handlers_cons (u : nat) (d : list nat) (st : State) :
  run_handlers (u :: d) st = run_handlers d (pageFlipHandler u st).
Proof. reflexivity. Qed.

Lemma run_handlers_frame (d : list nat) (st : State) :
  pending (run_handlers d st) = pending st /\
  reads (run_handlers d st) = reads st /\
  flip_rcs (run_handlers d st) = flip_rcs st /\
  trace (run_handlers d st) = trace st ++ map FlipComplete d /\
  List.length (m_outputs (run_handlers d st)) = List.length (m_outputs st).
Proof.
  revert st. induction d as [|u d IH]; intros st.
  - cbn. now rewrite app_nil_r.
  - rewrite run_handlers_cons.
    destruct (IH (pageFlipHandler u st)) as (H1 & H2 & H3 & H4 & H5).
    rewrite H1, H2, H3, H4, H5, length_handler. cbn.
    rewrite <- app_assoc. auto.
Qed.

Lemma run_handlers_untouched (d : list nat) (st : State) (i : nat) :
  ~ In i d -> output_at (run_handlers d st) i = output_at st i.
Proof.
  revert st. induction d as [|u d IH]; intros st Hn; [reflexivity|].
  rewrite run_handlers_cons, IH by (intros H; apply Hn; now right).
  apply output_at_handler_other. intros ->. apply Hn. now left.
Qed.

Lemma run_handlers_backFb (d : list nat) (st : State) (i : nat) :
  valid st i ->
  backFb (output_at (run_handlers d st) i)
  = Nat.iter (occ i d) rot (backFb (output_at st i)).
Proof.
  revert st. induction d as [|u d IH]; intros st Hv; [reflexivity|].
  rewrite run_handlers_cons, IH by (unfold valid; now rewrite length_handler).
  unfold occ; cbn [count_occ].
  destruct (Nat.eq_dec u i) as [->|Hne].
  - rewrite output_at_handler_same by exact Hv. cbn [set_backFb backFb].
    now rewrite Nat.iter_succ_r.
  - rewrite output_at_handler_other by congruence. reflexivity.
Qed.

Lemma run_handlers_rest (d : list nat) (st : State) (i : nat) :
  flipped (output_at (run_handlers d st) i) = flipped (output_at st i) /\
  fbs (output_at (run_handlers d st) i) = fbs (output_at st i) /\
  kmsOutput (output_at (run_handlers d st) i) = kmsOutput (output_at st i).
Proof.
  revert st. induction d as [|u d IH]; intros st; [auto|].
  rewrite run_handlers_cons.
  destruct (IH (pageFlipHandler u st)) as (H1 & H2 & H3).
  rewrite H1, H2, H3. unfold pageFlipHandler.
  change (output_at (emit ?s ?e) i) with (output_at s i).
  rewrite output_at_modify.
  destruct (Nat.eqb i u && Nat.ltb i (List.length (m_outputs st))); auto.
Qed.

Lemma drmHandleEvent_unfold (mask : list bool) (st : State) :
  drmHandleEvent mask st
  = run_handlers (fst (deliver mask (pending st)))
      (emit (set_pending st (snd (deliver mask (pending st)))) [HandleEvent]).
Proof.
  unfold drmHandleEvent. destruct (deliver mask (pending st)); reflexivity.
Qed.

Lemma deliver_occ (mask : list bool) (q : list nat) (i : nat) :
  (occ i q = occ i (fst (deliver mask q)) + occ i (snd (deliver mask q)))%nat.
Proof.
  revert q. induction mask as [|[|] mask IH]; intros [|t q]; try reflexivity.
  - cbn [deliver]. specialize (IH q). destruct (deliver mask q) as [d r].
    unfold occ in *; cbn [fst snd count_occ] in *.
    destruct (Nat.eq_dec t i); lia.
  - cbn [deliver]. specialize (IH q). destruct (deliver mask q) as [d r].
    unfold occ in *; cbn [fst snd count_occ] in *.
    destruct (Nat.eq_dec t i); lia.
Qed.

Lemma count_app (f : Event -> bool) (a b : list Event) :
  count f (a ++ b) = (count f a + count f b)%nat.
Proof. unfold count. now rewrite filter_app, length_app. Qed.

Lemma acked_app (i : nat) (a b : list Event) :
  acked i (a ++ b) = (acked i a + acked i b)%nat.
Proof. apply count_app. Qed.

Lemma submitted_app (i : nat) (a b : list Event) :
  submitted i (a ++ b) = (submitted i a + submitted i b)%nat.
Proof. apply count_app. Qed.

Lemma acked_completions (i : nat) (d : list nat) :
  acked i (map FlipComplete d) = occ i d.
Proof.
  unfold acked, count, occ. induction d as [|u d IH]; [reflexivity|].
  cbn [map filter is_ack count_occ].
  destruct (Nat.eq_dec u i) as [->|Hne].
  - rewrite Nat.eqb_refl. cbn [List.length]. f_equal. exact IH.
  - apply Nat.eqb_neq in Hne. rewrite Hne. exact IH.
Qed.

Lemma submitted_completions (i : nat) (d : list nat) :
  submitted i (map FlipComplete d) = 0%nat.
Proof. unfold submitted, count. induction d as [|u d IH]; [reflexivity|exact IH]. Qed.

Lemma wait_flip_step (mask : list bool) (rs : list (list bool)) (i : nat)
      (fbIdx : Z) (st : State) :
  backFb (output_at st i) = fbIdx ->
  wait_flip (mask :: rs) i fbIdx st
  = wait_flip rs i fbIdx (drmHandleEvent mask (set_reads st rs)).
Proof. intros H. cbn [wait_flip]. apply Z.eqb_eq in H. now rewrite H. Qed.

(** C3.  While [swapBuffers] waits for Output [A] (its [backFb] still equals
    [fbIdx]), a read that delivers a completion for another Output [B] and
    none for [A] runs [pageFlipHandler] for [B] at once: [B]'s [backFb] has
    moved to the other index in the state in which the wait for [A] goes
    on, [A]'s has not moved, and the wait for [A] continues with the next
    read. *)
Theorem demultiplexing (st : State) (A B : nat) (fbIdx : Z)
        (mask : list bool) (rs : list (list bool)) :
  valid st B ->
  backFb (output_at st A) = fbIdx ->
  ~ In A (fst (deliver mask (pending st))) ->
  occ B (fst (deliver mask (pending st))) = 1%nat ->
  let st' := drmHandleEvent mask (set_reads st rs) in
  backFb (output_at st' B) = rot (backFb (output_at st B)) /\
  acked B (trace st') = S (acked B (trace st)) /\
  backFb (output_at st' A) = fbIdx /\
  wait_flip (mask :: rs) A fbIdx st = wait_flip rs A fbIdx st' /\
  returned (wait_flip [] A fbIdx st') = false.
Proof.
  intros Hv HA HnA HB st'.
  assert (E : st' = run_handlers (fst (deliver mask (pending st)))
                      (emit (set_pending (set_reads st rs)
                               (snd (deliver mask (pending st)))) [HandleEvent]))
    by (unfold st'; now rewrite drmHandleEvent_unfold).
  assert (HA' : backFb (output_at st' A) = fbIdx)
    by (rewrite E, run_handlers_untouched by exact HnA; exact HA).
  repeat split.
  - rewrite E, run_handlers_backFb by exact Hv. rewrite HB. reflexivity.
  - rewrite E. destruct (run_handlers_frame (fst (deliver mask (pending st)))
      (emit (set_pending (set_reads st rs) (snd (deliver mask (pending st))))
            [HandleEvent])) as (_ & _ & _ & -> & _).
    cbn [trace emit set_pending set_reads].
    rewrite !acked_app, acked_completions, HB. cbn. lia.
  - exact HA'.
  - now apply wait_flip_step.
  - cbn [wait_flip]. apply Z.eqb_eq in HA'. now rewrite HA'.
Qed.

Lemma demultiplexing_witness :
  valid both_in_flight 1 /\
  backFb (output_at both_in_flight 0) = 0 /\
  fst (deliver [false; true] (pending both_in_flight)) = [1%nat] /\
  backFb (output_at (drmHandleEvent [false; true] (set_reads both_in_flight [])) 1) = 1 /\
  backFb (output_at (drmHandleEvent [false; true] (set_reads both_in_flight [])) 0) = 0.
Proof.
  assert (Hv : valid both_in_flight 1) by (vm_compute; lia).
  assert (HA : backFb (output_at both_in_flight 0) = 0) by (vm_compute; reflexivity).
  assert (Hd : fst (deliver [false; true] (pending both_in_flight)) = [1%nat])
    by (vm_compute; reflexivity).
  assert (HnA : ~ In 0%nat (fst (deliver [false; true] (pending both_in_flight))))
    by (rewrite Hd; intros [H|[]]; discriminate H).
  assert (HB : occ 1 (fst (deliver [false; true] (pending both_in_flight))) = 1%nat)
    by (rewrite Hd; reflexivity).
  destruct (demultiplexing both_in_flight 0 1 0 [false; true] [] Hv HA HnA HB)
    as (H1 & _ & H3 & _).
  split; [exact Hv|]. split; [exact HA|]. split; [exact Hd|]. split; [exact H1|exact H3].
Defined.

(** * Traces: prefixes and counting *)

Lemma prefix_of_app (pre tr es : list Event) :
  prefix_of pre (tr ++ es) ->
  prefix_of pre tr \/ exists es', pre = tr ++ es' /\ prefix_of es' es.
Proof.
  revert pre. induction tr as [|e tr IH]; intros pre [suf H].
  - right. exists pre. split; [reflexivity|]. now exists suf.
  - destruct pre as [|e' pre].
    + left. now exists (e :: tr).
    + cbn in H. injection H as -> H.
      destruct (IH pre (ex_intro _ suf H)) as [[s Hs]|(es' & -> & Hp)].
      * left. exists s. cbn. now rewrite Hs.
      * right. exists es'. split; [reflexivity|exact Hp].
Qed.

Lemma prefix_of_refl (tr : list Event) : prefix_of tr tr.
Proof. exists []. now rewrite app_nil_r. Qed.

Lemma count_idle (f : Event -> bool) (es : list Event) :
  (forall e, In e es -> f e = false) -> count f es = 0%nat.
Proof.
  unfold count. induction es as [|e es IH]; intros H; [reflexivity|].
  cbn [filter]. rewrite (H e) by now left. apply IH. intros x Hx. apply H. now right.
Qed.

Lemma idle_not_submit (i : nat) (e : Event) :
  is_idle_event e = true -> is_submit i e = false.
Proof. destruct e; cbn; congruence. Qed.

Lemma idle_not_ack (i : nat) (e : Event) :
  is_idle_event e = true -> is_ack i e = false.
Proof. destruct e; cbn; congruence. Qed.

Lemma idle_not_flip_call (i : nat) (e : Event) :
  is_idle_event e = true -> is_flip_call i e = false.
Proof. destruct e; cbn; congruence. Qed.

Lemma submitted_idle (i : nat) (es : list Event) :
  forallb is_idle_event es = true -> submitted i es = 0%nat.
Proof.
  intros H. apply count_idle. intros e He. apply idle_not_submit.
  rewrite forallb_forall in H. now apply H.
Qed.

Lemma acked_idle (i : nat) (es : list Event) :
  forallb is_idle_event es = true -> acked i es = 0%nat.
Proof.
  intros H. apply count_idle. intros e He. apply idle_not_ack.
  rewrite forallb_forall in H. now apply H.
Qed.

Lemma prefix_of_submitted (i : nat) (pre tr : list Event) :
  prefix_of pre tr -> (submitted i pre <= submitted i tr)%nat.
Proof. intros [suf ->]. rewrite submitted_app. lia. Qed.

(** Appending entries that submit nothing for [i] keeps [one_in_flight]. *)
Lemma one_in_flight_app (i : nat) (tr es : list Event) :
  one_in_flight i tr -> submitted i es = 0%nat -> one_in_flight i (tr ++ es).
Proof.
  intros H Hs pre Hp.
  destruct (prefix_of_app _ _ _ Hp) as [Hp'|(es' & -> & Hes)]; [now apply H|].
  rewrite submitted_app, acked_app.
  pose proof (H tr (prefix_of_refl tr)).
  pose proof (prefix_of_submitted i _ _ Hes). lia.
Qed.

(** Appending one flip request for [i] at an idle point keeps it too. *)
Lemma one_in_flight_submit (i : nat) (tr : list Event) (e : Event) :
  one_in_flight i tr -> submitted i tr = acked i tr -> one_in_flight i (tr ++ [e]).
Proof.
  intros H Hidle pre Hp.
  destruct (prefix_of_app _ _ _ Hp) as [Hp'|(es' & -> & [suf Hes])]; [now apply H|].
  rewrite submitted_app, acked_app.
  destruct es' as [|e' es'].
  - cbn. unfold submitted, acked, count in *. cbn. lia.
  - assert (es' = []) as ->.
    { destruct es'; [reflexivity|]. cbn in Hes. injection Hes as _ Hes. discriminate Hes. }
    unfold submitted, acked, count in *. cbn [filter].
    destruct (is_submit i e'), (is_ack i e'); cbn [List.length]; lia.
Qed.

Lemma split_in_app (pre suf tr es : list Event) (e : Event) :
  tr ++ es = pre ++ e :: suf ->
  (exists suf', tr = pre ++ e :: suf') \/
  (exists pre', pre = tr ++ pre' /\ es = pre' ++ e :: suf).
Proof.
  revert pre. induction tr as [|x tr IH]; intros pre H.
  - right. exists pre. auto.
  - destruct pre as [|y pre].
    + cbn in H. injection H as -> H. left. now exists tr.
    + cbn in H. injection H as -> H.
      destruct (IH pre H) as [[suf' ->]|(pre' & -> & ->)].
      * left. now exists suf'.
      * right. now exists pre'.
Qed.

Lemma submits_when_idle_app (i : nat) (tr es : list Event) :
  submits_when_idle i tr ->
  (forall e, In e es -> is_flip_call i e = false) ->
  submits_when_idle i (tr ++ es).
Proof.
  intros H Hes pre e suf Heq He.
  destruct (split_in_app _ _ _ _ _ Heq) as [[suf' ->]|(pre' & -> & ->)].
  - now apply (H pre e suf').
  - rewrite Hes in He; [discriminate|]. apply in_or_app. right. now left.
Qed.

Lemma submits_when_idle_submit (i : nat) (tr : list Event) (e : Event) :
  submits_when_idle i tr -> submitted i tr = acked i tr ->
  submits_when_idle i (tr ++ [e]).
Proof.
  intros H Hidle pre x suf Heq Hx.
  destruct (split_in_app _ _ _ _ _ Heq) as [[suf' ->]|(pre' & -> & Hsplit)].
  - now apply (H pre x suf').
  - destruct pre' as [|y pre'].
    + now rewrite app_nil_r.
    + cbn in Hsplit. injection Hsplit as _ Hsplit. destruct pre'; discriminate Hsplit.
Qed.

(** * The rotation of [backFb] *)

Lemma rot_cases (b : Z) : in_bounds b -> (b = 0 /\ rot b = 1) \/ (b = 1 /\ rot b = 0).
Proof.
  unfold in_bounds, BUFFER_COUNT. intros H.
  assert (C : b = 0 \/ b = 1) by lia.
  destruct C as [-> | ->]; [left|right]; split; reflexivity.
Qed.

Lemma rot_in_bounds (b : Z) : in_bounds b -> in_bounds (rot b).
Proof.
  intros H. destruct (rot_cases b H) as [[_ ->]|[_ ->]];
    unfold in_bounds, BUFFER_COUNT; lia.
Qed.

Lemma rot_lxor (b : Z) : in_bounds b -> rot b = Z.lxor b 1.
Proof. intros H. destruct (rot_cases b H) as [[-> ->]|[-> ->]]; reflexivity. Qed.

Lemma rot_neq (b : Z) : in_bounds b -> rot b <> b.
Proof. intros H. destruct (rot_cases b H) as [[-> ->]|[-> ->]]; discriminate. Qed.

Lemma parity_in_bounds (n : nat) : in_bounds (Z.of_nat n mod 2).
Proof. unfold in_bounds, BUFFER_COUNT. apply Z.mod_pos_bound. lia. Qed.

Lemma rot_parity (n : nat) : rot (Z.of_nat n mod 2) = Z.of_nat (S n) mod 2.
Proof.
  rewrite Nat2Z.inj_succ. unfold Z.succ.
  rewrite (Z.add_mod (Z.of_nat n) 1 2) by lia.
  destruct (rot_cases _ (parity_in_bounds n)) as [[-> ->]|[-> ->]]; reflexivity.
Qed.

Lemma iter_rot_parity (k n : nat) :
  Nat.iter k rot (Z.of_nat n mod 2) = Z.of_nat (n + k) mod 2.
Proof.
  induction k as [|k IH]; [now rewrite Nat.add_0_r|].
  rewrite Nat.iter_succ, IH, rot_parity. f_equal. lia.
Qed.

(** * The protocol invariant is kept by every step *)

Lemma protocol_inv_ext (st s : State) :
  m_outputs s = m_outputs st -> pending s = pending st -> trace s = trace st ->
  protocol_inv st -> protocol_inv s.
Proof.
  intros Ho Hp Ht [I1 I2 I3 I4 I5 I6].
  assert (Hat : forall i, output_at s i = output_at st i)
    by (intros i; unfold output_at; now rewrite Ho).
  split; intros; rewrite ?Hat, ?Hp, ?Ht; auto.
  - apply I1. unfold valid in *. now rewrite <- Ho.
  - apply I3. now rewrite <- Hat.
Qed.

Lemma inv_in_bounds (st : State) (i : nat) :
  protocol_inv st -> valid st i -> in_bounds (backFb (output_at st i)).
Proof. intros I Hv. rewrite (inv_parity st I i Hv). apply parity_in_bounds. Qed.

Lemma inv_at_most_one (st : State) (i : nat) :
  protocol_inv st -> (occ i (pending st) <= 1)%nat.
Proof.
  intros I. pose proof (inv_queue st I i).
  pose proof (inv_one st I i _ (prefix_of_refl _)). lia.
Qed.

Lemma inv_emit_idle (st : State) (es : list Event) :
  protocol_inv st -> forallb is_idle_event es = true -> Forall fill_in_bounds es ->
  protocol_inv (emit st es).
Proof.
  intros [I1 I2 I3 I4 I5 I6] Hes Hf.
  split; cbn [trace emit pending]; intros.
  - change (output_at (emit st es) i) with (output_at st i).
    rewrite acked_app, (acked_idle i es Hes), Nat.add_0_r. now apply I1.
  - rewrite acked_app, submitted_app, (acked_idle i es Hes), (submitted_idle i es Hes).
    rewrite !Nat.add_0_r. apply I2.
  - now apply I3.
  - apply one_in_flight_app; [apply I4|now apply submitted_idle].
  - apply submits_when_idle_app; [apply I5|].
    intros e He. apply idle_not_flip_call. rewrite forallb_forall in Hes. now apply Hes.
  - apply Forall_app. now split.
Qed.

Lemma completions_idle_for_submit (i : nat) (d : list nat) (e : Event) :
  In e (HandleEvent :: map FlipComplete d) -> is_flip_call i e = false.
Proof.
  intros [<-|H]; [reflexivity|].
  apply in_map_iff in H. destruct H as (u & <- & _). reflexivity.
Qed.

Lemma inv_drmHandleEvent (mask : list bool) (st : State) :
  protocol_inv st -> protocol_inv (drmHandleEvent mask st).
Proof.
  intros I. rewrite drmHandleEvent_unfold.
  set (d := fst (deliver mask (pending st))).
  set (r := snd (deliver mask (pending st))).
  set (s0 := emit (set_pending st r) [HandleEvent]).
  destruct (run_handlers_frame d s0) as (Hp & _ & _ & Ht & Hl).
  assert (Htr : trace (run_handlers d s0) = trace st ++ HandleEvent :: map FlipComplete d)
    by (rewrite Ht; unfold s0; cbn; now rewrite <- app_assoc).
  assert (Hack : forall i, acked i (trace (run_handlers d s0))
                           = (acked i (trace st) + occ i d)%nat).
  { intros i. rewrite Htr, acked_app.
    change (HandleEvent :: map FlipComplete d) with ([HandleEvent] ++ map FlipComplete d).
    rewrite acked_app, acked_completions. reflexivity. }
  assert (Hsub : forall i, submitted i (HandleEvent :: map FlipComplete d) = 0%nat).
  { intros i.
    change (HandleEvent :: map FlipComplete d) with ([HandleEvent] ++ map FlipComplete d).
    rewrite submitted_app, submitted_completions. reflexivity. }
  destruct I as [I1 I2 I3 I4 I5 I6].
  split; intros.
  - rewrite run_handlers_backFb, Hack
      by (unfold valid in *; rewrite Hl in H; exact H).
    change (output_at s0 i) with (output_at st i).
    rewrite I1 by (unfold valid in *; rewrite Hl in H; exact H).
    apply iter_rot_parity.
  - rewrite Hp, Hack, Htr, submitted_app, Hsub. unfold s0; cbn [pending emit set_pending].
    pose proof (deliver_occ mask (pending st) i). fold d r in H.
    pose proof (I2 i). lia.
  - rewrite Hp. unfold s0; cbn [pending emit set_pending].
    destruct (run_handlers_rest d s0 i) as (Hfl & _ & _). rewrite Hfl in H.
    change (output_at s0 i) with (output_at st i) in H.
    pose proof (deliver_occ mask (pending st) i). fold d r in H0.
    pose proof (I3 i H). lia.
  - rewrite Htr. apply one_in_flight_app; [apply I4|apply Hsub].
  - rewrite Htr. apply submits_when_idle_app; [apply I5|].
    intros e He. now apply (completions_idle_for_submit i d).
  - rewrite Htr. apply Forall_app. split; [exact I6|].
    constructor; [exact Logic.I|]. apply Forall_forall. intros e He.
    apply in_map_iff in He. destruct He as (u & <- & _). exact Logic.I.
Qed.

Lemma inv_mark_flipped (st : State) (i : nat) :
  protocol_inv st -> protocol_inv (modify_output st i (fun o => set_flipped o true)).
Proof.
  intros [I1 I2 I3 I4 I5 I6].
  split; cbn [trace pending modify_output set_outputs]; intros; auto.
  - rewrite output_at_modify.
    assert (Hv : valid st i0)
      by (unfold valid, modify_output in *; cbn in H; now rewrite length_update_nth in H).
    destruct (Nat.eqb i0 i && Nat.ltb i0 (List.length (m_outputs st)));
      cbn [backFb set_flipped]; now apply I1.
  - apply I3. rewrite output_at_modify in H.
    destruct (Nat.eqb i0 i && Nat.ltb i0 (List.length (m_outputs st)));
      [discriminate H|exact H].
Qed.

Lemma drmModePageFlip_frame (i : nat) (st : State) :
  m_outputs (snd (drmModePageFlip i st)) = m_outputs st /\
  reads (snd (drmModePageFlip i st)) = reads st /\
  pending (snd (drmModePageFlip i st))
  = (if fst (drmModePageFlip i st) =? 0 then pending st ++ [i] else pending st) /\
  fst (drmModePageFlip i st) = hd 0 (flip_rcs st) /\
  flip_rcs (snd (drmModePageFlip i st)) = tl (flip_rcs st) /\
  trace (snd (drmModePageFlip i st))
  = trace st ++ [PageFlip (crtc_id (kmsOutput (output_at st i)))
                          (fb (fb_at (output_at st i) (backFb (output_at st i))))
                          i (fst (drmModePageFlip i st))].
Proof.
  unfold drmModePageFlip. cbn [fst snd].
  destruct (hd 0 (flip_rcs st) =? 0); cbn; auto 10.
Qed.

Lemma occ_app (i : nat) (a b : list nat) : occ i (a ++ b) = (occ i a + occ i b)%nat.
Proof. unfold occ. apply count_occ_app. Qed.

Lemma occ_single (j i : nat) : occ j [i] = if Nat.eqb i j then 1%nat else 0%nat.
Proof.
  unfold occ; cbn [count_occ].
  destruct (Nat.eq_dec i j) as [->|Hne]; [now rewrite Nat.eqb_refl|].
  apply Nat.eqb_neq in Hne. now rewrite Hne.
Qed.

Lemma acked_pageflip (j : nat) (c f : Z) (i : nat) (rc : Z) :
  acked j [PageFlip c f i rc] = 0%nat.
Proof. reflexivity. Qed.

Lemma submitted_pageflip (j : nat) (c f : Z) (i : nat) (rc : Z) :
  submitted j [PageFlip c f i rc] = if Nat.eqb i j && (rc =? 0) then 1%nat else 0%nat.
Proof.
  unfold submitted, count; cbn [filter is_submit].
  destruct (Nat.eqb i j && (rc =? 0)); reflexivity.
Qed.

Lemma inv_pageflip (i : nat) (st : State) :
  protocol_inv st -> flipped (output_at st i) = true -> occ i (pending st) = 0%nat ->
  protocol_inv (snd (drmModePageFlip i st)).
Proof.
  intros I Hfl Hocc.
  destruct (drmModePageFlip_frame i st) as (Ho & _ & Hp & _ & _ & Ht).
  set (rc := fst (drmModePageFlip i st)) in *.
  set (e := PageFlip _ _ i rc) in Ht.
  assert (Hat : forall j, output_at (snd (drmModePageFlip i st)) j = output_at st j)
    by (intros j; unfold output_at; now rewrite Ho).
  assert (Hidle : submitted i (trace st) = acked i (trace st))
    by (pose proof (inv_queue st I i); lia).
  assert (Hother : forall j, j <> i -> is_submit j e = false /\ is_flip_call j e = false).
  { intros j Hj. unfold e; cbn. apply Nat.eqb_neq in Hj. rewrite Nat.eqb_sym, Hj. auto. }
  destruct I as [I1 I2 I3 I4 I5 I6].
  split; intros.
  - rewrite Hat, Ht, acked_app. cbn. rewrite Nat.add_0_r. apply I1.
    unfold valid in *. now rewrite Ho in H.
  - rewrite Hp, Ht, acked_app, submitted_app. unfold e.
    rewrite acked_pageflip, submitted_pageflip.
    pose proof (I2 i0).
    destruct (rc =? 0); rewrite ?occ_app, ?occ_single, ?andb_true_r, ?andb_false_r;
      destruct (Nat.eqb i i0); lia.
  - rewrite Hat in H. rewrite Hp.
    assert (Hne : i0 <> i) by (intros ->; congruence).
    destruct (rc =? 0); [|now apply I3].
    rewrite occ_app, occ_single, (I3 i0 H).
    assert (Hb : Nat.eqb i i0 = false) by (apply Nat.eqb_neq; congruence).
    now rewrite Hb.
  - rewrite Ht. destruct (Nat.eq_dec i0 i) as [->|Hne].
    + apply one_in_flight_submit; [apply I4|exact Hidle].
    + apply one_in_flight_app; [apply I4|].
      unfold submitted, count; cbn [filter]. now rewrite (proj1 (Hother i0 Hne)).
  - rewrite Ht. destruct (Nat.eq_dec i0 i) as [->|Hne].
    + apply submits_when_idle_submit; [apply I5|exact Hidle].
    + apply submits_when_idle_app; [apply I5|].
      intros x [<-|[]]. apply (Hother i0 Hne).
  - rewrite Ht. apply Forall_app. split; [exact I6|]. constructor; [exact Logic.I|constructor].
Qed.

(** * The wait loop and [swapBuffers] *)

Lemma wait_events_quiet (j : nat) (es : list Event) :
  forallb is_wait_event es = true ->
  submitted j es = 0%nat /\ count (is_flip_call j) es = 0%nat /\
  count (is_fill j) es = 0%nat.
Proof.
  intros H. rewrite forallb_forall in H.
  repeat split; apply count_idle; intros e He; specialize (H e He);
    destruct e; cbn in *; congruence.
Qed.

Lemma drmHandleEvent_facts (mask : list bool) (st : State) :
  let s := drmHandleEvent mask st in
  (exists es, trace s = trace st ++ es /\ forallb is_wait_event es = true) /\
  List.length (m_outputs s) = List.length (m_outputs st) /\
  flip_rcs s = flip_rcs st /\ reads s = reads st /\
  (forall j, flipped (output_at s j) = flipped (output_at st j)) /\
  (forall j, fbs (output_at s j) = fbs (output_at st j)).
Proof.
  cbn zeta. rewrite drmHandleEvent_unfold.
  set (d := fst (deliver mask (pending st))).
  set (s0 := emit (set_pending st _) [HandleEvent]).
  destruct (run_handlers_frame d s0) as (_ & Hr & Hf & Ht & Hl).
  split; [|split; [|split; [|split; [|split]]]].
  - exists (HandleEvent :: map FlipComplete d). split.
    + rewrite Ht. unfold s0; cbn. now rewrite <- app_assoc.
    + cbn. apply forallb_forall. intros e He.
      apply in_map_iff in He. destruct He as (u & <- & _). reflexivity.
  - now rewrite Hl.
  - now rewrite Hf.
  - now rewrite Hr.
  - intros j. now destruct (run_handlers_rest d s0 j) as (-> & _ & _).
  - intros j. now destruct (run_handlers_rest d s0 j) as (_ & -> & _).
Qed.

Lemma wait_flip_facts (rs : list (list bool)) (i : nat) (fbIdx : Z) (st : State) :
  let s := final (wait_flip rs i fbIdx st) in
  (exists es, trace s = trace st ++ es /\ forallb is_wait_event es = true) /\
  List.length (m_outputs s) = List.length (m_outputs st) /\
  flip_rcs s = flip_rcs st /\
  (forall j, flipped (output_at s j) = flipped (output_at st j)) /\
  (forall j, fbs (output_at s j) = fbs (output_at st j)) /\
  (returned (wait_flip rs i fbIdx st) = true -> backFb (output_at s i) <> fbIdx).
Proof.
  revert st. induction rs as [|mask rs IH]; intros st; cbn [wait_flip].
  - destruct (backFb (output_at st i) =? fbIdx) eqn:E; cbn [final returned].
    + repeat split; try reflexivity; [|discriminate].
      exists []. now rewrite app_nil_r.
    + repeat split; try reflexivity.
      * exists []. now rewrite app_nil_r.
      * intros _. now apply Z.eqb_neq in E.
  - destruct (backFb (output_at st i) =? fbIdx) eqn:E; cbn [final returned].
    + specialize (IH (drmHandleEvent mask (set_reads st rs))).
      cbn zeta in IH. destruct IH as ((es & He & Hw) & Hl & Hf & Hfl & Hb & Hr).
      destruct (drmHandleEvent_facts mask (set_reads st rs))
        as ((es0 & He0 & Hw0) & Hl0 & Hf0 & _ & Hfl0 & Hb0).
      repeat split.
      * exists (es0 ++ es). split.
        -- rewrite He, He0. cbn. now rewrite app_assoc.
        -- rewrite forallb_app, Hw0, Hw. reflexivity.
      * now rewrite Hl, Hl0.
      * now rewrite Hf, Hf0.
      * intros j. now rewrite Hfl, Hfl0.
      * intros j. now rewrite Hb, Hb0.
      * exact Hr.
    + repeat split; try reflexivity.
      * exists []. now rewrite app_nil_r.
      * intros _. now apply Z.eqb_neq in E.
Qed.

Lemma wait_flip_inv (rs : list (list bool)) (i : nat) (fbIdx : Z) (st : State) :
  protocol_inv st -> protocol_inv (final (wait_flip rs i fbIdx st)).
Proof.
  revert st. induction rs as [|mask rs IH]; intros st I; cbn [wait_flip].
  - destruct (backFb (output_at st i) =? fbIdx); cbn [final];
      now apply (protocol_inv_ext st).
  - destruct (backFb (output_at st i) =? fbIdx); cbn [final].
    + apply IH. apply inv_drmHandleEvent. now apply (protocol_inv_ext st).
    + now apply (protocol_inv_ext st).
Qed.

(** When the wait for the Output at [i] returns, nothing is in flight for it. *)
Lemma wait_flip_idle (rs : list (list bool)) (i : nat) (st s : State) :
  protocol_inv st -> valid st i ->
  wait_flip rs i (backFb (output_at st i)) st = Returns s ->
  occ i (pending s) = 0%nat /\
  acked i (trace s) = S (acked i (trace st)) /\
  backFb (output_at s i) = rot (backFb (output_at st i)).
Proof.
  intros I Hv Hw.
  pose proof (wait_flip_inv rs i (backFb (output_at st i)) st I) as Is.
  destruct (wait_flip_facts rs i (backFb (output_at st i)) st)
    as ((es & He & Hq) & Hl & _ & _ & _ & Hr).
  rewrite Hw in *. cbn [final returned] in *. specialize (Hr eq_refl).
  assert (Hvs : valid s i) by (unfold valid in *; now rewrite Hl).
  pose proof (inv_parity st I i Hv) as P0.
  pose proof (inv_parity s Is i Hvs) as P1.
  pose proof (inv_queue st I i) as Q0.
  pose proof (inv_queue s Is i) as Q1.
  pose proof (inv_one st I i _ (prefix_of_refl _)) as O0.
  destruct (wait_events_quiet i es Hq) as (Hs0 & _ & _).
  rewrite He, acked_app in P1, Q1. rewrite submitted_app, Hs0 in Q1.
  rewrite He, acked_app.
  assert (Hk : acked i es <> 0%nat).
  { intros Z0. rewrite Z0, Nat.add_0_r in P1. congruence. }
  assert (H1 : acked i es = 1%nat) by lia.
  repeat split; try lia.
  rewrite P1, P0, H1. replace (acked i (trace st) + 1)%nat with (S (acked i (trace st))) by lia.
  symmetry. apply rot_parity.
Qed.

Lemma swapBuffers_inv (i : nat) (st : State) :
  protocol_inv st -> valid st i -> protocol_inv (final (swapBuffers i st)).
Proof.
  intros I Hv. unfold swapBuffers.
  destruct (flipped (output_at st i)) eqn:Hfl.
  - destruct (wait_flip (reads st) i (backFb (output_at st i)) st) as [s|s] eqn:Hw.
    + pose proof (wait_flip_inv (reads st) i (backFb (output_at st i)) st I) as Is.
      destruct (wait_flip_facts (reads st) i (backFb (output_at st i)) st)
        as (_ & _ & _ & Hf & _).
      destruct (wait_flip_idle _ _ _ _ I Hv Hw) as (Hocc & _).
      rewrite Hw in *. cbn [final] in *.
      assert (Hfs : flipped (output_at s i) = true) by (rewrite Hf; exact Hfl).
      pose proof (inv_pageflip i s Is Hfs Hocc) as Ip.
      destruct (drmModePageFlip i s) as [rc s'] eqn:Hp. cbn [snd] in Ip.
      destruct (rc =? -1); cbn [final]; [|exact Ip].
      apply inv_emit_idle; [exact Ip|reflexivity|repeat constructor].
    + pose proof (wait_flip_inv (reads st) i (backFb (output_at st i)) st I) as Is.
      now rewrite Hw in Is.
  - set (s := modify_output st i (fun o => set_flipped o true)).
    assert (Is : protocol_inv s) by now apply inv_mark_flipped.
    assert (Hfs : flipped (output_at s i) = true).
    { unfold s. rewrite output_at_modify, Nat.eqb_refl.
      apply Nat.ltb_lt in Hv. now rewrite Hv. }
    assert (Hocc : occ i (pending s) = 0%nat) by (apply (inv_idle st I i Hfl)).
    pose proof (inv_pageflip i s Is Hfs Hocc) as Ip.
    destruct (drmModePageFlip i s) as [rc s'] eqn:Hp. cbn [snd] in Ip.
    destruct (rc =? -1); cbn [final]; [|exact Ip].
    apply inv_emit_idle; [exact Ip|reflexivity|repeat constructor].
Qed.

(** * One Output's view of the wait loop *)

Lemma drmHandleEvent_local (mask : list bool) (i : nat) (st : State) :
  valid st i -> (occ i (pending st) <= 1)%nat ->
  let s := drmHandleEvent mask st in
  valid s i /\
  ((backFb (output_at s i) = backFb (output_at st i) /\
    occ i (pending s) = occ i (pending st)) \/
   (backFb (output_at s i) = rot (backFb (output_at st i)) /\
    occ i (pending st) = 1%nat /\ occ i (pending s) = 0%nat)).
Proof.
  intros Hv Hocc. cbn zeta. rewrite drmHandleEvent_unfold.
  set (d := fst (deliver mask (pending st))).
  set (r := snd (deliver mask (pending st))).
  set (s0 := emit (set_pending st r) [HandleEvent]).
  destruct (run_handlers_frame d s0) as (Hp & _ & _ & _ & Hl).
  pose proof (deliver_occ mask (pending st) i) as Hd. fold d r in Hd.
  split; [unfold valid in *; now rewrite Hl|].
  rewrite run_handlers_backFb by exact Hv. rewrite Hp.
  change (pending s0) with r. change (output_at s0 i) with (output_at st i).
  destruct (occ i d) as [|[|k]] eqn:E; [left|right|lia]; cbn [Nat.iter nat_rect]; lia.
Qed.

Lemma wait_flip_local (rs : list (list bool)) (i : nat) (fbIdx : Z) (st : State) :
  valid st i -> in_bounds fbIdx -> (occ i (pending st) <= 1)%nat ->
  backFb (output_at st i) = fbIdx ->
  match wait_flip rs i fbIdx st with
  | Returns s =>
      valid s i /\ occ i (pending st) = 1%nat /\ occ i (pending s) = 0%nat /\
      backFb (output_at s i) = rot fbIdx
  | Blocks s => backFb (output_at s i) = fbIdx
  end.
Proof.
  revert st. induction rs as [|mask rs IH]; intros st Hv Hb Hocc Hfb;
    cbn [wait_flip]; rewrite Hfb, Z.eqb_refl; [exact Hfb|].
  destruct (drmHandleEvent_local mask i (set_reads st rs) Hv Hocc)
    as (Hv1 & [(Hsame & Ho1)|(Hrot & Ho0 & Ho1)]).
  - specialize (IH _ Hv1 Hb).
    change (pending (set_reads st rs)) with (pending st) in Ho1.
    change (output_at (set_reads st rs) i) with (output_at st i) in Hsame.
    rewrite Ho1, Hsame in IH. specialize (IH Hocc Hfb).
    destruct (wait_flip rs i fbIdx _); [|exact IH].
    destruct IH as (? & ? & ? & ?). auto.
  - change (output_at (set_reads st rs) i) with (output_at st i) in Hrot.
    change (pending (set_reads st rs)) with (pending st) in Ho0.
    rewrite Hfb in Hrot.
    assert (Hne : backFb (output_at (drmHandleEvent mask (set_reads st rs)) i) <> fbIdx)
      by (rewrite Hrot; now apply rot_neq).
    destruct rs as [|m' rs']; cbn [wait_flip];
      apply Z.eqb_neq in Hne; rewrite Hne; auto.
Qed.

Lemma swapBuffers_unfold (i : nat) (st : State) :
  swapBuffers i st
  = match (if flipped (output_at st i)
           then wait_flip (reads st) i (backFb (output_at st i)) st
           else Returns (modify_output st i (fun o => set_flipped o true))) with
    | Blocks s => Blocks s
    | Returns s => Returns (submit_flip i s)
    end.
Proof.
  unfold swapBuffers, submit_flip.
  destruct (if flipped (output_at st i) then _ else _) as [s|s]; [|reflexivity].
  destruct (drmModePageFlip i s) as [rc s']. cbn [fst snd].
  destruct (rc =? -1); reflexivity.
Qed.

Lemma submit_flip_facts (i : nat) (st : State) :
  m_outputs (submit_flip i st) = m_outputs st /\
  pending (submit_flip i st)
  = (if hd 0 (flip_rcs st) =? 0 then pending st ++ [i] else pending st) /\
  flip_rcs (submit_flip i st) = tl (flip_rcs st) /\
  trace (submit_flip i st)
  = trace st ++ PageFlip (crtc_id (kmsOutput (output_at st i)))
                         (fb (fb_at (output_at st i) (backFb (output_at st i))))
                         i (hd 0 (flip_rcs st))
                :: (if hd 0 (flip_rcs st) =? -1 then [Warning "Page flip failed"] else []).
Proof.
  unfold submit_flip.
  destruct (drmModePageFlip_frame i st) as (Hm & _ & Hp & Hrc & Htl & Ht).
  rewrite Hrc in *.
  destruct (hd 0 (flip_rcs st) =? -1); cbn [m_outputs pending flip_rcs trace emit];
    rewrite ?Hm, ?Hp, ?Htl, ?Ht, <- ?app_assoc; cbn [app]; rewrite ?app_nil_r; auto.
Qed.

Lemma output_at_submit_flip (i j : nat) (st : State) :
  output_at (submit_flip i st) j = output_at st j.
Proof.
  unfold output_at. now rewrite (proj1 (submit_flip_facts i st)).
Qed.

Lemma valid_submit_flip (i j : nat) (st : State) :
  valid (submit_flip i st) j <-> valid st j.
Proof. unfold valid. now rewrite (proj1 (submit_flip_facts i st)). Qed.

Lemma occ_after_submit (i : nat) (st : State) :
  occ i (pending st) = 0%nat ->
  occ i (pending (submit_flip i st))
  = (if hd 0 (flip_rcs st) =? 0 then 1%nat else 0%nat).
Proof.
  intros H. destruct (submit_flip_facts i st) as (_ & -> & _).
  destruct (hd 0 (flip_rcs st) =? 0); rewrite ?occ_app, ?occ_single, ?Nat.eqb_refl; lia.
Qed.

Lemma swapBuffers_local (i : nat) (st s : State) :
  valid st i -> in_bounds (backFb (output_at st i)) -> flight_ok st i ->
  swapBuffers i st = Returns s ->
  valid s i /\ flipped (output_at s i) = true /\
  backFb (output_at s i)
  = (if flipped (output_at st i) then rot (backFb (output_at st i))
     else backFb (output_at st i)) /\
  occ i (pending s) = (if hd 0 (flip_rcs st) =? 0 then 1%nat else 0%nat) /\
  flip_rcs s = tl (flip_rcs st).
Proof.
  intros Hv Hb [Hone Hidle]. rewrite swapBuffers_unfold.
  destruct (flipped (output_at st i)) eqn:Hfl.
  - pose proof (wait_flip_local (reads st) i _ st Hv Hb Hone eq_refl) as Hw.
    destruct (wait_flip_facts (reads st) i (backFb (output_at st i)) st)
      as (_ & _ & Hrc & Hf & _).
    destruct (wait_flip (reads st) i (backFb (output_at st i)) st) as [w|w];
      [|discriminate].
    cbn [final] in *. destruct Hw as (Hvw & _ & Ho & Hr).
    intros Hs. injection Hs as <-.
    rewrite output_at_submit_flip, occ_after_submit by exact Ho.
    rewrite (proj1 (proj2 (proj2 (submit_flip_facts i w)))), Hrc, Hf.
    repeat split; auto. now apply valid_submit_flip.
  - set (w := modify_output st i (fun o => set_flipped o true)).
    assert (Hatw : output_at w i = set_flipped (output_at st i) true).
    { unfold w. rewrite output_at_modify, Nat.eqb_refl.
      apply Nat.ltb_lt in Hv. now rewrite Hv. }
    assert (Hvw : valid w i)
      by (unfold valid, w, modify_output in *; cbn; now rewrite length_update_nth).
    intros Hs. injection Hs as <-.
    rewrite output_at_submit_flip, occ_after_submit by exact (Hidle eq_refl).
    rewrite (proj1 (proj2 (proj2 (submit_flip_facts i w)))), Hatw.
    repeat split; auto. now apply valid_submit_flip.
Qed.

(** * Slot rotation over calls in a row *)

Lemma lxor_parity_cases (b : Z) (n : nat) :
  in_bounds b ->
  in_bounds (Z.lxor b (Z.of_nat n mod 2)) /\
  rot (Z.lxor b (Z.of_nat n mod 2)) = Z.lxor b (Z.of_nat (S n) mod 2).
Proof.
  intros Hb. rewrite <- (rot_parity n).
  destruct (rot_cases b Hb) as [[-> _]|[-> _]];
    destruct (rot_cases _ (parity_in_bounds n)) as [[-> ->]|[-> ->]];
    split; try reflexivity; unfold in_bounds, BUFFER_COUNT; cbn; lia.
Qed.

Lemma swaps_prefix_returns (N k : nat) (i : nat) (st : State) :
  returned (swaps N i st) = true -> (k <= N)%nat -> returned (swaps k i st) = true.
Proof.
  induction N as [|N IH]; intros Hr Hk.
  - assert (k = 0%nat) as -> by lia. reflexivity.
  - destruct (Nat.eq_dec k (S N)) as [->|Hne]; [exact Hr|].
    apply IH; [|lia]. cbn [swaps] in Hr.
    destruct (swaps N i st); [reflexivity|discriminate Hr].
Qed.

Lemma swaps_state (k : nat) (i : nat) (st s : State) :
  valid st i -> in_bounds (backFb (output_at st i)) -> flight_ok st i ->
  swaps k i st = Returns s ->
  valid s i /\ in_bounds (backFb (output_at s i)) /\ flight_ok s i /\
  flipped (output_at s i)
  = (match k with O => flipped (output_at st i) | S _ => true end) /\
  backFb (output_at s i)
  = Z.lxor (backFb (output_at st i))
           (Z.of_nat (rotations (flipped (output_at st i)) k) mod 2).
Proof.
  intros Hv Hb Hf. revert s. induction k as [|k IH]; intros s Hs.
  - cbn in Hs. injection Hs as <-.
    split; [exact Hv|]. split; [exact Hb|]. split; [exact Hf|]. split; [reflexivity|].
    assert (Hz : Z.of_nat (rotations (flipped (output_at st i)) 0) mod 2 = 0)
      by (destruct (flipped (output_at st i)); reflexivity).
    rewrite Hz. now rewrite Z.lxor_0_r.
  - cbn [swaps] in Hs. destruct (swaps k i st) as [s1|s1]; [|discriminate Hs].
    destruct (IH s1 eq_refl) as (Hv1 & Hb1 & Hf1 & Hfl1 & Hbk).
    destruct (swapBuffers_local i s1 s Hv1 Hb1 Hf1 Hs) as (Hvs & Hfls & Hbs & Hos & _).
    assert (Hback : backFb (output_at s i)
                    = Z.lxor (backFb (output_at st i))
                        (Z.of_nat (rotations (flipped (output_at st i)) (S k)) mod 2)).
    { rewrite Hbs, Hfl1, Hbk. unfold rotations.
      destruct k as [|k]; destruct (flipped (output_at st i)); cbn [pred];
        try apply (proj2 (lxor_parity_cases _ _ Hb)); reflexivity. }
    split; [exact Hvs|]. split; [|split; [|split; [exact Hfls|exact Hback]]].
    + rewrite Hback. apply (lxor_parity_cases _ _ Hb).
    + split.
      * rewrite Hos. destruct (hd 0 (flip_rcs s1) =? 0); lia.
      * rewrite Hfls. discriminate.
Qed.

(** C1, as stated, fails: on a fresh Output the first [swapBuffers] does not
    wait, so after one call [backFb] is still 0, not [0 xor (1 mod 2)]. *)
Lemma slot_rotation_counterexample :
  backFb (output_at (one_output [] []) 0) = 0 /\
  returned (swaps 1 0 (one_output [] [])) = true /\
  backFb (output_at (final (swaps 1 0 (one_output [] []))) 0) = 0 /\
  Z.lxor 0 (Z.of_nat 1 mod 2) = 1.
Proof. repeat split. Qed.

(** C1, amended.  For [N] calls of [swapBuffers] in a row on one Output that
    all return, [backFb] after the first [k] of them (any [k <= N]) is the
    value before the calls xor ([r] mod 2), where [r] counts the calls that
    waited for a completion: [r = k] when a request was already out before
    the first call, [r = k - 1] on an Output whose first call does not wait.
    So from the second call on, [backFb] alternates with every call. *)
Theorem slot_rotation (st : State) (i : nat) (N : nat) :
  valid st i -> in_bounds (backFb (output_at st i)) -> flight_ok st i ->
  returned (swaps N i st) = true ->
  forall k, (k <= N)%nat ->
    returned (swaps k i st) = true /\
    backFb (output_at (final (swaps k i st)) i)
    = Z.lxor (backFb (output_at st i))
             (Z.of_nat (rotations (flipped (output_at st i)) k) mod 2).
Proof.
  intros Hv Hb Hf Hr k Hk.
  pose proof (swaps_prefix_returns N k i st Hr Hk) as Hrk.
  split; [exact Hrk|].
  destruct (swaps k i st) as [s|s] eqn:E; [|discriminate Hrk].
  cbn [final]. apply (swaps_state k i st s Hv Hb Hf E).
Qed.

Lemma slot_rotation_witness :
  valid (one_output (prompt_reads 3) []) 0 /\
  flight_ok (one_output (prompt_reads 3) []) 0 /\
  returned (swaps 3 0 (one_output (prompt_reads 3) [])) = true /\
  backFb (output_at (final (swaps 3 0 (one_output (prompt_reads 3) []))) 0)
  = Z.lxor 0 (Z.of_nat 2 mod 2).
Proof.
  assert (Hv : valid (one_output (prompt_reads 3) []) 0) by (vm_compute; lia).
  assert (Hb : in_bounds (backFb (output_at (one_output (prompt_reads 3) []) 0)))
    by (change (in_bounds 0); unfold in_bounds, BUFFER_COUNT; lia).
  assert (Hf : flight_ok (one_output (prompt_reads 3) []) 0)
    by (split; [vm_compute; lia|reflexivity]).
  assert (Hr : returned (swaps 3 0 (one_output (prompt_reads 3) [])) = true)
    by reflexivity.
  split; [exact Hv|]. split; [exact Hf|]. split; [exact Hr|].
  exact (proj2 (slot_rotation (one_output (prompt_reads 3) []) 0 3 Hv Hb Hf Hr 3 (le_n 3))).
Defined.

(** * Start-up and shutdown touch neither the queue nor [backFb] *)

Lemma startup_is_idle (e : Event) : is_startup_event e = true -> is_idle_event e = true.
Proof. destruct e; cbn; congruence. Qed.

Lemma startup_all_idle (es : list Event) :
  forallb is_startup_event es = true -> forallb is_idle_event es = true.
Proof.
  rewrite !forallb_forall. intros H e He. apply startup_is_idle. now apply H.
Qed.

Lemma startup_no_fill (es : list Event) :
  forallb is_startup_event es = true -> Forall fill_in_bounds es.
Proof.
  rewrite forallb_forall, Forall_forall. intros H e He. specialize (H e He).
  destruct e; cbn in *; try exact Logic.I. discriminate H.
Qed.

Lemma createFramebuffer_static (k : AllocResp) (o : Output) (idx : Z) :
  backFb (snd (fst (createFramebuffer k o idx))) = backFb o /\
  flipped (snd (fst (createFramebuffer k o idx))) = flipped o /\
  kmsOutput (snd (fst (createFramebuffer k o idx))) = kmsOutput o /\
  forallb is_startup_event (snd (createFramebuffer k o idx)) = true.
Proof.
  unfold createFramebuffer.
  destruct (create_rc k =? -1); [cbn; auto|].
  destruct (addfb_rc k =? -1); [cbn; auto|].
  destruct (map_rc k =? -1); [cbn; auto|].
  cbn [p]. destruct (mmap_p k =? MAP_FAILED); cbn; auto.
Qed.

Lemma create_slots_static (k : Z -> AllocResp) (o : Output) (idxs : list Z) :
  backFb (snd (fst (create_slots k o idxs))) = backFb o /\
  flipped (snd (fst (create_slots k o idxs))) = flipped o /\
  kmsOutput (snd (fst (create_slots k o idxs))) = kmsOutput o /\
  forallb is_startup_event (snd (create_slots k o idxs)) = true.
Proof.
  revert o. induction idxs as [|i more IH]; intros o; [cbn; auto|].
  cbn [create_slots].
  destruct (createFramebuffer_static (k i) o i) as (H1 & H2 & H3 & H4).
  destruct (createFramebuffer (k i) o i) as [[ok o1] e1]. cbn [fst snd] in *.
  destruct ok; [|cbn; auto].
  destruct (IH o1) as (J1 & J2 & J3 & J4).
  destruct (create_slots k o1 more) as [[ok2 o2] e2]. cbn [fst snd] in *.
  rewrite forallb_app, H4, J4, J1, J2, J3. auto.
Qed.

Lemma createFramebuffers_from_static (k : nat -> Z -> AllocResp) (j : nat)
      (os : list Output) :
  Forall fresh os ->
  Forall fresh (fst (createFramebuffers_from k j os)) /\
  forallb is_startup_event (snd (createFramebuffers_from k j os)) = true.
Proof.
  revert j. induction os as [|o more IH]; intros j Hf; [cbn; auto|].
  cbn [createFramebuffers_from].
  inversion Hf as [|? ? Ho Hmore]; subst.
  destruct (create_slots_static (k j) o buffer_indices) as (H1 & H2 & _ & H4).
  destruct (create_slots (k j) o buffer_indices) as [[ok o1] e1]. cbn [fst snd] in *.
  destruct ok.
  - destruct (IH (S j) Hmore) as (J1 & J2).
    destruct (createFramebuffers_from k (S j) more) as [more' e2]. cbn [fst snd] in *.
    split; [|now rewrite forallb_app, H4, J2].
    constructor; [split; reflexivity|exact J1].
  - cbn [fst snd]. split; [|exact H4].
    constructor; [|exact Hmore]. destruct Ho as [Hb Hfl]. split; congruence.
Qed.

Lemma setMode_from_static (rc : nat -> Z) (j : nat) (os : list Output) :
  Forall fresh os ->
  Forall fresh (fst (setMode_from rc j os)) /\
  forallb is_startup_event (snd (setMode_from rc j os)) = true.
Proof.
  revert j. induction os as [|o more IH]; intros j Hf; [cbn; auto|].
  cbn [setMode_from]. inversion Hf as [|? ? Ho Hmore]; subst.
  destruct (rc j =? -1); [cbn; auto|].
  destruct (IH (S j) Hmore) as (J1 & J2).
  destruct (setMode_from rc (S j) more) as [more' e2]. cbn [fst snd] in *.
  split; [constructor; [exact Ho|exact J1]|exact J2].
Qed.

Lemma createScreens_outputs (l : list QKmsOutput) (st : State) :
  m_outputs (fold_left (fun s output => createScreen output s) l st)
  = m_outputs st ++ map Output_new l /\
  pending (fold_left (fun s output => createScreen output s) l st) = pending st /\
  trace (fold_left (fun s output => createScreen output s) l st) = trace st.
Proof.
  revert st. induction l as [|k l IH]; intros st; cbn [fold_left map].
  - now rewrite app_nil_r.
  - destruct (IH (createScreen k st)) as (-> & -> & ->).
    cbn. now rewrite <- app_assoc.
Qed.

Lemma started_quiet (b : Boot) (rs : list (list bool)) (rcs : list Z) :
  pending (started b rs rcs) = [] /\
  forallb is_startup_event (trace (started b rs rcs)) = true /\
  Forall fresh (m_outputs (started b rs rcs)).
Proof.
  unfold started, DumbBufferRenderer_new, Device_open.
  destruct (open_result b =? -1); [cbn; auto|].
  destruct ((getcap_rc b =? -1) || (hasDumbBuf b =? 0)); [cbn; auto|].
  cbn [fst]. unfold setMode, createFramebuffers, createScreens.
  set (s0 := set_fd _ _).
  destruct (createScreens_outputs (discovered b) s0) as (Ho & Hp & Ht).
  set (s1 := fold_left _ (discovered b) s0) in *.
  assert (F1 : Forall fresh (m_outputs s1)).
  { rewrite Ho. cbn. apply Forall_forall. intros o Hin.
    apply in_map_iff in Hin. destruct Hin as (k & <- & _). split; reflexivity. }
  destruct (createFramebuffers_from_static (alloc b) 0 (m_outputs s1) F1) as (F2 & E2).
  destruct (createFramebuffers_from (alloc b) 0 (m_outputs s1)) as [os2 es2].
  cbn [fst snd] in *. cbn [m_outputs emit set_outputs].
  destruct (setMode_from_static (setcrtc_rc b) 0 os2 F2) as (F3 & E3).
  destruct (setMode_from (setcrtc_rc b) 0 os2) as [os3 es3].
  cbn [fst snd] in *. cbn [m_outputs emit set_outputs pending trace].
  split; [exact Hp|]. split; [|exact F3].
  rewrite Ht. cbn. now rewrite !forallb_app, E2, E3.
Qed.

Lemma protocol_inv_quiet (st : State) :
  pending st = [] -> forallb is_startup_event (trace st) = true ->
  Forall fresh (m_outputs st) -> protocol_inv st.
Proof.
  intros Hp Ht Hf.
  pose proof (startup_all_idle _ Ht) as Hidle.
  split; intros.
  - rewrite (acked_idle i _ Hidle). cbn.
    rewrite Forall_forall in Hf. apply (Hf (output_at st i)).
    apply nth_In. exact H.
  - rewrite Hp, (acked_idle i _ Hidle), (submitted_idle i _ Hidle). reflexivity.
  - now rewrite Hp.
  - intros pre [suf Hpre]. rewrite Hpre, forallb_app in Hidle.
    apply andb_prop in Hidle. rewrite (submitted_idle i pre (proj1 Hidle)). lia.
  - intros pre e suf Heq He. rewrite Heq, forallb_app in Hidle.
    apply andb_prop in Hidle. destruct Hidle as [_ H2]. cbn in H2.
    apply andb_prop in H2. rewrite (idle_not_flip_call i e (proj1 H2)) in He. discriminate He.
  - now apply startup_no_fill.
Qed.

Lemma started_inv (b : Boot) (rs : list (list bool)) (rcs : list Z) :
  protocol_inv (started b rs rcs).
Proof.
  destruct (started_quiet b rs rcs) as (Hp & Ht & Hf).
  now apply protocol_inv_quiet.
Qed.

(** * What one call and one tick add to the trace *)

Lemma count_flip_call_single (j : nat) (c f : Z) (i : nat) (rc : Z) (tail : list Event) :
  forallb is_warning tail = true ->
  count (is_flip_call j) (PageFlip c f i rc :: tail)
  = (if Nat.eqb i j then 1%nat else 0%nat) /\
  count (is_fill j) (PageFlip c f i rc :: tail) = 0%nat.
Proof.
  intros Hw.
  assert (Z1 : count (is_flip_call j) tail = 0%nat).
  { apply count_idle. intros e He. rewrite forallb_forall in Hw.
    specialize (Hw e He). destruct e; cbn in *; congruence. }
  assert (Z2 : count (is_fill j) tail = 0%nat).
  { apply count_idle. intros e He. rewrite forallb_forall in Hw.
    specialize (Hw e He). destruct e; cbn in *; congruence. }
  unfold count in *. cbn [filter is_flip_call is_fill].
  destruct (Nat.eqb i j); cbn [List.length]; rewrite ?Z1, ?Z2; auto.
Qed.

Lemma swapBuffers_facts (i : nat) (st : State) :
  let r := swapBuffers i st in
  List.length (m_outputs (final r)) = List.length (m_outputs st) /\
  (forall j, fbs (output_at (final r) j) = fbs (output_at st j)) /\
  exists es, trace (final r) = trace st ++ es /\
             (forall j, count (is_fill j) es = 0%nat) /\
             (forall j, count (is_flip_call j) es
                        = if returned r && Nat.eqb i j then 1%nat else 0%nat).
Proof.
  cbn zeta. rewrite swapBuffers_unfold.
  assert (Hsub : forall w, exists es,
             trace (submit_flip i w) = trace w ++ es /\
             (forall j, count (is_fill j) es = 0%nat) /\
             (forall j, count (is_flip_call j) es = if Nat.eqb i j then 1%nat else 0%nat)).
  { intros w. destruct (submit_flip_facts i w) as (_ & _ & _ & Ht).
    eexists. split; [exact Ht|].
    split; intros j; apply count_flip_call_single;
      destruct (hd 0 (flip_rcs w) =? -1); reflexivity. }
  destruct (flipped (output_at st i)).
  - destruct (wait_flip_facts (reads st) i (backFb (output_at st i)) st)
      as ((es & He & Hq) & Hl & _ & _ & Hb & _).
    destruct (wait_flip (reads st) i (backFb (output_at st i)) st) as [w|w];
      cbn [final returned andb] in *.
    + destruct (Hsub w) as (es2 & He2 & Hf2 & Hc2).
      split; [now rewrite (proj1 (submit_flip_facts i w))|].
      split; [intros j; now rewrite output_at_submit_flip|].
      exists (es ++ es2). split; [now rewrite He2, He, app_assoc|].
      split; intros j; rewrite count_app;
        destruct (wait_events_quiet j es Hq) as (_ & Hc & Hf);
        rewrite ?Hc, ?Hf, ?Hf2, ?Hc2; reflexivity.
    + split; [exact Hl|]. split; [exact Hb|].
      exists es. split; [exact He|].
      split; intros j; now destruct (wait_events_quiet j es Hq) as (_ & Hc & Hf).
  - cbn [final returned andb].
    set (w := modify_output st i (fun o => set_flipped o true)).
    destruct (Hsub w) as (es2 & He2 & Hf2 & Hc2).
    split; [rewrite (proj1 (submit_flip_facts i w)); unfold w; cbn;
            apply length_update_nth|].
    split.
    + intros j. rewrite output_at_submit_flip. unfold w. rewrite output_at_modify.
      destruct (Nat.eqb j i && Nat.ltb j (List.length (m_outputs st))); reflexivity.
    + exists es2. auto.
Qed.

Lemma update_output_facts (i : nat) (st : State) :
  let r := update_output i st in
  let live := negb (p (fb_at (output_at st i) (backFb (output_at st i))) =? MAP_FAILED) in
  List.length (m_outputs (final r)) = List.length (m_outputs st) /\
  (forall j, fbs (output_at (final r) j) = fbs (output_at st j)) /\
  exists es, trace (final r) = trace st ++ es /\
             (forall j, count (is_fill j) es
                        = if live && Nat.eqb i j then 1%nat else 0%nat) /\
             (forall j, count (is_flip_call j) es
                        = if live && returned r && Nat.eqb i j then 1%nat else 0%nat).
Proof.
  cbn zeta. unfold update_output.
  destruct (p (fb_at (output_at st i) (backFb (output_at st i))) =? MAP_FAILED);
    cbn [negb andb final].
  - split; [reflexivity|]. split; [reflexivity|].
    exists []. rewrite app_nil_r. auto.
  - set (e := Fill i _ _ _ _).
    set (st2 := set_rgb (emit st [e]) _ _ _).
    destruct (swapBuffers_facts i st2) as (Hl & Hb & es & He & Hf & Hc).
    split; [exact Hl|]. split; [exact Hb|].
    exists (e :: es). split; [rewrite He; unfold st2; cbn; now rewrite <- app_assoc|].
    split; intros j.
    + change (e :: es) with ([e] ++ es). rewrite count_app, Hf, Nat.add_0_r.
      unfold count, e; cbn [filter is_fill]. destruct (Nat.eqb i j); reflexivity.
    + change (e :: es) with ([e] ++ es). rewrite count_app, Hc. reflexivity.
Qed.

Lemma update_output_inv (i : nat) (st : State) :
  protocol_inv st -> valid st i -> protocol_inv (final (update_output i st)).
Proof.
  intros I Hv. unfold update_output.
  destruct (p (fb_at (output_at st i) (backFb (output_at st i))) =? MAP_FAILED);
    [exact I|].
  apply swapBuffers_inv; [|exact Hv].
  apply (protocol_inv_ext (emit st [Fill i (backFb (output_at st i))
           (p (fb_at (output_at st i) (backFb (output_at st i))))
           (size (fb_at (output_at st i) (backFb (output_at st i))) / 4) (colour st)]));
    try reflexivity.
  apply inv_emit_idle; [exact I|reflexivity|].
  constructor; [|constructor]. cbn. now apply inv_in_bounds.
Qed.

Lemma update_loop_inv (idxs : list nat) (st : State) :
  protocol_inv st -> (forall i, In i idxs -> valid st i) ->
  protocol_inv (final (update_loop idxs st)) /\
  List.length (m_outputs (final (update_loop idxs st))) = List.length (m_outputs st).
Proof.
  revert st. induction idxs as [|i more IH]; intros st I Hv; cbn [update_loop];
    [now split|].
  pose proof (update_output_inv i st I (Hv i (or_introl eq_refl))) as I1.
  destruct (update_output_facts i st) as (Hl & _).
  destruct (update_output i st) as [s|s]; cbn [final] in *; [|now split].
  destruct (IH s I1) as (I2 & Hl2).
  - intros j Hj. unfold valid. rewrite Hl. apply Hv. now right.
  - split; [exact I2|]. now rewrite Hl2.
Qed.

Lemma update_inv (st : State) :
  protocol_inv st ->
  protocol_inv (final (update st)) /\
  List.length (m_outputs (final (update st))) = List.length (m_outputs st).
Proof.
  intros I. apply update_loop_inv; [exact I|].
  intros i Hi. apply in_seq in Hi. unfold valid. lia.
Qed.

Lemma ticks_inv (n : nat) (st : State) :
  protocol_inv st -> protocol_inv (final (ticks n st)).
Proof.
  revert st. induction n as [|n IH]; intros st I; cbn [ticks]; [exact I|].
  destruct (update_inv st I) as (I1 & _).
  destruct (update st) as [s|s]; cbn [final] in *; [now apply IH|exact I1].
Qed.

Lemma destroyFramebuffer_events (k : FreeResp) (o : Output) (idx : Z) :
  forallb is_startup_event (snd (destroyFramebuffer k o idx)) = true.
Proof.
  unfold destroyFramebuffer; cbn [snd]. rewrite !forallb_app.
  destruct (p (fb_at o idx) =? MAP_FAILED), (fb (fb_at o idx) =? 0),
    (handle (fb_at o idx) =? 0), (rmfb_rc k =? -1), (destroy_rc k =? -1); reflexivity.
Qed.

Lemma destroy_slots_events (k : Z -> FreeResp) (o : Output) (idxs : list Z) :
  forallb is_startup_event (snd (destroy_slots k o idxs)) = true.
Proof.
  revert o. induction idxs as [|i more IH]; intros o; [reflexivity|].
  cbn [destroy_slots].
  pose proof (destroyFramebuffer_events (k i) o i) as H1.
  destruct (destroyFramebuffer (k i) o i) as [o1 e1].
  specialize (IH o1). destruct (destroy_slots k o1 more) as [o2 e2].
  cbn [snd] in *. now rewrite forallb_app, H1, IH.
Qed.

Lemma destroyFramebuffers_from_events (k : nat -> Z -> FreeResp) (j : nat)
      (os : list Output) :
  forallb is_startup_event (snd (destroyFramebuffers_from k j os)) = true.
Proof.
  revert j. induction os as [|o more IH]; intros j; [reflexivity|].
  cbn [destroyFramebuffers_from].
  pose proof (destroy_slots_events (k j) o buffer_indices) as H1.
  destruct (destroy_slots (k j) o buffer_indices) as [o1 e1].
  specialize (IH (S j)). destruct (destroyFramebuffers_from k (S j) more) as [m' e2].
  cbn [snd] in *. now rewrite forallb_app, H1, IH.
Qed.

Lemma shutdown_trace (b : Boot) (st : State) :
  exists es, trace (DumbBufferRenderer_delete b st) = trace st ++ es /\
             forallb is_startup_event es = true.
Proof.
  unfold DumbBufferRenderer_delete, destroyFramebuffers, Device_close.
  pose proof (destroyFramebuffers_from_events (free b) 0 (m_outputs st)) as H1.
  destruct (destroyFramebuffers_from (free b) 0 (m_outputs st)) as [os es].
  cbn [snd] in H1. cbn [fd emit set_outputs m_outputs trace].
  set (restores := flat_map _ os).
  assert (H2 : forallb is_startup_event restores = true).
  { unfold restores. clear. induction os as [|o os IH]; [reflexivity|].
    cbn [flat_map]. rewrite forallb_app, IH.
    destruct (mode_set (kmsOutput o)); reflexivity. }
  destruct (fd st =? -1); cbn [trace emit set_outputs set_fd].
  - exists (es ++ restores). split; [now rewrite app_assoc|].
    now rewrite forallb_app, H1, H2.
  - exists (es ++ restores ++ [CloseDevice (fd st)]). split.
    + now rewrite !app_assoc.
    + now rewrite !forallb_app, H1, H2.
Qed.

Lemma main_state (b : Boot) (rs : list (list bool)) (rcs : list Z) (n : nat) :
  exists s es, protocol_inv s /\
               trace (exit_state (main b rs rcs n)) = trace s ++ es /\
               forallb is_startup_event es = true.
Proof.
  unfold main. pose proof (started_inv b rs rcs) as I. unfold started in I.
  destruct (DumbBufferRenderer_new b (initial rs rcs)) as [st timer]. cbn [fst] in I.
  assert (J : protocol_inv (final (if timer then ticks n st else Returns st)))
    by (destruct timer; [now apply ticks_inv|exact I]).
  destruct (if timer then ticks n st else Returns st) as [s|s]; cbn [final] in J.
  - destruct (shutdown_trace b s) as (es & He & Hs).
    exists s, es. cbn [exit_state]. auto.
  - exists s, []. cbn [exit_state]. rewrite app_nil_r. auto.
Qed.

(** C2.  In every run of the program (any kernel answers, any schedule of
    reads, any number of ticks, whether the run ends or hangs in a wait), at
    every point of the trace the Output at position [i] has at most one
    accepted flip request without its completion callback, and every
    [drmModePageFlip] call for it comes at a point where the completion of
    each request accepted for it before has been consumed. *)
Theorem at_most_one_in_flight (b : Boot) (rs : list (list bool)) (rcs : list Z)
        (n : nat) (i : nat) :
  one_in_flight i (trace (exit_state (main b rs rcs n))) /\
  submits_when_idle i (trace (exit_state (main b rs rcs n))).
Proof.
  destruct (main_state b rs rcs n) as (s & es & I & -> & Hs).
  pose proof (startup_all_idle es Hs) as Hidle.
  split.
  - apply one_in_flight_app; [apply (inv_one s I)|now apply submitted_idle].
  - apply submits_when_idle_app; [apply (inv_when_idle s I)|].
    intros e He. apply idle_not_flip_call. rewrite forallb_forall in Hidle. now apply Hidle.
Qed.

(** C10.  [Output()] starts [backFb] at 0, and in every state the frame loop
    reaches (any kernel answers, any schedule of reads, any number of ticks,
    returned or blocked in a wait) the [backFb] of every Output is the number
    of completion callbacks run for it, modulo 2: only [pageFlipHandler]
    moves it, by one modulo [BUFFER_COUNT].  So it is 0 or 1, and every fill
    the trace records used a slot index in bounds. *)
Theorem backFb_in_bounds (b : Boot) (rs : list (list bool)) (rcs : list Z)
        (n : nat) (i : nat) :
  valid (final (ticks n (started b rs rcs))) i ->
  (forall k, backFb (Output_new k) = 0) /\
  backFb (output_at (final (ticks n (started b rs rcs))) i)
  = Z.of_nat (acked i (trace (final (ticks n (started b rs rcs))))) mod BUFFER_COUNT /\
  in_bounds (backFb (output_at (final (ticks n (started b rs rcs))) i)) /\
  Forall fill_in_bounds (trace (final (ticks n (started b rs rcs)))).
Proof.
  intros Hv.
  pose proof (ticks_inv n _ (started_inv b rs rcs)) as I.
  split; [reflexivity|]. split; [|split].
  - apply (inv_parity _ I i Hv).
  - now apply inv_in_bounds.
  - apply (inv_fills _ I).
Qed.

Lemma backFb_in_bounds_witness :
  valid (final (ticks 3 (started (boot_ok [kms_A]) (prompt_reads 3) []))) 0 /\
  backFb (output_at (final (ticks 3 (started (boot_ok [kms_A]) (prompt_reads 3) []))) 0)
  = Z.of_nat 2 mod BUFFER_COUNT /\
  in_bounds (backFb (output_at (final (ticks 3 (started (boot_ok [kms_A]) (prompt_reads 3) []))) 0)).
Proof.
  assert (Hv : valid (final (ticks 3 (started (boot_ok [kms_A]) (prompt_reads 3) []))) 0)
    by (vm_compute; lia).
  destruct (backFb_in_bounds (boot_ok [kms_A]) (prompt_reads 3) [] 3 0 Hv)
    as (_ & H1 & H2 & _).
  split; [exact Hv|]. split; [exact H1|exact H2].
Defined.

(** * The exit code *)

(** C6, as stated, fails: when the device cannot be opened, and when every
    mode set fails, [main] returns 0 just as after a clean run. *)
Lemma exit_code_counterexample :
  fst (Device_open (boot_open_fails [kms_A; kms_B]) (initial (prompt_reads 3) [])) = false /\
  exit_code (main (boot_open_fails [kms_A; kms_B]) (prompt_reads 3) [] 3) = Some 0 /\
  exit_code (main (boot_modeset_fails [kms_A]) (prompt_reads 3) [] 3) = Some 0 /\
  exit_code (main (boot_ok [kms_A]) (prompt_reads 3) [] 3) = Some 0.
Proof. repeat split. Qed.

(** C6, amended.  Whenever [main] returns, it returns 0: [app.exec()] is
    only ever ended by [QCoreApplication::quit].  That holds after a clean
    run and after any failure alike; in particular, when the device cannot
    be opened the timer is never started, so [main] does return, with 0. *)
Theorem exit_code_always_zero (b : Boot) (rs : list (list bool)) (rcs : list Z) (n : nat) :
  (exit_code (main b rs rcs n) = Some 0 \/ exit_code (main b rs rcs n) = None) /\
  (fst (Device_open b (initial rs rcs)) = false ->
   exit_code (main b rs rcs n) = Some 0).
Proof.
  unfold main, DumbBufferRenderer_new.
  destruct (Device_open b (initial rs rcs)) as [[|] st1]; cbn [fst].
  - split; [|discriminate].
    destruct (ticks n _); cbn; auto.
  - split; [left; reflexivity|reflexivity].
Qed.

Lemma exit_code_always_zero_witness :
  fst (Device_open (boot_open_fails [kms_A]) (initial [] [])) = false /\
  exit_code (main (boot_open_fails [kms_A]) [] [] 5) = Some 0.
Proof.
  split; [reflexivity|].
  exact (proj2 (exit_code_always_zero (boot_open_fails [kms_A]) [] [] 5) eq_refl).
Defined.

(** * After a refused flip request *)

Lemma wait_flip_other (rs : list (list bool)) (j : nat) (fbIdx : Z) (i : nat) (st : State) :
  valid st i -> occ i (pending st) = 0%nat ->
  backFb (output_at (final (wait_flip rs j fbIdx st)) i) = backFb (output_at st i) /\
  occ i (pending (final (wait_flip rs j fbIdx st))) = 0%nat.
Proof.
  revert st. induction rs as [|mask rs IH]; intros st Hv Ho; cbn [wait_flip].
  - destruct (backFb (output_at st j) =? fbIdx); cbn [final]; auto.
  - destruct (backFb (output_at st j) =? fbIdx); cbn [final]; [|auto].
    assert (Ho1 : (occ i (pending (set_reads st rs)) <= 1)%nat)
      by (change (pending (set_reads st rs)) with (pending st); lia).
    destruct (drmHandleEvent_local mask i (set_reads st rs) Hv Ho1)
      as (Hv1 & [(Hsame & Hocc)|(_ & Hone & _)]).
    + change (pending (set_reads st rs)) with (pending st) in Hocc.
      rewrite Ho in Hocc.
      destruct (IH _ Hv1 Hocc) as (H1 & H2). rewrite H1, Hsame. auto.
    + change (pending (set_reads st rs)) with (pending st) in Hone. lia.
Qed.

Lemma stuck_ext (st s : State) (i : nat) :
  m_outputs s = m_outputs st -> pending s = pending st -> stuck st i -> stuck s i.
Proof.
  intros Ho Hp (Hv & Hb & Hf & Hocc).
  unfold stuck, valid, output_at in *. rewrite Ho, Hp. auto.
Qed.

Lemma stuck_swapBuffers_other (i j : nat) (st : State) :
  j <> i -> stuck st i -> stuck (final (swapBuffers j st)) i.
Proof.
  intros Hne (Hv & Hb & Hf & Hocc). rewrite swapBuffers_unfold.
  assert (Hsub : forall w, stuck w i -> stuck (submit_flip j w) i).
  { intros w (Hv' & Hb' & Hf' & Ho').
    destruct (submit_flip_facts j w) as (Hm & Hp & _).
    unfold stuck. rewrite output_at_submit_flip, Hp.
    split; [now apply valid_submit_flip|]. split; [exact Hb'|]. split; [exact Hf'|].
    destruct (hd 0 (flip_rcs w) =? 0); [|exact Ho'].
    rewrite occ_app, occ_single, Ho'.
    apply Nat.eqb_neq in Hne. now rewrite Hne. }
  destruct (flipped (output_at st j)).
  - destruct (wait_flip_other (reads st) j (backFb (output_at st j)) i st Hv Hocc)
      as (Hback & Ho).
    destruct (wait_flip_facts (reads st) j (backFb (output_at st j)) st)
      as (_ & Hl & _ & Hfl & _).
    assert (Hw : stuck (final (wait_flip (reads st) j (backFb (output_at st j)) st)) i).
    { unfold stuck, valid. rewrite Hl, Hback, Hfl. auto. }
    destruct (wait_flip (reads st) j (backFb (output_at st j)) st);
      cbn [final] in *; [now apply Hsub|exact Hw].
  - cbn [final]. apply Hsub. unfold stuck, valid.
    rewrite output_at_modify.
    assert (Hb' : Nat.eqb i j = false) by (apply Nat.eqb_neq; congruence).
    rewrite Hb'. cbn [andb modify_output set_outputs m_outputs pending].
    rewrite length_update_nth. auto.
Qed.

Lemma stuck_swapBuffers_self (i : nat) (st : State) :
  stuck st i ->
  returned (swapBuffers i st) = false /\ stuck (final (swapBuffers i st)) i.
Proof.
  intros (Hv & Hb & Hf & Hocc). rewrite swapBuffers_unfold, Hf.
  assert (Ho1 : (occ i (pending st) <= 1)%nat) by lia.
  pose proof (wait_flip_local (reads st) i _ st Hv Hb Ho1 eq_refl) as Hw.
  destruct (wait_flip_other (reads st) i (backFb (output_at st i)) i st Hv Hocc)
    as (Hback & Ho).
  destruct (wait_flip_facts (reads st) i (backFb (output_at st i)) st)
    as (_ & Hl & _ & Hfl & _).
  destruct (wait_flip (reads st) i (backFb (output_at st i)) st) as [w|w];
    cbn [final returned] in *.
  - destruct Hw as (_ & Hone & _). lia.
  - split; [reflexivity|]. unfold stuck, valid. rewrite Hl, Hback, Hfl. auto.
Qed.

Lemma stuck_update_output (i j : nat) (st : State) :
  stuck st i ->
  stuck (final (update_output j st)) i /\
  count (is_flip_call i) (trace (final (update_output j st)))
  = count (is_flip_call i) (trace st).
Proof.
  intros Hs.
  destruct (update_output_facts j st) as (_ & _ & es & He & _ & Hc).
  assert (Hstuck : stuck (final (update_output j st)) i /\
                   (j = i ->
                    (p (fb_at (output_at st j) (backFb (output_at st j))) =? MAP_FAILED) = false ->
                    returned (update_output j st) = false)).
  { unfold update_output.
    destruct (p (fb_at (output_at st j) (backFb (output_at st j))) =? MAP_FAILED);
      [split; [exact Hs|discriminate]|].
    set (st2 := set_rgb _ _ _ _).
    assert (Hs2 : stuck st2 i) by (apply (stuck_ext st); [reflexivity|reflexivity|exact Hs]).
    destruct (Nat.eq_dec j i) as [->|Hne].
    - destruct (stuck_swapBuffers_self i st2 Hs2). auto.
    - split; [now apply stuck_swapBuffers_other|congruence]. }
  destruct Hstuck as (H1 & H2). split; [exact H1|].
  rewrite He, count_app, Hc.
  destruct (Nat.eq_dec j i) as [->|Hne].
  - destruct (p (fb_at (output_at st i) (backFb (output_at st i))) =? MAP_FAILED) eqn:E;
      cbn [negb andb]; [lia|].
    rewrite (H2 eq_refl eq_refl). cbn [andb]. lia.
  - apply Nat.eqb_neq in Hne. rewrite Hne, andb_false_r. lia.
Qed.

Lemma stuck_update_loop (i : nat) (idxs : list nat) (st : State) :
  stuck st i ->
  stuck (final (update_loop idxs st)) i /\
  count (is_flip_call i) (trace (final (update_loop idxs st)))
  = count (is_flip_call i) (trace st).
Proof.
  revert st. induction idxs as [|j more IH]; intros st Hs; cbn [update_loop];
    [now split|].
  destruct (stuck_update_output i j st Hs) as (H1 & H2).
  destruct (update_output j st) as [s|s]; cbn [final] in *; [|now split].
  destruct (IH s H1) as (H3 & H4). split; [exact H3|]. now rewrite H4.
Qed.

Lemma stuck_ticks (i : nat) (n : nat) (st : State) :
  stuck st i ->
  count (is_flip_call i) (trace (final (ticks n st)))
  = count (is_flip_call i) (trace st).
Proof.
  revert st. induction n as [|n IH]; intros st Hs; cbn [ticks]; [reflexivity|].
  destruct (stuck_update_loop i (seq 0 (List.length (m_outputs st))) st Hs) as (H1 & H2).
  unfold update. destruct (update_loop _ st) as [s|s]; cbn [final] in *; [|exact H2].
  now rewrite (IH s H1).
Qed.

(** C5, as stated, fails: with two Outputs, when the first flip request of
    Output 0 is refused, the next tick fills Output 0's buffer again (it is
    not dropped), then waits for ever for a completion that cannot come, so
    Output 1 gets one frame in all although three ticks were due, and the run
    never ends. *)
Lemma flip_failure_counterexample :
  exit_code (main (boot_ok [kms_A; kms_B]) (prompt_reads 5) [-1] 3) = None /\
  count (is_fill 0)
        (after_refusal
           (trace (exit_state (main (boot_ok [kms_A; kms_B]) (prompt_reads 5) [-1] 3))))
  = 1%nat /\
  count (is_fill 1)
        (trace (exit_state (main (boot_ok [kms_A; kms_B]) (prompt_reads 5) [-1] 3)))
  = 1%nat.
Proof. repeat split. Qed.

(** C5, amended.  When [drmModePageFlip] returns -1 in [swapBuffers], the
    warning "Page flip failed" is the last entry of the trace when the call
    returns, and the Output is left marked as flipped with no request in the
    kernel's queue.  The Output is not dropped: the next time [update] gets
    to it with a mapped buffer, it fills that buffer again and calls
    [swapBuffers], which then does not return.  No later tick submits a flip
    request for it. *)
Theorem flip_failure (st s : State) (i : nat) :
  valid st i -> in_bounds (backFb (output_at st i)) -> flight_ok st i ->
  hd 0 (flip_rcs st) = -1 ->
  swapBuffers i st = Returns s ->
  (exists pre c f, trace s = pre ++ [PageFlip c f i (-1); Warning "Page flip failed"]) /\
  stuck s i /\
  (p (fb_at (output_at s i) (backFb (output_at s i))) <> MAP_FAILED ->
   count (is_fill i) (trace (final (update_output i s))) = S (count (is_fill i) (trace s)) /\
   returned (update_output i s) = false) /\
  (forall n, count (is_flip_call i) (trace (final (ticks n s)))
             = count (is_flip_call i) (trace s)).
Proof.
  intros Hv Hb Hf Hrc Hs.
  destruct (swapBuffers_local i st s Hv Hb Hf Hs) as (Hvs & Hfls & Hbs & Hos & _).
  assert (Hbnd : in_bounds (backFb (output_at s i))).
  { rewrite Hbs. destruct (flipped (output_at st i)); [now apply rot_in_bounds|exact Hb]. }
  assert (Hstuck : stuck s i).
  { unfold stuck. rewrite Hos, Hrc. cbn. auto. }
  split; [|split; [exact Hstuck|split]].
  - rewrite swapBuffers_unfold in Hs.
    destruct (if flipped (output_at st i) then _ else _) as [w|w] eqn:E; [|discriminate Hs].
    injection Hs as <-.
    assert (Hrcw : flip_rcs w = flip_rcs st).
    { destruct (flipped (output_at st i)).
      - destruct (wait_flip_facts (reads st) i (backFb (output_at st i)) st)
          as (_ & _ & Hr & _). rewrite E in Hr. exact Hr.
      - injection E as <-. reflexivity. }
    destruct (submit_flip_facts i w) as (_ & _ & _ & Ht).
    rewrite Hrcw, Hrc in Ht. cbn in Ht. eauto.
  - intros Hp.
    destruct (update_output_facts i s) as (_ & _ & es & He & Hfill & _).
    split.
    + rewrite He, count_app, Hfill, Nat.eqb_refl.
      apply Z.eqb_neq in Hp. rewrite Hp. cbn. lia.
    + unfold update_output. apply Z.eqb_neq in Hp. rewrite Hp.
      apply stuck_swapBuffers_self. now apply (stuck_ext s).
  - intros n. now apply stuck_ticks.
Qed.

Lemma flip_failure_witness :
  valid refused_once 0 /\
  hd 0 (flip_rcs refused_once) = -1 /\
  swapBuffers 0 refused_once = Returns (final (swapBuffers 0 refused_once)) /\
  stuck (final (swapBuffers 0 refused_once)) 0 /\
  returned (update_output 0 (final (swapBuffers 0 refused_once))) = false.
Proof.
  assert (Hv : valid refused_once 0) by (vm_compute; lia).
  assert (Hb : in_bounds (backFb (output_at refused_once 0)))
    by (change (in_bounds 0); exact in_bounds_0).
  assert (Hf : flight_ok refused_once 0)
    by (split; [vm_compute; lia|intros _; vm_compute; reflexivity]).
  assert (Hrc : hd 0 (flip_rcs refused_once) = -1) by (vm_compute; reflexivity).
  assert (Hs : swapBuffers 0 refused_once = Returns (final (swapBuffers 0 refused_once)))
    by (vm_compute; reflexivity).
  assert (Hp : p (fb_at (output_at (final (swapBuffers 0 refused_once)) 0)
                        (backFb (output_at (final (swapBuffers 0 refused_once)) 0)))
               <> MAP_FAILED)
    by (vm_compute; discriminate).
  pose proof (flip_failure refused_once (final (swapBuffers 0 refused_once)) 0
                Hv Hb Hf Hrc Hs) as H.
  destruct H as (_ & Hst & Hnext & _).
  split; [exact Hv|]. split; [exact Hrc|]. split; [exact Hs|]. split; [exact Hst|].
  exact (proj2 (Hnext Hp)).
Defined.

(** * Allocation at start-up *)

Lemma createFramebuffer_grants (k : AllocResp) (o : Output) (idx : Z) :
  fst (fst (createFramebuffer k o idx)) = grants k.
Proof.
  unfold createFramebuffer, grants.
  destruct (create_rc k =? -1); [reflexivity|].
  destruct (addfb_rc k =? -1); [reflexivity|].
  destruct (map_rc k =? -1); [reflexivity|].
  cbn [p]. destruct (mmap_p k =? MAP_FAILED); reflexivity.
Qed.

Lemma fb_at_set_fb_other (o : Output) (idx idx' : Z) (f : Framebuffer) :
  idx' <> idx -> fb_at (set_fb o idx f) idx' = fb_at o idx'.
Proof.
  intros Hne. unfold fb_at, set_fb; cbn [fbs].
  destruct (Z.eqb_spec idx' 0) as [A0|A0]; destruct (Z.eqb_spec idx' 1) as [A1|A1];
    destruct (Z.eqb_spec idx 0) as [B0|B0]; destruct (Z.eqb_spec idx 1) as [B1|B1];
    try reflexivity; lia.
Qed.

Lemma createFramebuffer_other_slot (k : AllocResp) (o : Output) (idx idx' : Z) :
  idx' <> idx -> fb_at (snd (fst (createFramebuffer k o idx))) idx' = fb_at o idx'.
Proof.
  intros Hne. unfold createFramebuffer.
  destruct (create_rc k =? -1); [reflexivity|].
  destruct (addfb_rc k =? -1); [now apply fb_at_set_fb_other|].
  destruct (map_rc k =? -1); [now apply fb_at_set_fb_other|].
  cbn [p]. destruct (mmap_p k =? MAP_FAILED); now apply fb_at_set_fb_other.
Qed.

Lemma createFramebuffer_granted_mapped (k : AllocResp) (o : Output) (idx : Z) :
  in_bounds idx -> grants k = true ->
  p (fb_at (snd (fst (createFramebuffer k o idx))) idx) <> MAP_FAILED.
Proof.
  intros Hb Hg. rewrite <- (createFramebuffer_grants k o idx) in Hg.
  destruct (createFramebuffer_true k o idx Hg) as (_ & _ & _ & Hp & ->).
  now rewrite fb_at_set_fb.
Qed.

Lemma create_slots_granted (k : Z -> AllocResp) (o : Output) :
  grants (k 0) = true -> grants (k 1) = true ->
  fst (fst (create_slots k o buffer_indices)) = true /\
  both_mapped (snd (fst (create_slots k o buffer_indices))).
Proof.
  intros G0 G1. unfold buffer_indices. cbn [create_slots].
  pose proof (createFramebuffer_grants (k 0) o 0) as E0.
  pose proof (createFramebuffer_granted_mapped (k 0) o 0 in_bounds_0 G0) as M0.
  destruct (createFramebuffer (k 0) o 0) as [[ok0 o0] e0]. cbn [fst snd] in *.
  rewrite E0, G0.
  pose proof (createFramebuffer_grants (k 1) o0 1) as E1.
  pose proof (createFramebuffer_granted_mapped (k 1) o0 1 in_bounds_1 G1) as M1.
  pose proof (createFramebuffer_other_slot (k 1) o0 1 0 ltac:(lia)) as S0.
  destruct (createFramebuffer (k 1) o0 1) as [[ok1 o1] e1]. cbn [fst snd] in *.
  rewrite E1, G1. cbn [fst snd]. split; [reflexivity|].
  split; [now rewrite S0|exact M1].
Qed.

Lemma create_slots_refused (k : Z -> AllocResp) (o : Output) :
  grants (k 0) = false -> none_mapped o ->
  fst (fst (create_slots k o buffer_indices)) = false /\
  none_mapped (snd (fst (create_slots k o buffer_indices))).
Proof.
  intros G0 [N0 N1]. unfold buffer_indices. cbn [create_slots].
  pose proof (createFramebuffer_grants (k 0) o 0) as E0.
  pose proof (createFramebuffer_false_unmapped (k 0) o 0 in_bounds_0 N0) as U0.
  pose proof (createFramebuffer_other_slot (k 0) o 0 1 ltac:(lia)) as S1.
  destruct (createFramebuffer (k 0) o 0) as [[ok0 o0] e0]. cbn [fst snd] in *.
  rewrite E0, G0 in *. cbn [fst snd]. split; [reflexivity|].
  split; [now apply U0|now rewrite S1].
Qed.

Lemma createFramebuffers_from_alloc (k : nat -> Z -> AllocResp) (f : nat) :
  forall (j0 : nat) (os : list Output),
  (forall i, (i < f)%nat -> grants (k (j0 + i)%nat 0) = true /\
                            grants (k (j0 + i)%nat 1) = true) ->
  (f < List.length os)%nat ->
  grants (k (j0 + f)%nat 0) = false ->
  Forall none_mapped os ->
  List.length (fst (createFramebuffers_from k j0 os)) = List.length os /\
  (forall i, (i < f)%nat ->
             both_mapped (nth i (fst (createFramebuffers_from k j0 os)) no_output)) /\
  (forall i, (f <= i)%nat ->
             none_mapped (nth i (fst (createFramebuffers_from k j0 os)) no_output)).
Proof.
  induction f as [|f IH]; intros j0 os Hg Hlen Hbad Hnone.
  - destruct os as [|o more]; [cbn in Hlen; lia|].
    inversion Hnone as [|? ? No Nmore]; subst.
    rewrite Nat.add_0_r in Hbad. cbn [createFramebuffers_from].
    destruct (create_slots_refused (k j0) o Hbad No) as (E & N1).
    destruct (create_slots (k j0) o buffer_indices) as [[ok o1] e1]. cbn [fst snd] in *.
    subst ok. cbn [fst]. split; [reflexivity|]. split; [intros i Hi; lia|].
    intros [|i] _; cbn [nth]; [exact N1|].
    destruct (Nat.lt_ge_cases i (List.length more)) as [Hlt|Hge].
    + rewrite Forall_forall in Nmore. apply Nmore. now apply nth_In.
    + rewrite nth_overflow by exact Hge. split; reflexivity.
  - destruct os as [|o more]; [cbn in Hlen; lia|].
    inversion Hnone as [|? ? No Nmore]; subst.
    cbn [createFramebuffers_from].
    destruct (Hg 0%nat ltac:(lia)) as (G0 & G1). rewrite Nat.add_0_r in G0, G1.
    destruct (create_slots_granted (k j0) o G0 G1) as (E & M).
    destruct (create_slots (k j0) o buffer_indices) as [[ok o1] e1]. cbn [fst snd] in *.
    subst ok.
    destruct (IH (S j0) more) as (L & B & N).
    + intros i Hi. replace (S j0 + i)%nat with (j0 + S i)%nat by lia. apply Hg. lia.
    + cbn in Hlen. lia.
    + replace (S j0 + f)%nat with (j0 + S f)%nat by lia. exact Hbad.
    + exact Nmore.
    + destruct (createFramebuffers_from k (S j0) more) as [more' e2]. cbn [fst snd] in *.
      split; [cbn; now rewrite L|]. split.
      * intros [|i] Hi; cbn [nth]; [exact M|]. apply B. lia.
      * intros [|i] Hi; [lia|]. cbn [nth]. apply N. lia.
Qed.

Lemma setMode_from_fbs (rc : nat -> Z) (j : nat) (os : list Output) :
  List.length (fst (setMode_from rc j os)) = List.length os /\
  forall i, fbs (nth i (fst (setMode_from rc j os)) no_output) = fbs (nth i os no_output).
Proof.
  revert j. induction os as [|o more IH]; intros j; [cbn; auto|].
  cbn [setMode_from]. destruct (rc j =? -1); [cbn; auto|].
  destruct (IH (S j)) as (L & F).
  destruct (setMode_from rc (S j) more) as [more' e2]. cbn [fst snd] in *.
  split; [cbn; now rewrite L|].
  intros [|i]; cbn [nth]; [reflexivity|apply F].
Qed.

Lemma started_allocation (b : Boot) (rs : list (list bool)) (rcs : list Z) (j : nat) :
  opens b = true ->
  (forall i, (i < j)%nat -> grants (alloc b i 0) = true /\ grants (alloc b i 1) = true) ->
  (j < List.length (discovered b))%nat ->
  grants (alloc b j 0) = false ->
  List.length (m_outputs (started b rs rcs)) = List.length (discovered b) /\
  (forall i, (i < j)%nat -> both_mapped (output_at (started b rs rcs) i)) /\
  (forall i, (j <= i)%nat -> none_mapped (output_at (started b rs rcs) i)).
Proof.
  intros Hopen Hg Hj Hbad.
  unfold started, DumbBufferRenderer_new, Device_open.
  unfold opens in Hopen. apply andb_prop in Hopen. destruct Hopen as [O1 O2].
  apply negb_true_iff in O1, O2. rewrite O1, O2. cbn [fst].
  unfold setMode, createFramebuffers, createScreens.
  set (s0 := set_fd _ _).
  destruct (createScreens_outputs (discovered b) s0) as (Ho & _ & _).
  set (s1 := fold_left _ (discovered b) s0) in *.
  change (m_outputs s0) with (@nil Output) in Ho. cbn [app] in Ho.
  assert (N1 : Forall none_mapped (m_outputs s1)).
  { rewrite Ho. apply Forall_forall. intros o Hin.
    apply in_map_iff in Hin. destruct Hin as (q & <- & _). split; reflexivity. }
  assert (L1 : List.length (m_outputs s1) = List.length (discovered b))
    by (rewrite Ho; apply length_map).
  destruct (createFramebuffers_from_alloc (alloc b) j 0 (m_outputs s1)) as (L & B & N);
    [exact Hg|now rewrite L1|exact Hbad|exact N1|].
  destruct (createFramebuffers_from (alloc b) 0 (m_outputs s1)) as [os2 es2].
  cbn [fst snd] in *. cbn [m_outputs emit set_outputs].
  destruct (setMode_from_fbs (setcrtc_rc b) 0 os2) as (L3 & F3).
  destruct (setMode_from (setcrtc_rc b) 0 os2) as [os3 es3].
  cbn [fst snd] in *. unfold output_at. cbn [m_outputs emit set_outputs].
  split; [now rewrite L3, L, L1|].
  unfold both_mapped, none_mapped, fb_at in *. cbn [Z.eqb] in *.
  split; intros i Hi; rewrite F3; [now apply B|now apply N].
Qed.

(** * Frames per tick *)

Lemma none_mapped_any_slot (o : Output) (b : Z) :
  none_mapped o -> p (fb_at o b) = MAP_FAILED.
Proof.
  intros [N0 N1]. unfold fb_at in *. cbn [Z.eqb] in *.
  destruct (b =? 0); [exact N0|]. destruct (b =? 1); [exact N1|reflexivity].
Qed.

Lemma both_mapped_slot (o : Output) (b : Z) :
  both_mapped o -> in_bounds b -> p (fb_at o b) <> MAP_FAILED.
Proof.
  intros [M0 M1] Hb. unfold in_bounds, BUFFER_COUNT in Hb.
  assert (C : b = 0 \/ b = 1) by lia. destruct C as [-> | ->]; assumption.
Qed.

Lemma none_mapped_fbs (o o' : Output) : fbs o' = fbs o -> none_mapped o -> none_mapped o'.
Proof. unfold none_mapped, fb_at. intros ->. auto. Qed.

Lemma both_mapped_fbs (o o' : Output) : fbs o' = fbs o -> both_mapped o -> both_mapped o'.
Proof. unfold both_mapped, fb_at. intros ->. auto. Qed.

Lemma update_loop_none (j : nat) (idxs : list nat) (st : State) :
  none_mapped (output_at st j) ->
  none_mapped (output_at (final (update_loop idxs st)) j) /\
  count (is_fill j) (trace (final (update_loop idxs st))) = count (is_fill j) (trace st) /\
  count (is_flip_call j) (trace (final (update_loop idxs st)))
  = count (is_flip_call j) (trace st).
Proof.
  revert st. induction idxs as [|i more IH]; intros st Hn; cbn [update_loop]; [auto|].
  destruct (update_output_facts i st) as (_ & Hb & es & He & Hf & Hc).
  assert (Hz : count (is_fill j) es = 0%nat /\ count (is_flip_call j) es = 0%nat).
  { rewrite Hf, Hc. destruct (Nat.eqb_spec i j) as [->|Hne].
    - rewrite (none_mapped_any_slot _ _ Hn), Z.eqb_refl. auto.
    - rewrite !andb_false_r. auto. }
  destruct Hz as (Z1 & Z2).
  assert (Hn1 : none_mapped (output_at (final (update_output i st)) j))
    by (apply (none_mapped_fbs (output_at st j)); [apply Hb|exact Hn]).
  assert (T1 : count (is_fill j) (trace (final (update_output i st)))
               = count (is_fill j) (trace st))
    by (rewrite He, count_app, Z1; lia).
  assert (T2 : count (is_flip_call j) (trace (final (update_output i st)))
               = count (is_flip_call j) (trace st))
    by (rewrite He, count_app, Z2; lia).
  destruct (update_output i st) as [s|s]; cbn [final] in *; [|auto].
  destruct (IH s Hn1) as (H1 & H2 & H3). rewrite H2, H3. auto.
Qed.

Lemma ticks_none (j : nat) (n : nat) (st : State) :
  none_mapped (output_at st j) ->
  count (is_fill j) (trace (final (ticks n st))) = count (is_fill j) (trace st) /\
  count (is_flip_call j) (trace (final (ticks n st))) = count (is_flip_call j) (trace st).
Proof.
  revert st. induction n as [|n IH]; intros st Hn; cbn [ticks]; [auto|].
  destruct (update_loop_none j (seq 0 (List.length (m_outputs st))) st Hn)
    as (H1 & H2 & H3).
  unfold update. destruct (update_loop _ st) as [s|s]; cbn [final] in *; [|auto].
  destruct (IH s H1) as (H4 & H5). rewrite H4, H5. auto.
Qed.

Lemma update_loop_both (j : nat) (idxs : list nat) (st s : State) :
  protocol_inv st -> (forall i, In i idxs -> valid st i) -> NoDup idxs ->
  valid st j -> both_mapped (output_at st j) ->
  update_loop idxs st = Returns s ->
  both_mapped (output_at s j) /\
  count (is_fill j) (trace s)
  = (count (is_fill j) (trace st) + if existsb (Nat.eqb j) idxs then 1 else 0)%nat /\
  count (is_flip_call j) (trace s)
  = (count (is_flip_call j) (trace st) + if existsb (Nat.eqb j) idxs then 1 else 0)%nat.
Proof.
  revert st. induction idxs as [|i more IH]; intros st I Hval Hnd Hvj Hm Hs;
    cbn [update_loop existsb] in *.
  - injection Hs as <-. rewrite !Nat.add_0_r. auto.
  - pose proof (update_output_inv i st I (Hval i (or_introl eq_refl))) as I1.
    destruct (update_output_facts i st) as (Hl & Hb & es & He & Hf & Hc).
    destruct (update_output i st) as [s1|s1] eqn:E; [|discriminate Hs].
    cbn [final returned] in *.
    inversion Hnd as [|? ? Hnotin Hnd']; subst.
    assert (Hm1 : both_mapped (output_at s1 j))
      by (apply (both_mapped_fbs (output_at st j)); [apply Hb|exact Hm]).
    destruct (IH s1 I1) as (M & F & C); try assumption.
    + intros x Hx. unfold valid. rewrite Hl. apply Hval. now right.
    + unfold valid. now rewrite Hl.
    + split; [exact M|]. rewrite F, C, He, !count_app, Hf, Hc.
      destruct (Nat.eqb_spec j i) as [->|Hne].
      * rewrite Nat.eqb_refl.
        assert (Hx : existsb (Nat.eqb i) more = false).
        { destruct (existsb (Nat.eqb i) more) eqn:X; [|reflexivity].
          apply existsb_exists in X. destruct X as (x & Hx & Hxe).
          apply Nat.eqb_eq in Hxe. subst x. contradiction. }
        rewrite Hx.
        assert (Hlive : (p (fb_at (output_at st i) (backFb (output_at st i))) =? MAP_FAILED)
                        = false).
        { apply Z.eqb_neq. apply both_mapped_slot; [exact Hm|].
          now apply inv_in_bounds. }
        rewrite Hlive. cbn. lia.
      * assert (Hb' : Nat.eqb i j = false) by (apply Nat.eqb_neq; congruence).
        rewrite Hb', !andb_false_r. cbn [orb]. lia.
Qed.

Lemma existsb_seq (j n : nat) :
  existsb (Nat.eqb j) (seq 0 n) = Nat.ltb j n.
Proof.
  destruct (Nat.ltb_spec j n) as [Hlt|Hge].
  - apply existsb_exists. exists j. split; [apply in_seq; lia|apply Nat.eqb_refl].
  - destruct (existsb (Nat.eqb j) (seq 0 n)) eqn:X; [|reflexivity].
    apply existsb_exists in X. destruct X as (x & Hx & Hxe).
    apply Nat.eqb_eq in Hxe. subst x. apply in_seq in Hx. lia.
Qed.

Lemma ticks_both (j : nat) (n : nat) (st s : State) :
  protocol_inv st -> valid st j -> both_mapped (output_at st j) ->
  ticks n st = Returns s ->
  count (is_fill j) (trace s) = (count (is_fill j) (trace st) + n)%nat /\
  count (is_flip_call j) (trace s) = (count (is_flip_call j) (trace st) + n)%nat.
Proof.
  revert st. induction n as [|n IH]; intros st I Hv Hm Hs; cbn [ticks] in Hs.
  - injection Hs as <-. rewrite !Nat.add_0_r. auto.
  - destruct (update_inv st I) as (I1 & L1).
    destruct (update st) as [s1|s1] eqn:E; [|discriminate Hs]. cbn [final] in *.
    unfold update in E.
    destruct (update_loop_both j (seq 0 (List.length (m_outputs st))) st s1 I)
      as (M & F & C); try assumption.
    + intros i Hi. apply in_seq in Hi. unfold valid. lia.
    + apply seq_NoDup.
    + rewrite existsb_seq in F, C. apply Nat.ltb_lt in Hv. rewrite Hv in F, C.
      destruct (IH s1 I1) as (F2 & C2); try assumption.
      * unfold valid. rewrite L1. now apply Nat.ltb_lt.
      * rewrite F2, C2, F, C. lia.
Qed.

Lemma startup_counts (j : nat) (es : list Event) :
  forallb is_startup_event es = true ->
  count (is_fill j) es = 0%nat /\ count (is_flip_call j) es = 0%nat.
Proof.
  intros H. rewrite forallb_forall in H.
  split; apply count_idle; intros e He; specialize (H e He);
    destruct e; cbn in *; congruence.
Qed.

Lemma main_when_opened (b : Boot) (rs : list (list bool)) (rcs : list Z) (n : nat) :
  opens b = true ->
  main b rs rcs n
  = match ticks n (started b rs rcs) with
    | Returns s => Exited quit_code (DumbBufferRenderer_delete b s)
    | Blocks s => Hangs s
    end.
Proof.
  intros Hopen. unfold main, started, DumbBufferRenderer_new, Device_open.
  unfold opens in Hopen. apply andb_prop in Hopen. destruct Hopen as [O1 O2].
  apply negb_true_iff in O1, O2. rewrite O1, O2. reflexivity.
Qed.

(** C7, as stated, fails.  With Outputs A, B, C and a kernel that refuses
    only B's second buffer: B still has a frame written and a flip request
    submitted (its first buffer is mapped), and C is never allocated, though
    the kernel would have granted both of its buffers, so C gets no frames. *)
Lemma allocation_failure_counterexample :
  grants (alloc (boot_alloc_fails 1 1 [kms_A; kms_B; kms_C]) 1 1) = false /\
  grants (alloc (boot_alloc_fails 1 1 [kms_A; kms_B; kms_C]) 2 0) = true /\
  grants (alloc (boot_alloc_fails 1 1 [kms_A; kms_B; kms_C]) 2 1) = true /\
  none_mapped (output_at (started (boot_alloc_fails 1 1 [kms_A; kms_B; kms_C])
                                  (prompt_reads 10) []) 2) /\
  count (is_fill 1)
        (trace (exit_state (main (boot_alloc_fails 1 1 [kms_A; kms_B; kms_C])
                                 (prompt_reads 10) [] 3))) = 1%nat /\
  count (is_flip_call 1)
        (trace (exit_state (main (boot_alloc_fails 1 1 [kms_A; kms_B; kms_C])
                                 (prompt_reads 10) [] 3))) = 1%nat /\
  count (is_fill 2)
        (trace (exit_state (main (boot_alloc_fails 1 1 [kms_A; kms_B; kms_C])
                                 (prompt_reads 10) [] 3))) = 0%nat.
Proof. vm_compute. repeat split. Qed.

(** C7, amended.  Let the device open, let the kernel grant both buffers of
    every Output before position [j] and refuse the first buffer of the
    Output at [j].  Then [createFramebuffers] stops there: in any number of
    ticks, under any schedule, the Output at [j] and every Output after it
    have no frame written and no flip request submitted, while every Output
    before [j] has one frame written and one flip request submitted in each
    tick, as long as the ticks return; and when they all return the process
    ends with exit code 0, not aborted by the failure. *)
Theorem allocation_failure (b : Boot) (rs : list (list bool)) (rcs : list Z)
        (j n : nat) :
  opens b = true ->
  (forall i, (i < j)%nat -> grants (alloc b i 0) = true /\ grants (alloc b i 1) = true) ->
  (j < List.length (discovered b))%nat ->
  grants (alloc b j 0) = false ->
  (forall i, (j <= i)%nat ->
     count (is_fill i) (trace (final (ticks n (started b rs rcs)))) = 0%nat /\
     count (is_flip_call i) (trace (final (ticks n (started b rs rcs)))) = 0%nat) /\
  (returned (ticks n (started b rs rcs)) = true ->
   (forall i, (i < j)%nat ->
      count (is_fill i) (trace (final (ticks n (started b rs rcs)))) = n /\
      count (is_flip_call i) (trace (final (ticks n (started b rs rcs)))) = n) /\
   exit_code (main b rs rcs n) = Some 0).
Proof.
  intros Hopen Hg Hj Hbad.
  destruct (started_allocation b rs rcs j Hopen Hg Hj Hbad) as (L & B & N).
  destruct (started_quiet b rs rcs) as (_ & Hq & _).
  pose proof (started_inv b rs rcs) as I.
  split.
  - intros i Hi. destruct (ticks_none i n _ (N i Hi)) as (F & C).
    destruct (startup_counts i _ Hq) as (F0 & C0). rewrite F, C. auto.
  - intros Hr. split.
    + intros i Hi.
      destruct (ticks n (started b rs rcs)) as [s|s] eqn:E; [|discriminate Hr].
      cbn [final].
      destruct (ticks_both i n _ s I) as (F & C); try assumption.
      * unfold valid. rewrite L. lia.
      * now apply B.
      * destruct (startup_counts i _ Hq) as (F0 & C0). rewrite F, C, F0, C0. auto.
    + rewrite (main_when_opened b rs rcs n Hopen).
      destruct (ticks n (started b rs rcs)); [reflexivity|discriminate Hr].
Qed.

Lemma allocation_failure_witness :
  opens (boot_alloc_fails 1 0 [kms_A; kms_B]) = true /\
  grants (alloc (boot_alloc_fails 1 0 [kms_A; kms_B]) 1 0) = false /\
  returned (ticks 3 (started (boot_alloc_fails 1 0 [kms_A; kms_B]) (prompt_reads 3) []))
  = true /\
  count (is_fill 0)
        (trace (final (ticks 3 (started (boot_alloc_fails 1 0 [kms_A; kms_B])
                                        (prompt_reads 3) [])))) = 3%nat /\
  count (is_fill 1)
        (trace (final (ticks 3 (started (boot_alloc_fails 1 0 [kms_A; kms_B])
                                        (prompt_reads 3) [])))) = 0%nat.
Proof.
  assert (Ho : opens (boot_alloc_fails 1 0 [kms_A; kms_B]) = true) by reflexivity.
  assert (Hg : forall i, (i < 1)%nat ->
             grants (alloc (boot_alloc_fails 1 0 [kms_A; kms_B]) i 0) = true /\
             grants (alloc (boot_alloc_fails 1 0 [kms_A; kms_B]) i 1) = true).
  { intros i Hi. assert (i = 0%nat) as -> by lia. split; reflexivity. }
  assert (Hj : (1 < List.length (discovered (boot_alloc_fails 1 0 [kms_A; kms_B])))%nat)
    by (cbn; lia).
  assert (Hbad : grants (alloc (boot_alloc_fails 1 0 [kms_A; kms_B]) 1 0) = false)
    by reflexivity.
  assert (Hr : returned (ticks 3 (started (boot_alloc_fails 1 0 [kms_A; kms_B])
                                          (prompt_reads 3) [])) = true)
    by (vm_compute; reflexivity).
  destruct (allocation_failure (boot_alloc_fails 1 0 [kms_A; kms_B]) (prompt_reads 3) []
              1 3 Ho Hg Hj Hbad) as (Hnone & Hboth).
  destruct (Hboth Hr) as (Hlive & _).
  split; [exact Ho|]. split; [exact Hbad|]. split; [exact Hr|].
  split; [exact (proj1 (Hlive 0%nat ltac:(lia)))|exact (proj1 (Hnone 1%nat (le_n 1)))].
Defined.

(** * When the wait returns, and when it cannot *)

(** A read that delivers the one completion the Output is waiting for ends
    the wait: [swapBuffers] returns. *)
Lemma swapBuffers_returns_when_delivered (i : nat) (st : State)
      (mask : list bool) (rs : list (list bool)) :
  valid st i -> in_bounds (backFb (output_at st i)) ->
  reads st = mask :: rs ->
  occ i (fst (deliver mask (pending st))) = 1%nat ->
  returned (swapBuffers i st) = true.
Proof.
  intros Hv Hb Hr Hd. rewrite swapBuffers_unfold.
  destruct (flipped (output_at st i)); [|reflexivity].
  rewrite Hr, wait_flip_step by reflexivity.
  set (st1 := drmHandleEvent mask (set_reads st rs)).
  assert (Hne : backFb (output_at st1 i) <> backFb (output_at st i)).
  { unfold st1. rewrite drmHandleEvent_unfold, run_handlers_backFb by exact Hv.
    change (pending (set_reads st rs)) with (pending st). rewrite Hd.
    cbn. change (output_at _ i) with (output_at st i). now apply rot_neq. }
  apply Z.eqb_neq in Hne.
  destruct rs as [|m rs']; cbn [wait_flip]; rewrite Hne; reflexivity.
Qed.

(** With two Outputs, a read that delivers both completions during the wait
    for Output 0 moves Output 1's [backFb] early; the later wait of
    [swapBuffers] for Output 1 then starts from the moved value and never
    ends, although every request was accepted and every completion
    delivered. *)
Lemma early_completion_blocks_later_wait :
  exit_code (main (boot_ok [kms_A; kms_B]) (prompt_reads 10) [] 3) = None /\
  count (is_fill 1)
        (trace (exit_state (main (boot_ok [kms_A; kms_B]) (prompt_reads 10) [] 3)))
  = 2%nat /\
  count (is_flip_call 1)
        (trace (exit_state (main (boot_ok [kms_A; kms_B]) (prompt_reads 10) [] 3)))
  = 1%nat.
Proof. vm_compute. repeat split. Qed.

(** * What the frame loop leaves alone *)

Lemma loop_frame_refl (st : State) : loop_frame st st.
Proof.
  split; [reflexivity|]. split; [reflexivity|].
  exists []. now rewrite app_nil_r.
Qed.

Lemma loop_frame_trans (a b c : State) :
  loop_frame a b -> loop_frame b c -> loop_frame a c.
Proof.
  intros (F1 & S1 & e1 & T1 & L1) (F2 & S2 & e2 & T2 & L2).
  split; [congruence|]. split; [congruence|].
  exists (e1 ++ e2). split; [now rewrite T2, T1, app_assoc|].
  now rewrite forallb_app, L1, L2.
Qed.

Lemma loop_frame_emit (st : State) (es : list Event) :
  forallb is_loop_event es = true -> loop_frame st (emit st es).
Proof.
  intros H. split; [reflexivity|]. split; [reflexivity|]. now exists es.
Qed.

Lemma loop_frame_same (st s : State) :
  fd s = fd st -> m_outputs s = m_outputs st -> trace s = trace st ->
  loop_frame st s.
Proof.
  intros F O T. split; [exact F|]. split; [now rewrite O|].
  exists []. now rewrite app_nil_r.
Qed.

Lemma map_static_update_nth (i : nat) (f : Output -> Output) (l : list Output) :
  (forall o, static (f o) = static o) ->
  map static (update_nth i f l) = map static l.
Proof.
  intros Hf. revert i. induction l as [|o l IH]; intros [|i]; cbn; try reflexivity.
  - now rewrite Hf.
  - now rewrite IH.
Qed.

Lemma loop_frame_modify (st : State) (i : nat) (f : Output -> Output) :
  (forall o, static (f o) = static o) -> loop_frame st (modify_output st i f).
Proof.
  intros Hf. split; [reflexivity|]. split.
  - cbn. now apply map_static_update_nth.
  - exists []. cbn. now rewrite app_nil_r.
Qed.

Lemma loop_frame_handler (u : nat) (st : State) : loop_frame st (pageFlipHandler u st).
Proof.
  unfold pageFlipHandler.
  eapply loop_frame_trans; [apply loop_frame_modify|apply loop_frame_emit]; reflexivity.
Qed.

Lemma loop_frame_run_handlers (d : list nat) (st : State) :
  loop_frame st (run_handlers d st).
Proof.
  revert st. induction d as [|u d IH]; intros st; [apply loop_frame_refl|].
  rewrite run_handlers_cons.
  eapply loop_frame_trans; [apply loop_frame_handler|apply IH].
Qed.

Lemma loop_frame_drmHandleEvent (mask : list bool) (st : State) :
  loop_frame st (drmHandleEvent mask st).
Proof.
  rewrite drmHandleEvent_unfold.
  eapply loop_frame_trans; [|apply loop_frame_run_handlers].
  eapply loop_frame_trans; [|apply loop_frame_emit; reflexivity].
  now apply loop_frame_same.
Qed.

Lemma loop_frame_wait_flip (rs : list (list bool)) (i : nat) (fbIdx : Z) (st : State) :
  loop_frame st (final (wait_flip rs i fbIdx st)).
Proof.
  revert st. induction rs as [|mask rs IH]; intros st; cbn [wait_flip];
    destruct (backFb (output_at st i) =? fbIdx); cbn [final];
    try (now apply loop_frame_same).
  eapply loop_frame_trans; [|apply IH].
  eapply loop_frame_trans; [|apply loop_frame_drmHandleEvent].
  now apply loop_frame_same.
Qed.

Lemma loop_frame_submit_flip (i : nat) (st : State) : loop_frame st (submit_flip i st).
Proof.
  destruct (submit_flip_facts i st) as (Hm & _ & _ & Ht).
  split.
  - unfold submit_flip, drmModePageFlip. cbn [fst snd].
    destruct (hd 0 (flip_rcs st) =? -1), (hd 0 (flip_rcs st) =? 0); reflexivity.
  - split; [now rewrite Hm|]. eexists. split; [exact Ht|].
    destruct (hd 0 (flip_rcs st) =? -1); reflexivity.
Qed.

Lemma loop_frame_swapBuffers (i : nat) (st : State) :
  loop_frame st (final (swapBuffers i st)).
Proof.
  rewrite swapBuffers_unfold. destruct (flipped (output_at st i)).
  - pose proof (loop_frame_wait_flip (reads st) i (backFb (output_at st i)) st) as H.
    destruct (wait_flip (reads st) i (backFb (output_at st i)) st); cbn [final] in *;
      [|exact H].
    eapply loop_frame_trans; [exact H|apply loop_frame_submit_flip].
  - cbn [final]. eapply loop_frame_trans; [|apply loop_frame_submit_flip].
    apply loop_frame_modify. reflexivity.
Qed.

Lemma loop_frame_update_output (i : nat) (st : State) :
  loop_frame st (final (update_output i st)).
Proof.
  unfold update_output.
  destruct (p (fb_at (output_at st i) (backFb (output_at st i))) =? MAP_FAILED);
    [apply loop_frame_refl|].
  eapply loop_frame_trans; [|apply loop_frame_swapBuffers].
  apply (loop_frame_trans st
           (emit st [Fill i (backFb (output_at st i))
                       (p (fb_at (output_at st i) (backFb (output_at st i))))
                       (size (fb_at (output_at st i) (backFb (output_at st i))) / 4)
                       (colour st)])).
  - apply loop_frame_emit. reflexivity.
  - now apply loop_frame_same.
Qed.

Lemma loop_frame_update_loop (idxs : list nat) (st : State) :
  loop_frame st (final (update_loop idxs st)).
Proof.
  revert st. induction idxs as [|i more IH]; intros st; cbn [update_loop];
    [apply loop_frame_refl|].
  pose proof (loop_frame_update_output i st) as H.
  destruct (update_output i st); cbn [final] in *; [|exact H].
  eapply loop_frame_trans; [exact H|apply IH].
Qed.

Lemma loop_frame_ticks (n : nat) (st : State) : loop_frame st (final (ticks n st)).
Proof.
  revert st. induction n as [|n IH]; intros st; cbn [ticks]; [apply loop_frame_refl|].
  pose proof (loop_frame_update_loop (seq 0 (List.length (m_outputs st))) st) as H.
  unfold update. destruct (update_loop _ st); cbn [final] in *; [|exact H].
  eapply loop_frame_trans; [exact H|apply IH].
Qed.

Lemma count_disjoint (f g : Event -> bool) (es : list Event) :
  forallb g es = true -> (forall e, g e = true -> f e = false) -> count f es = 0%nat.
Proof.
  intros Hg Hd. apply count_idle. intros e He. apply Hd.
  rewrite forallb_forall in Hg. now apply Hg.
Qed.

(** * Accounting for the kernel resources of a Buffer *)

Lemma set_fb_fb_at (o : Output) (idx : Z) : set_fb o idx (fb_at o idx) = o.
Proof.
  destruct o as [k [f0 f1] b fl]. unfold set_fb, fb_at; cbn.
  destruct (idx =? 0); [reflexivity|]. destruct (idx =? 1); reflexivity.
Qed.

Lemma createFramebuffer_shape (k : AllocResp) (o : Output) (idx : Z) :
  exists f, snd (fst (createFramebuffer k o idx)) = set_fb o idx f.
Proof.
  unfold createFramebuffer.
  destruct (create_rc k =? -1); [exists (fb_at o idx); cbn; now rewrite set_fb_fb_at|].
  destruct (addfb_rc k =? -1); [eexists; reflexivity|].
  destruct (map_rc k =? -1); [eexists; reflexivity|].
  cbn [p]. destruct (mmap_p k =? MAP_FAILED); eexists; reflexivity.
Qed.

Lemma holds_new (r : Resource) : holds r Framebuffer_new = false.
Proof. destruct r; reflexivity. Qed.

Lemma createFramebuffer_accounts (r : Resource) (k : AllocResp) (o : Output) (idx : Z) :
  in_bounds idx -> fb_at o idx = Framebuffer_new -> honest k ->
  count (acquires r) (snd (createFramebuffer k o idx))
  = b2n (holds r (fb_at (snd (fst (createFramebuffer k o idx))) idx)).
Proof.
  intros Hb Hnew [Hh Hi]. unfold createFramebuffer. rewrite Hnew.
  destruct (Z.eqb_spec (create_rc k) (-1)) as [C|C].
  - cbn [fst snd]. rewrite Hnew, holds_new, C. destruct r; reflexivity.
  - specialize (Hh C).
    assert (Hc : (create_rc k =? -1) = false) by now apply Z.eqb_neq.
    assert (Hz : (create_handle k =? 0) = false) by now apply Z.eqb_neq.
    destruct (Z.eqb_spec (addfb_rc k) (-1)) as [A|A].
    + cbn [fst snd]. rewrite fb_at_set_fb by exact Hb. rewrite A.
      destruct r; unfold count; cbn; rewrite ?Hc, ?Hz; reflexivity.
    + assert (Hid : ((if addfb_rc k =? 0 then addfb_id k else 0) =? 0)
                    = negb (addfb_rc k =? 0)).
      { destruct (Z.eqb_spec (addfb_rc k) 0) as [A0|A0]; cbn [negb];
          [apply Z.eqb_neq; now apply Hi|reflexivity]. }
      destruct (map_rc k =? -1).
      * cbn [fst snd]. rewrite fb_at_set_fb by exact Hb.
        destruct r; unfold count; cbn; rewrite ?Hc, ?Hz, ?Hid, ?negb_involutive;
          try reflexivity; destruct (addfb_rc k =? 0); reflexivity.
      * cbn [p]. destruct (mmap_p k =? MAP_FAILED) eqn:M;
          cbn [fst snd]; rewrite fb_at_set_fb by exact Hb;
          destruct r; unfold count; cbn; rewrite ?Hc, ?Hz, ?Hid, ?M, ?negb_involutive;
          try reflexivity; destruct (addfb_rc k =? 0); reflexivity.
Qed.

Lemma destroyFramebuffer_accounts (r : Resource) (k : FreeResp) (o : Output) (idx : Z) :
  count (gives_back r) (snd (destroyFramebuffer k o idx)) = b2n (holds r (fb_at o idx)).
Proof.
  unfold destroyFramebuffer; cbn [snd]. rewrite !count_app.
  destruct r; cbn [holds];
    destruct (p (fb_at o idx) =? MAP_FAILED), (fb (fb_at o idx) =? 0),
      (handle (fb_at o idx) =? 0), (rmfb_rc k =? -1), (destroy_rc k =? -1);
    reflexivity.
Qed.

(** X1.  Allocating a torn-down slot and then freeing it is a round trip:
    whatever the kernel answered at each step (handles and ids non-zero when
    it succeeded), [destroyFramebuffer] gives back exactly as many
    allocations, presentation handles and mappings as [createFramebuffer]
    was handed, and the Output is again what it was before the allocation. *)
Theorem create_destroy_round_trip (ka : AllocResp) (kf : FreeResp) (o : Output)
        (idx : Z) (r : Resource) :
  in_bounds idx -> fb_at o idx = Framebuffer_new -> honest ka ->
  count (gives_back r)
        (snd (destroyFramebuffer kf (snd (fst (createFramebuffer ka o idx))) idx))
  = count (acquires r) (snd (createFramebuffer ka o idx)) /\
  fst (destroyFramebuffer kf (snd (fst (createFramebuffer ka o idx))) idx) = o.
Proof.
  intros Hb Hnew Hh. split.
  - now rewrite destroyFramebuffer_accounts, createFramebuffer_accounts.
  - rewrite destroyFramebuffer_output.
    destruct (createFramebuffer_shape ka o idx) as (f & ->).
    rewrite set_fb_set_fb, <- Hnew. apply set_fb_fb_at.
Qed.

Lemma create_destroy_round_trip_witness :
  in_bounds 1 /\ fb_at sample_output 1 = Framebuffer_new /\ honest alloc_addfb_fails /\
  count (gives_back Allocation)
        (snd (destroyFramebuffer free_fails
                (snd (fst (createFramebuffer alloc_addfb_fails sample_output 1))) 1))
  = 1%nat /\
  fst (destroyFramebuffer free_fails
         (snd (fst (createFramebuffer alloc_addfb_fails sample_output 1))) 1)
  = sample_output.
Proof.
  assert (Hh : honest alloc_addfb_fails)
    by (split; cbn; intros H; discriminate).
  destruct (create_destroy_round_trip alloc_addfb_fails free_fails sample_output 1
              Allocation in_bounds_1 eq_refl Hh) as (H1 & H2).
  split; [exact in_bounds_1|]. split; [reflexivity|]. split; [exact Hh|].
  split; [exact H1|exact H2].
Defined.

Lemma held_unallocated (r : Resource) (os : list Output) :
  Forall unallocated os -> held r os = 0%nat.
Proof.
  induction 1 as [|o more [H0 H1] _ IH]; [reflexivity|].
  cbn [held]. unfold held_by. now rewrite H0, H1, holds_new, IH.
Qed.

Lemma held_ext (r : Resource) (a b : list Output) :
  map fbs a = map fbs b -> held r a = held r b.
Proof.
  revert b. induction a as [|x a IH]; intros [|y b] H; try discriminate; [reflexivity|].
  cbn in H. injection H as Hxy Hab. cbn [held]. rewrite (IH b Hab).
  unfold held_by, fb_at; cbn. now rewrite Hxy.
Qed.

Lemma map_fbs_static (a b : list Output) :
  map static a = map static b -> map fbs a = map fbs b.
Proof.
  intros H. apply (f_equal (map snd)) in H. rewrite !map_map in H. exact H.
Qed.

Lemma create_slots_accounts (r : Resource) (k : Z -> AllocResp) (o : Output) :
  unallocated o -> honest (k 0) -> honest (k 1) ->
  count (acquires r) (snd (create_slots k o buffer_indices))
  = held_by r (snd (fst (create_slots k o buffer_indices))).
Proof.
  intros [N0 N1] H0 H1. unfold buffer_indices, held_by. cbn [create_slots].
  pose proof (createFramebuffer_accounts r (k 0) o 0 in_bounds_0 N0 H0) as A0.
  pose proof (createFramebuffer_other_slot (k 0) o 0 1 ltac:(lia)) as S1.
  destruct (createFramebuffer (k 0) o 0) as [[ok0 o0] e0]. cbn [fst snd] in *.
  rewrite N1 in S1.
  destruct ok0; cbn [fst snd].
  - pose proof (createFramebuffer_accounts r (k 1) o0 1 in_bounds_1 S1 H1) as A1.
    pose proof (createFramebuffer_other_slot (k 1) o0 1 0 ltac:(lia)) as S0.
    destruct (createFramebuffer (k 1) o0 1) as [[ok1 o1] e1]. cbn [fst snd] in *.
    destruct ok1; cbn [fst snd]; rewrite ?app_nil_r, count_app, A0, A1, S0; reflexivity.
  - rewrite A0, S1, holds_new. cbn. lia.
Qed.

Lemma createFramebuffers_from_accounts (r : Resource) (k : nat -> Z -> AllocResp)
      (j : nat) (os : list Output) :
  Forall unallocated os -> (forall x i, in_bounds i -> honest (k x i)) ->
  count (acquires r) (snd (createFramebuffers_from k j os))
  = held r (fst (createFramebuffers_from k j os)).
Proof.
  intros Hu Hh. revert j. induction Hu as [|o more Ho Hmore IH]; intros j; [reflexivity|].
  cbn [createFramebuffers_from].
  pose proof (create_slots_accounts r (k j) o Ho (Hh j 0 in_bounds_0) (Hh j 1 in_bounds_1))
    as A.
  destruct (create_slots (k j) o buffer_indices) as [[ok o1] e1]. cbn [fst snd] in *.
  destruct ok.
  - specialize (IH (S j)).
    destruct (createFramebuffers_from k (S j) more) as [more' e2]. cbn [fst snd] in *.
    rewrite count_app, A, IH. reflexivity.
  - cbn [fst snd held]. rewrite A, (held_unallocated r more Hmore). lia.
Qed.

Lemma destroy_slots_accounts (r : Resource) (k : Z -> FreeResp) (o : Output) :
  count (gives_back r) (snd (destroy_slots k o buffer_indices)) = held_by r o /\
  unallocated (fst (destroy_slots k o buffer_indices)) /\
  kmsOutput (fst (destroy_slots k o buffer_indices)) = kmsOutput o.
Proof.
  unfold buffer_indices, held_by. cbn [destroy_slots].
  pose proof (destroyFramebuffer_accounts r (k 0) o 0) as A0.
  pose proof (destroyFramebuffer_output (k 0) o 0) as E0.
  destruct (destroyFramebuffer (k 0) o 0) as [o0 e0]. cbn [fst snd] in *. subst o0.
  pose proof (destroyFramebuffer_accounts r (k 1) (set_fb o 0 Framebuffer_new) 1) as A1.
  pose proof (destroyFramebuffer_output (k 1) (set_fb o 0 Framebuffer_new) 1) as E1.
  destruct (destroyFramebuffer (k 1) (set_fb o 0 Framebuffer_new) 1) as [o1 e1].
  cbn [fst snd] in *. subst o1.
  rewrite fb_at_set_fb_other in A1 by lia.
  rewrite app_nil_r, count_app, A0, A1.
  repeat split.
Qed.

Lemma destroyFramebuffers_from_accounts (r : Resource) (k : nat -> Z -> FreeResp)
      (j : nat) (os : list Output) :
  count (gives_back r) (snd (destroyFramebuffers_from k j os)) = held r os /\
  Forall unallocated (fst (destroyFramebuffers_from k j os)) /\
  map kmsOutput (fst (destroyFramebuffers_from k j os)) = map kmsOutput os.
Proof.
  revert j. induction os as [|o more IH]; intros j; [cbn; auto|].
  cbn [destroyFramebuffers_from].
  destruct (destroy_slots_accounts r (k j) o) as (A & U & K).
  destruct (destroy_slots (k j) o buffer_indices) as [o1 e1]. cbn [fst snd] in *.
  destruct (IH (S j)) as (A2 & U2 & K2).
  destruct (destroyFramebuffers_from k (S j) more) as [more' e2]. cbn [fst snd] in *.
  rewrite count_app, A, A2. cbn [held map]. rewrite K, K2. auto.
Qed.

Lemma setMode_from_map_fbs (rc : nat -> Z) (j : nat) (os : list Output) :
  map fbs (fst (setMode_from rc j os)) = map fbs os /\
  forallb is_mode_event (snd (setMode_from rc j os)) = true.
Proof.
  revert j. induction os as [|o more IH]; intros j; [cbn; auto|].
  cbn [setMode_from]. destruct (rc j =? -1); [cbn; auto|].
  destruct (IH (S j)) as (F & E).
  destruct (setMode_from rc (S j) more) as [more' e2]. cbn [fst snd] in *.
  split; [cbn; now rewrite F|exact E].
Qed.

Lemma createFramebuffer_alloc_events (k : AllocResp) (o : Output) (idx : Z) :
  forallb is_alloc_event (snd (createFramebuffer k o idx)) = true.
Proof.
  unfold createFramebuffer.
  destruct (create_rc k =? -1); [reflexivity|].
  destruct (addfb_rc k =? -1); [reflexivity|].
  destruct (map_rc k =? -1); [reflexivity|].
  cbn [p]. destruct (mmap_p k =? MAP_FAILED); reflexivity.
Qed.

Lemma create_slots_alloc_events (k : Z -> AllocResp) (o : Output) (idxs : list Z) :
  forallb is_alloc_event (snd (create_slots k o idxs)) = true.
Proof.
  revert o. induction idxs as [|i more IH]; intros o; [reflexivity|].
  cbn [create_slots].
  pose proof (createFramebuffer_alloc_events (k i) o i) as E1.
  destruct (createFramebuffer (k i) o i) as [[ok o1] e1]. cbn [fst snd] in *.
  destruct ok; [|exact E1].
  specialize (IH o1). destruct (create_slots k o1 more) as [[ok2 o2] e2].
  cbn [fst snd] in *. now rewrite forallb_app, E1, IH.
Qed.

Lemma createFramebuffers_from_events (k : nat -> Z -> AllocResp) (j : nat)
      (os : list Output) :
  forallb is_alloc_event (snd (createFramebuffers_from k j os)) = true /\
  map kmsOutput (fst (createFramebuffers_from k j os)) = map kmsOutput os.
Proof.
  revert j. induction os as [|o more IH]; intros j; [cbn; auto|].
  cbn [createFramebuffers_from].
  pose proof (create_slots_alloc_events (k j) o buffer_indices) as E1.
  destruct (create_slots_static (k j) o buffer_indices) as (_ & _ & K1 & _).
  destruct (create_slots (k j) o buffer_indices) as [[ok o1] e1]. cbn [fst snd] in *.
  destruct ok; [|cbn; now rewrite K1].
  destruct (IH (S j)) as (E2 & K2).
  destruct (createFramebuffers_from k (S j) more) as [more' e2]. cbn [fst snd] in *.
  rewrite forallb_app, E1, E2. cbn. now rewrite K1, K2.
Qed.

Lemma destroyFramebuffers_from_free_events (k : nat -> Z -> FreeResp) (j : nat)
      (os : list Output) :
  forallb is_free_event (snd (destroyFramebuffers_from k j os)) = true.
Proof.
  revert j. induction os as [|o more IH]; intros j; [reflexivity|].
  cbn [destroyFramebuffers_from]. unfold buffer_indices. cbn [destroy_slots].
  assert (D : forall q x i, forallb is_free_event (snd (destroyFramebuffer q x i)) = true).
  { intros q x i. unfold destroyFramebuffer; cbn [snd]. rewrite !forallb_app.
    destruct (p (fb_at x i) =? MAP_FAILED), (fb (fb_at x i) =? 0),
      (handle (fb_at x i) =? 0), (rmfb_rc q =? -1), (destroy_rc q =? -1); reflexivity. }
  pose proof (D (k j 0) o 0) as D0.
  destruct (destroyFramebuffer (k j 0) o 0) as [o0 e0].
  pose proof (D (k j 1) o0 1) as D1.
  destruct (destroyFramebuffer (k j 1) o0 1) as [o1 e1].
  specialize (IH (S j)).
  destruct (destroyFramebuffers_from k (S j) more) as [more' e2]. cbn [fst snd] in *.
  now rewrite app_nil_r, !forallb_app, D0, D1, IH.
Qed.

(** * The trace of a whole run *)

Lemma started_shape (b : Boot) (rs : list (list bool)) (rcs : list Z) :
  opens b = true ->
  fd (started b rs rcs) = open_result b /\
  m_outputs (started b rs rcs)
  = fst (setMode_from (setcrtc_rc b) 0
           (fst (createFramebuffers_from (alloc b) 0 (map Output_new (discovered b))))) /\
  trace (started b rs rcs)
  = [OpenDevice (open_result b); GetCap (getcap_rc b) (hasDumbBuf b)]
      ++ snd (createFramebuffers_from (alloc b) 0 (map Output_new (discovered b)))
      ++ snd (setMode_from (setcrtc_rc b) 0
                (fst (createFramebuffers_from (alloc b) 0 (map Output_new (discovered b))))).
Proof.
  intros Hopen. unfold started, DumbBufferRenderer_new, Device_open.
  unfold opens in Hopen. apply andb_prop in Hopen. destruct Hopen as [O1 O2].
  apply negb_true_iff in O1, O2. rewrite O1, O2. cbn [fst].
  unfold setMode, createFramebuffers, createScreens.
  set (s0 := set_fd _ _).
  destruct (createScreens_outputs (discovered b) s0) as (Ho & _ & Ht).
  assert (Hfd : forall l s, fd (fold_left (fun s output => createScreen output s) l s) = fd s).
  { induction l as [|q l IH]; intros s; [reflexivity|]. cbn [fold_left]. now rewrite IH. }
  specialize (Hfd (discovered b) s0).
  set (s1 := fold_left _ (discovered b) s0) in *.
  change (m_outputs s0) with (@nil Output) in Ho. cbn [app] in Ho. rewrite Ho.
  destruct (createFramebuffers_from (alloc b) 0 (map Output_new (discovered b)))
    as [os2 es2].
  cbn [fst snd m_outputs emit set_outputs].
  destruct (setMode_from (setcrtc_rc b) 0 os2) as [os3 es3].
  cbn [fst snd m_outputs emit set_outputs fd trace]. rewrite Hfd, Ht.
  split; [reflexivity|]. split; [reflexivity|].
  unfold s0. cbn. reflexivity.
Qed.

Lemma delete_shape (b : Boot) (st : State) :
  trace (DumbBufferRenderer_delete b st)
  = trace st
      ++ snd (destroyFramebuffers_from (free b) 0 (m_outputs st))
      ++ restores_of (fst (destroyFramebuffers_from (free b) 0 (m_outputs st)))
      ++ (if fd st =? -1 then [] else [CloseDevice (fd st)]).
Proof.
  unfold DumbBufferRenderer_delete, destroyFramebuffers, Device_close, restores_of.
  destruct (destroyFramebuffers_from (free b) 0 (m_outputs st)) as [os es].
  cbn [fst snd fd emit set_outputs m_outputs trace].
  destruct (fd st =? -1); cbn [trace emit set_outputs set_fd];
    rewrite <- ?app_assoc, ?app_nil_r; reflexivity.
Qed.

Lemma main_when_not_opened (b : Boot) (rs : list (list bool)) (rcs : list Z) (n : nat) :
  opens b = false ->
  trace (exit_state (main b rs rcs n))
  = if open_result b =? -1
    then [OpenDevice (-1); Warning "Could not open DRM device";
          Warning "Failed to open DRM device"]
    else [OpenDevice (open_result b); GetCap (getcap_rc b) (hasDumbBuf b);
          Warning "Dumb buffers not supported"; CloseDevice (open_result b);
          Warning "Failed to open DRM device"].
Proof.
  intros Hopen. unfold main, DumbBufferRenderer_new, Device_open.
  unfold opens in Hopen.
  destruct (Z.eqb_spec (open_result b) (-1)) as [E|E].
  - rewrite E. reflexivity.
  - cbn [negb andb] in Hopen. apply negb_false_iff in Hopen. rewrite Hopen.
    reflexivity.
Qed.

(** The trace of a run that opened the device and came to its end: the
    open, the allocations, the mode sets, the frame loop, the frees, the
    restores, the close. *)
Lemma main_exit_shape (b : Boot) (rs : list (list bool)) (rcs : list Z) (n : nat) :
  opens b = true -> exits (main b rs rcs n) ->
  exists es_loop os_end,
    forallb is_loop_event es_loop = true /\
    map static os_end
    = map static (fst (setMode_from (setcrtc_rc b) 0
        (fst (createFramebuffers_from (alloc b) 0 (map Output_new (discovered b)))))) /\
    trace (exit_state (main b rs rcs n))
    = [OpenDevice (open_result b); GetCap (getcap_rc b) (hasDumbBuf b)]
        ++ snd (createFramebuffers_from (alloc b) 0 (map Output_new (discovered b)))
        ++ snd (setMode_from (setcrtc_rc b) 0
                  (fst (createFramebuffers_from (alloc b) 0 (map Output_new (discovered b)))))
        ++ es_loop
        ++ snd (destroyFramebuffers_from (free b) 0 os_end)
        ++ restores_of (fst (destroyFramebuffers_from (free b) 0 os_end))
        ++ [CloseDevice (open_result b)].
Proof.
  intros Hopen Hex. unfold exits in Hex.
  rewrite (main_when_opened b rs rcs n Hopen) in *.
  destruct (started_shape b rs rcs Hopen) as (Hfd & Hos & Htr).
  destruct (loop_frame_ticks n (started b rs rcs)) as (F & S & es & T & L).
  destruct (ticks n (started b rs rcs)) as [s|s]; cbn [final] in *;
    [|cbn in Hex; congruence].
  exists es, (m_outputs s). split; [exact L|]. split; [now rewrite S, Hos|].
  cbn [exit_state]. rewrite delete_shape, T, Htr, F, Hfd.
  assert (Hd : (open_result b =? -1) = false).
  { unfold opens in Hopen. apply andb_prop in Hopen. destruct Hopen as [O1 _].
    now apply negb_true_iff in O1. }
  rewrite Hd. now rewrite <- !app_assoc.
Qed.

Lemma unallocated_new (l : list QKmsOutput) : Forall unallocated (map Output_new l).
Proof.
  apply Forall_forall. intros o Hin. apply in_map_iff in Hin.
  destruct Hin as (q & <- & _). split; reflexivity.
Qed.

Lemma restores_of_events (os : list Output) :
  forallb is_restore (restores_of os) = true /\
  count is_restore (restores_of os) = moded os.
Proof.
  unfold restores_of, moded, count. induction os as [|o os (IH1 & IH2)]; [auto|].
  cbn [flat_map filter]. rewrite forallb_app, filter_app, length_app, IH1, IH2.
  destruct (mode_set (kmsOutput o)); auto.
Qed.

Lemma moded_ext (a b : list Output) :
  map kmsOutput a = map kmsOutput b -> moded a = moded b.
Proof.
  unfold moded. revert b. induction a as [|x a IH]; intros [|y b] H; try discriminate;
    [reflexivity|].
  cbn in H. injection H as Hxy Hab. cbn [filter]. rewrite Hxy.
  destruct (mode_set (kmsOutput y)); cbn [List.length]; now rewrite (IH b Hab).
Qed.

Lemma map_kmsOutput_static (a b : list Output) :
  map static a = map static b -> map kmsOutput a = map kmsOutput b.
Proof.
  intros H. apply (f_equal (map fst)) in H. rewrite !map_map in H. exact H.
Qed.

Lemma setMode_from_moded (rc : nat -> Z) (j : nat) (os : list Output) :
  Forall (fun o => mode_set (kmsOutput o) = false) os ->
  count is_power_on (snd (setMode_from rc j os)) = moded (fst (setMode_from rc j os)).
Proof.
  intros H. revert j. induction H as [|o more Ho Hmore IH]; intros j; [reflexivity|].
  cbn [setMode_from]. destruct (rc j =? -1).
  - cbn [fst snd]. unfold moded. cbn [filter]. rewrite Ho.
    assert (Z0 : filter (fun o => mode_set (kmsOutput o)) more = []).
    { clear IH. induction Hmore as [|x l Hx _ IHl]; [reflexivity|].
      cbn [filter]. now rewrite Hx. }
    rewrite Z0. reflexivity.
  - specialize (IH (S j)).
    destruct (setMode_from rc (S j) more) as [more' e2]. cbn [fst snd] in *.
    unfold moded in *. cbn [filter set_mode_set kmsOutput mode_set List.length].
    unfold count in *. cbn [app filter is_power_on List.length]. now rewrite IH.
Qed.

(** X2.  No leak at exit.  In every run of [main] that comes to its end,
    with a kernel that hands out non-zero handles and ids, each kind of
    Buffer resource (dumb-buffer allocations, presentation handles, mappings)
    is given back by the destructor exactly as often as start-up acquired it,
    whichever allocation, mode set or flip failed in between. *)
Theorem no_leak_at_exit (b : Boot) (rs : list (list bool)) (rcs : list Z) (n : nat)
        (r : Resource) :
  (forall x i, in_bounds i -> honest (alloc b x i)) ->
  exits (main b rs rcs n) ->
  count (acquires r) (trace (exit_state (main b rs rcs n)))
  = count (gives_back r) (trace (exit_state (main b rs rcs n))).
Proof.
  intros Hh Hex. destruct (opens b) eqn:Hopen.
  - destruct (main_exit_shape b rs rcs n Hopen Hex) as (es & os & L & S & ->).
    set (cf := createFramebuffers_from (alloc b) 0 (map Output_new (discovered b))) in *.
    set (sm := setMode_from (setcrtc_rc b) 0 (fst cf)) in *.
    set (df := destroyFramebuffers_from (free b) 0 os).
    destruct (createFramebuffers_from_events (alloc b) 0 (map Output_new (discovered b)))
      as (Ecf & _). fold cf in Ecf.
    destruct (setMode_from_map_fbs (setcrtc_rc b) 0 (fst cf)) as (Fsm & Esm).
    fold sm in Fsm, Esm.
    pose proof (destroyFramebuffers_from_free_events (free b) 0 os) as Edf. fold df in Edf.
    destruct (restores_of_events (fst df)) as (Ers & _).
    destruct (destroyFramebuffers_from_accounts r (free b) 0 os) as (Adf & _). fold df in Adf.
    pose proof (createFramebuffers_from_accounts r (alloc b) 0 _
                  (unallocated_new (discovered b)) Hh) as Acf. fold cf in Acf.
    rewrite !count_app, Acf, Adf.
    rewrite (count_disjoint (acquires r) is_mode_event (snd sm) Esm)
      by (intros e; destruct r, e; cbn; congruence).
    rewrite (count_disjoint (acquires r) is_loop_event es L)
      by (intros e; destruct r, e; cbn; congruence).
    rewrite (count_disjoint (acquires r) is_free_event (snd df) Edf)
      by (intros e; destruct r, e; cbn; congruence).
    rewrite (count_disjoint (acquires r) is_restore _ Ers)
      by (intros e; destruct r, e; cbn; congruence).
    rewrite (count_disjoint (gives_back r) is_alloc_event (snd cf) Ecf)
      by (intros e; destruct r, e; cbn; congruence).
    rewrite (count_disjoint (gives_back r) is_mode_event (snd sm) Esm)
      by (intros e; destruct r, e; cbn; congruence).
    rewrite (count_disjoint (gives_back r) is_loop_event es L)
      by (intros e; destruct r, e; cbn; congruence).
    rewrite (count_disjoint (gives_back r) is_restore _ Ers)
      by (intros e; destruct r, e; cbn; congruence).
    rewrite (held_ext r os (fst sm)) by (apply map_fbs_static; exact S).
    rewrite (held_ext r (fst sm) (fst cf) Fsm).
    destruct r; cbn; lia.
  - rewrite (main_when_not_opened b rs rcs n Hopen).
    destruct (open_result b =? -1); destruct r; reflexivity.
Qed.

Lemma no_leak_at_exit_witness :
  (forall x i, in_bounds i ->
               honest (alloc (boot_addfb_fails 1 1 [kms_A; kms_B; kms_C]) x i)) /\
  exits (main (boot_addfb_fails 1 1 [kms_A; kms_B; kms_C]) (prompt_reads 10) [] 3) /\
  count (gives_back Allocation)
        (trace (exit_state (main (boot_addfb_fails 1 1 [kms_A; kms_B; kms_C])
                                 (prompt_reads 10) [] 3))) = 4%nat /\
  count (gives_back Presentation)
        (trace (exit_state (main (boot_addfb_fails 1 1 [kms_A; kms_B; kms_C])
                                 (prompt_reads 10) [] 3))) = 3%nat.
Proof.
  assert (Hh : forall x i, in_bounds i ->
                 honest (alloc (boot_addfb_fails 1 1 [kms_A; kms_B; kms_C]) x i)).
  { intros x i Hi. unfold in_bounds, BUFFER_COUNT in Hi.
    cbn [alloc boot_addfb_fails]. unfold alloc_addfb_fails_at.
    destruct (Nat.eqb x 1 && (i =? 1)); unfold honest, alloc_ok;
      cbn [create_rc create_handle addfb_rc addfb_id]; split; intros H; lia. }
  assert (Hex : exits (main (boot_addfb_fails 1 1 [kms_A; kms_B; kms_C])
                            (prompt_reads 10) [] 3))
    by (vm_compute; discriminate).
  split; [exact Hh|]. split; [exact Hex|]. split.
  - rewrite <- (no_leak_at_exit (boot_addfb_fails 1 1 [kms_A; kms_B; kms_C])
                  (prompt_reads 10) [] 3 Allocation Hh Hex).
    vm_compute. reflexivity.
  - rewrite <- (no_leak_at_exit (boot_addfb_fails 1 1 [kms_A; kms_B; kms_C])
                  (prompt_reads 10) [] 3 Presentation Hh Hex).
    vm_compute. reflexivity.
Defined.

(** X3.  In every run of [main] that comes to its end, the DRM descriptor is
    closed exactly once if opening it succeeded (also when the capability
    check then failed) and never otherwise. *)
Theorem descriptor_closed_once (b : Boot) (rs : list (list bool)) (rcs : list Z)
        (n : nat) :
  exits (main b rs rcs n) ->
  count is_open_ok (trace (exit_state (main b rs rcs n)))
  = b2n (negb (open_result b =? -1)) /\
  count is_close (trace (exit_state (main b rs rcs n)))
  = b2n (negb (open_result b =? -1)).
Proof.
  intros Hex. destruct (opens b) eqn:Hopen.
  - destruct (main_exit_shape b rs rcs n Hopen Hex) as (es & os & L & S & ->).
    set (cf := createFramebuffers_from (alloc b) 0 (map Output_new (discovered b))) in *.
    set (sm := setMode_from (setcrtc_rc b) 0 (fst cf)) in *.
    set (df := destroyFramebuffers_from (free b) 0 os).
    destruct (createFramebuffers_from_events (alloc b) 0 (map Output_new (discovered b)))
      as (Ecf & _). fold cf in Ecf.
    destruct (setMode_from_map_fbs (setcrtc_rc b) 0 (fst cf)) as (_ & Esm). fold sm in Esm.
    pose proof (destroyFramebuffers_from_free_events (free b) 0 os) as Edf. fold df in Edf.
    destruct (restores_of_events (fst df)) as (Ers & _).
    assert (Hd : (open_result b =? -1) = false).
    { unfold opens in Hopen. apply andb_prop in Hopen. destruct Hopen as [O1 _].
      now apply negb_true_iff in O1. }
    rewrite !count_app.
    rewrite (count_disjoint is_open_ok is_alloc_event (snd cf) Ecf),
            (count_disjoint is_open_ok is_mode_event (snd sm) Esm),
            (count_disjoint is_open_ok is_loop_event es L),
            (count_disjoint is_open_ok is_free_event (snd df) Edf),
            (count_disjoint is_open_ok is_restore _ Ers),
            (count_disjoint is_close is_alloc_event (snd cf) Ecf),
            (count_disjoint is_close is_mode_event (snd sm) Esm),
            (count_disjoint is_close is_loop_event es L),
            (count_disjoint is_close is_free_event (snd df) Edf),
            (count_disjoint is_close is_restore _ Ers)
      by (intros e; destruct e; cbn; congruence).
    unfold count. cbn [filter is_open_ok is_close]. rewrite Hd. auto.
  - rewrite (main_when_not_opened b rs rcs n Hopen).
    destruct (open_result b =? -1) eqn:E; unfold count; cbn [filter is_open_ok is_close];
      rewrite ?E; auto.
Qed.

Lemma descriptor_closed_once_witness :
  exits (main (mkBoot 3 (-1) 0 [kms_A] alloc_ok (fun _ => 0) free_ok) [] [] 2) /\
  count is_close
        (trace (exit_state (main (mkBoot 3 (-1) 0 [kms_A] alloc_ok (fun _ => 0) free_ok)
                                 [] [] 2))) = 1%nat.
Proof.
  assert (Hex : exits (main (mkBoot 3 (-1) 0 [kms_A] alloc_ok (fun _ => 0) free_ok) [] [] 2))
    by (vm_compute; discriminate).
  split; [exact Hex|].
  exact (proj2 (descriptor_closed_once
                  (mkBoot 3 (-1) 0 [kms_A] alloc_ok (fun _ => 0) free_ok) [] [] 2 Hex)).
Defined.

(** X4.  In every run of [main] that comes to its end, on outputs that are
    discovered with [mode_set] false, [Device::close] restores the mode of
    exactly as many Outputs as [setMode] switched on: every mode set that
    succeeded is undone, and nothing is restored that was not set. *)
Theorem modes_restored_at_exit (b : Boot) (rs : list (list bool)) (rcs : list Z)
        (n : nat) :
  Forall (fun k => mode_set k = false) (discovered b) ->
  exits (main b rs rcs n) ->
  count is_restore (trace (exit_state (main b rs rcs n)))
  = count is_power_on (trace (exit_state (main b rs rcs n))).
Proof.
  intros Hms Hex. destruct (opens b) eqn:Hopen.
  - destruct (main_exit_shape b rs rcs n Hopen Hex) as (es & os & L & S & ->).
    set (cf := createFramebuffers_from (alloc b) 0 (map Output_new (discovered b))) in *.
    set (sm := setMode_from (setcrtc_rc b) 0 (fst cf)) in *.
    set (df := destroyFramebuffers_from (free b) 0 os).
    destruct (createFramebuffers_from_events (alloc b) 0 (map Output_new (discovered b)))
      as (Ecf & Kcf). fold cf in Ecf, Kcf.
    destruct (setMode_from_map_fbs (setcrtc_rc b) 0 (fst cf)) as (_ & Esm). fold sm in Esm.
    pose proof (destroyFramebuffers_from_free_events (free b) 0 os) as Edf. fold df in Edf.
    destruct (restores_of_events (fst df)) as (Ers & Crs).
    destruct (destroyFramebuffers_from_accounts Mapping (free b) 0 os) as (_ & _ & Kdf).
    fold df in Kdf.
    assert (Hcf : Forall (fun o => mode_set (kmsOutput o) = false) (fst cf)).
    { apply Forall_forall. intros o Ho.
      assert (Hin : In (kmsOutput o) (map kmsOutput (fst cf))) by now apply in_map.
      rewrite Kcf, map_map in Hin. cbn in Hin. rewrite map_id in Hin.
      rewrite Forall_forall in Hms. now apply Hms. }
    pose proof (setMode_from_moded (setcrtc_rc b) 0 (fst cf) Hcf) as Msm. fold sm in Msm.
    rewrite !count_app, Crs, Msm.
    rewrite (count_disjoint is_restore is_alloc_event (snd cf) Ecf),
            (count_disjoint is_restore is_mode_event (snd sm) Esm),
            (count_disjoint is_restore is_loop_event es L),
            (count_disjoint is_restore is_free_event (snd df) Edf),
            (count_disjoint is_power_on is_alloc_event (snd cf) Ecf),
            (count_disjoint is_power_on is_loop_event es L),
            (count_disjoint is_power_on is_free_event (snd df) Edf),
            (count_disjoint is_power_on is_restore _ Ers)
      by (intros e; destruct e; cbn; congruence).
    rewrite (moded_ext (fst df) os Kdf).
    rewrite (moded_ext os (fst sm)) by (apply map_kmsOutput_static; exact S).
    cbn. lia.
  - rewrite (main_when_not_opened b rs rcs n Hopen).
    destruct (open_result b =? -1); reflexivity.
Qed.

Lemma modes_restored_at_exit_witness :
  Forall (fun k => mode_set k = false) (discovered (boot_ok [kms_A])) /\
  exits (main (boot_ok [kms_A]) (prompt_reads 3) [] 3) /\
  count is_restore (trace (exit_state (main (boot_ok [kms_A]) (prompt_reads 3) [] 3)))
  = 1%nat.
Proof.
  assert (Hms : Forall (fun k => mode_set k = false) (discovered (boot_ok [kms_A])))
    by (repeat constructor).
  assert (Hex : exits (main (boot_ok [kms_A]) (prompt_reads 3) [] 3))
    by (vm_compute; discriminate).
  split; [exact Hms|]. split; [exact Hex|].
  rewrite (modes_restored_at_exit (boot_ok [kms_A]) (prompt_reads 3) [] 3 Hms Hex).
  vm_compute. reflexivity.
Defined.

(** * Teardown of the whole device *)

Lemma destroy_slots_unallocated (k : Z -> FreeResp) (o : Output) :
  unallocated o -> destroy_slots k o buffer_indices = (o, []).
Proof.
  intros [N0 N1]. unfold buffer_indices. cbn [destroy_slots].
  unfold destroyFramebuffer. rewrite N0. cbn [p fb handle Framebuffer_new].
  cbn [Z.eqb MAP_FAILED Pos.eqb app].
  assert (E0 : set_fb o 0 Framebuffer_new = o) by (rewrite <- N0; apply set_fb_fb_at).
  rewrite E0, N1. cbn [p fb handle Framebuffer_new Z.eqb MAP_FAILED Pos.eqb app].
  assert (E1 : set_fb o 1 Framebuffer_new = o) by (rewrite <- N1; apply set_fb_fb_at).
  now rewrite E1.
Qed.

Lemma destroyFramebuffers_from_unallocated (k : nat -> Z -> FreeResp) (j : nat)
      (os : list Output) :
  Forall unallocated os -> destroyFramebuffers_from k j os = (os, []).
Proof.
  intros H. revert j. induction H as [|o more Ho _ IH]; intros j; [reflexivity|].
  cbn [destroyFramebuffers_from]. rewrite (destroy_slots_unallocated (k j) o Ho), IH.
  reflexivity.
Qed.

Lemma destroyFramebuffers_nothing_left (b : Boot) (s : State) :
  Forall unallocated (m_outputs s) ->
  m_outputs (destroyFramebuffers b s) = m_outputs s /\
  trace (destroyFramebuffers b s) = trace s.
Proof.
  intros U. unfold destroyFramebuffers.
  rewrite (destroyFramebuffers_from_unallocated (free b) 0 _ U).
  cbn [m_outputs trace emit set_outputs]. split; [reflexivity|apply app_nil_r].
Qed.

(** X5.  [destroyFramebuffers] leaves every slot of every Output as
    [Framebuffer()] does, whatever the kernel answers to the releases; run a
    second time, with any kernel answers, it makes no call, reports nothing
    and changes no Output. *)
Theorem destroyFramebuffers_idempotent (b b' : Boot) (st : State) :
  Forall unallocated (m_outputs (destroyFramebuffers b st)) /\
  m_outputs (destroyFramebuffers b' (destroyFramebuffers b st))
  = m_outputs (destroyFramebuffers b st) /\
  trace (destroyFramebuffers b' (destroyFramebuffers b st))
  = trace (destroyFramebuffers b st).
Proof.
  assert (U : Forall unallocated (m_outputs (destroyFramebuffers b st))).
  { unfold destroyFramebuffers.
    destruct (destroyFramebuffers_from_accounts Mapping (free b) 0 (m_outputs st))
      as (_ & H & _).
    destruct (destroyFramebuffers_from (free b) 0 (m_outputs st)) as [os es].
    exact H. }
  split; [exact U|].
  now apply destroyFramebuffers_nothing_left.
Qed.

(** * Ticks with nothing to draw on *)

Lemma update_loop_idle (idxs : list nat) (st : State) :
  (forall i, p (fb_at (output_at st i) (backFb (output_at st i))) = MAP_FAILED) ->
  update_loop idxs st = Returns st.
Proof.
  intros H. induction idxs as [|i more IH]; [reflexivity|].
  cbn [update_loop]. unfold update_output. now rewrite (H i), Z.eqb_refl.
Qed.

(** X6.  When the slot each Output points at is unmapped (no Output at all,
    or none allocated), any number of ticks returns at once, whatever the
    schedule of reads: nothing is written, no flip is requested, no read is
    made and the state is unchanged. *)
Theorem ticks_without_buffers (n : nat) (st : State) :
  (forall i, p (fb_at (output_at st i) (backFb (output_at st i))) = MAP_FAILED) ->
  ticks n st = Returns st.
Proof.
  intros H. induction n as [|n IH]; [reflexivity|].
  cbn [ticks]. unfold update. now rewrite update_loop_idle.
Qed.

Lemma ticks_without_buffers_witness :
  (forall i, p (fb_at (output_at (started (boot_alloc_fails 0 0 [kms_A; kms_B]) [] []) i)
                      (backFb (output_at (started (boot_alloc_fails 0 0 [kms_A; kms_B]) [] []) i)))
             = MAP_FAILED) /\
  ticks 5 (started (boot_alloc_fails 0 0 [kms_A; kms_B]) [] [])
  = Returns (started (boot_alloc_fails 0 0 [kms_A; kms_B]) [] []).
Proof.
  assert (H : forall i,
             p (fb_at (output_at (started (boot_alloc_fails 0 0 [kms_A; kms_B]) [] []) i)
                      (backFb (output_at (started (boot_alloc_fails 0 0 [kms_A; kms_B]) [] []) i)))
             = MAP_FAILED).
  { intros [|[|[|i]]]; vm_compute; reflexivity. }
  split; [exact H|]. exact (ticks_without_buffers 5 _ H).
Defined.

(** * Waits that cannot end *)

(** X7.  A [swapBuffers] call on an Output that is marked flipped while the
    kernel holds no flip request for it never returns, whatever the reads
    deliver: it submits no flip request and leaves the Output's [backFb] as
    it was. *)
Theorem wait_without_request_never_ends (st : State) (i : nat) (rs : list (list bool)) :
  stuck st i ->
  returned (swapBuffers i (set_reads st rs)) = false /\
  count (is_flip_call i) (trace (final (swapBuffers i (set_reads st rs))))
  = count (is_flip_call i) (trace st) /\
  backFb (output_at (final (swapBuffers i (set_reads st rs))) i)
  = backFb (output_at st i).
Proof.
  intros Hs.
  assert (Hs' : stuck (set_reads st rs) i) by now apply (stuck_ext st).
  destruct (stuck_swapBuffers_self i _ Hs') as (Hr & _).
  destruct (swapBuffers_facts i (set_reads st rs)) as (_ & _ & es & He & _ & Hc).
  split; [exact Hr|]. split.
  - rewrite He, count_app, Hc, Hr. cbn [andb].
    change (trace (set_reads st rs)) with (trace st). lia.
  - destruct Hs' as (Hv & Hb & Hf & Ho).
    rewrite swapBuffers_unfold, Hf in *.
    destruct (wait_flip_other (reads (set_reads st rs)) i
                (backFb (output_at (set_reads st rs) i)) i _ Hv Ho) as (Hback & _).
    destruct (wait_flip _ i _ (set_reads st rs)); cbn [final returned] in *;
      [discriminate Hr|exact Hback].
Qed.

Lemma wait_without_request_never_ends_witness :
  stuck (final (swapBuffers 0 refused_once)) 0 /\
  returned (swapBuffers 0 (set_reads (final (swapBuffers 0 refused_once))
                                     (prompt_reads 7))) = false.
Proof.
  assert (Hs : stuck (final (swapBuffers 0 refused_once)) 0).
  { split; [vm_compute; lia|]. split; [change (in_bounds 0); exact in_bounds_0|].
    split; vm_compute; reflexivity. }
  split; [exact Hs|].
  exact (proj1 (wait_without_request_never_ends _ 0 (prompt_reads 7) Hs)).
Defined.

Lemma output_at_set_reads (st : State) (rs : list (list bool)) (i : nat) :
  output_at (set_reads st rs) i = output_at st i.
Proof. reflexivity. Qed.

(** X8.  Two Outputs [A] and [B] both have a flip request in flight.  If the
    read that ends the wait of [swapBuffers] for [A] also delivers [B]'s
    completion, the call for [A] returns, and the next [swapBuffers] for [B]
    never returns: its completion was consumed before its wait began. *)
Theorem early_completion_blocks_next_wait (st : State) (A B : nat)
        (mask : list bool) (rs : list (list bool)) :
  valid st A -> valid st B -> A <> B ->
  in_bounds (backFb (output_at st A)) -> in_bounds (backFb (output_at st B)) ->
  flipped (output_at st A) = true -> flipped (output_at st B) = true ->
  occ B (pending st) = 1%nat ->
  reads st = mask :: rs ->
  occ A (fst (deliver mask (pending st))) = 1%nat ->
  occ B (fst (deliver mask (pending st))) = 1%nat ->
  returned (swapBuffers A st) = true /\
  returned (swapBuffers B (final (swapBuffers A st))) = false.
Proof.
  intros HvA HvB Hne HbA HbB HfA HfB HoB Hr HdA HdB.
  split; [now apply (swapBuffers_returns_when_delivered A st mask rs)|].
  apply stuck_swapBuffers_self.
  rewrite swapBuffers_unfold, HfA, Hr, wait_flip_step by reflexivity.
  set (st1 := drmHandleEvent mask (set_reads st rs)).
  assert (E1 : st1 = run_handlers (fst (deliver mask (pending st)))
                       (emit (set_pending (set_reads st rs)
                                (snd (deliver mask (pending st)))) [HandleEvent]))
    by (unfold st1; now rewrite drmHandleEvent_unfold).
  destruct (run_handlers_frame (fst (deliver mask (pending st)))
              (emit (set_pending (set_reads st rs) (snd (deliver mask (pending st))))
                    [HandleEvent])) as (Hp & _ & _ & _ & Hl).
  rewrite <- E1 in Hp, Hl. cbn [pending emit set_pending m_outputs set_reads] in Hp, Hl.
  assert (HA1 : backFb (output_at st1 A) = rot (backFb (output_at st A)))
    by (rewrite E1, run_handlers_backFb by exact HvA; rewrite HdA; reflexivity).
  assert (HB1 : backFb (output_at st1 B) = rot (backFb (output_at st B)))
    by (rewrite E1, run_handlers_backFb by exact HvB; rewrite HdB; reflexivity).
  assert (HfB1 : flipped (output_at st1 B) = true).
  { rewrite E1. destruct (run_handlers_rest (fst (deliver mask (pending st)))
      (emit (set_pending (set_reads st rs) (snd (deliver mask (pending st))))
            [HandleEvent]) B) as (-> & _). exact HfB. }
  assert (HoB1 : occ B (pending st1) = 0%nat).
  { rewrite Hp. pose proof (deliver_occ mask (pending st) B). lia. }
  assert (Hw : wait_flip rs A (backFb (output_at st A)) st1 = Returns (set_reads st1 rs)).
  { assert (Hn : (backFb (output_at st1 A) =? backFb (output_at st A)) = false)
      by (apply Z.eqb_neq; rewrite HA1; now apply rot_neq).
    destruct rs; cbn [wait_flip]; now rewrite Hn. }
  rewrite Hw. cbn [final].
  destruct (submit_flip_facts A (set_reads st1 rs)) as (Hm & Hps & _).
  unfold stuck. rewrite output_at_submit_flip, output_at_set_reads, Hps.
  split; [apply valid_submit_flip; unfold valid; cbn; now rewrite Hl|].
  split; [rewrite HB1; now apply rot_in_bounds|]. split; [exact HfB1|].
  cbn [pending set_reads].
  destruct (hd 0 (flip_rcs (set_reads st1 rs)) =? 0); [|exact HoB1].
  rewrite occ_app, occ_single, HoB1.
  apply Nat.eqb_neq in Hne. now rewrite Hne.
Qed.

Lemma early_completion_blocks_next_wait_witness :
  reads (set_reads both_in_flight (prompt_reads 4)) = [true; true; true] :: prompt_reads 3 /\
  returned (swapBuffers 0 (set_reads both_in_flight (prompt_reads 4))) = true /\
  returned (swapBuffers 1 (final (swapBuffers 0 (set_reads both_in_flight (prompt_reads 4)))))
  = false.
Proof.
  split; [reflexivity|].
  apply (early_completion_blocks_next_wait (set_reads both_in_flight (prompt_reads 4))
           0 1 [true; true; true] (prompt_reads 3)).
  - vm_compute; lia.
  - vm_compute; lia.
  - discriminate.
  - change (in_bounds 0); exact in_bounds_0.
  - change (in_bounds 0); exact in_bounds_0.
  - vm_compute; reflexivity.
  - vm_compute; reflexivity.
  - vm_compute; reflexivity.
  - reflexivity.
  - vm_compute; reflexivity.
  - vm_compute; reflexivity.
Defined.

(** * Which buffer a tick presents *)

Lemma static_output_at (st s : State) (i : nat) :
  map static (m_outputs s) = map static (m_outputs st) ->
  static (output_at s i) = static (output_at st i).
Proof.
  intros H. unfold output_at.
  rewrite <- (map_nth static (m_outputs s) no_output i),
          <- (map_nth static (m_outputs st) no_output i).
  now rewrite H.
Qed.

Lemma fb_at_fbs (o o' : Output) (x : Z) : fbs o' = fbs o -> fb_at o' x = fb_at o x.
Proof. unfold fb_at. now intros ->. Qed.

(** X9.  What one visit of [update] to an Output with a mapped current slot
    does, when it returns: it fills the slot [backFb] points at, waits for
    the previous flip if there is one, and then requests a flip to the
    buffer of the other slot.  Only on the first visit (nothing in flight)
    is the flip requested for the slot that was just filled; on every later
    visit the buffer just filled is not the one presented. *)
Theorem update_output_presents (st s : State) (i : nat) :
  valid st i -> in_bounds (backFb (output_at st i)) -> flight_ok st i ->
  p (fb_at (output_at st i) (backFb (output_at st i))) <> MAP_FAILED ->
  update_output i st = Returns s ->
  exists mid tail,
    forallb is_wait_event mid = true /\ forallb is_warning tail = true /\
    trace s
    = trace st
        ++ Fill i (backFb (output_at st i))
                (p (fb_at (output_at st i) (backFb (output_at st i))))
                (size (fb_at (output_at st i) (backFb (output_at st i))) / 4)
                (colour st)
        :: mid
        ++ PageFlip (crtc_id (kmsOutput (output_at st i)))
                    (fb (fb_at (output_at st i)
                               (if flipped (output_at st i)
                                then rot (backFb (output_at st i))
                                else backFb (output_at st i))))
                    i (hd 0 (flip_rcs st))
        :: tail.
Proof.
  intros Hv Hb [Hone Hidle] Hp. unfold update_output.
  apply Z.eqb_neq in Hp. rewrite Hp.
  set (e := Fill i _ _ _ _).
  set (st2 := set_rgb (emit st [e]) _ _ _).
  assert (Hat : output_at st2 i = output_at st i) by reflexivity.
  rewrite swapBuffers_unfold, Hat.
  change (reads st2) with (reads st).
  destruct (flipped (output_at st i)) eqn:Hfl.
  - pose proof (wait_flip_local (reads st) i (backFb (output_at st i)) st2 Hv Hb Hone
                  (f_equal backFb Hat)) as Hw.
    destruct (wait_flip_facts (reads st) i (backFb (output_at st i)) st2)
      as ((es & He & Hq) & _ & Hrc & _).
    destruct (loop_frame_wait_flip (reads st) i (backFb (output_at st i)) st2)
      as (_ & Hst & _).
    destruct (wait_flip (reads st) i (backFb (output_at st i)) st2) as [w|w];
      [|discriminate].
    cbn [final] in *. destruct Hw as (_ & _ & _ & Hrot).
    intros Hs. injection Hs as <-.
    pose proof (static_output_at st2 w i Hst) as Hstat.
    rewrite Hat in Hstat. unfold static in Hstat. injection Hstat as Hk Hf.
    destruct (submit_flip_facts i w) as (_ & _ & _ & Ht).
    rewrite Ht, He, Hrc, Hk, Hrot, (fb_at_fbs _ _ _ Hf).
    exists es, (if hd 0 (flip_rcs st2) =? -1 then [Warning "Page flip failed"] else []).
    split; [exact Hq|]. split; [destruct (hd 0 (flip_rcs st2) =? -1); reflexivity|].
    unfold st2. cbn [trace set_rgb emit flip_rcs]. now rewrite <- !app_assoc.
  - intros Hs. injection Hs as <-.
    set (w := modify_output st2 i (fun o => set_flipped o true)).
    assert (Hatw : output_at w i = set_flipped (output_at st i) true).
    { unfold w. rewrite output_at_modify, Nat.eqb_refl, Hat.
      assert (Hlt : Nat.ltb i (List.length (m_outputs st2)) = true)
        by (apply Nat.ltb_lt; exact Hv).
      now rewrite Hlt. }
    destruct (submit_flip_facts i w) as (_ & _ & _ & Ht).
    rewrite Ht, Hatw.
    exists [], (if hd 0 (flip_rcs w) =? -1 then [Warning "Page flip failed"] else []).
    split; [reflexivity|]. split; [destruct (hd 0 (flip_rcs w) =? -1); reflexivity|].
    unfold w, st2. cbn [trace set_rgb emit flip_rcs modify_output set_outputs app
                          kmsOutput set_flipped backFb].
    now rewrite <- !app_assoc.
Qed.

Lemma update_output_presents_witness :
  valid second_tick 0 /\
  flight_ok second_tick 0 /\
  update_output 0 second_tick = Returns (final (update_output 0 second_tick)) /\
  flipped (output_at second_tick 0) = true /\
  exists mid tail,
    forallb is_wait_event mid = true /\ forallb is_warning tail = true /\
    trace (final (update_output 0 second_tick))
    = trace second_tick
        ++ Fill 0 (backFb (output_at second_tick 0))
                (p (fb_at (output_at second_tick 0) (backFb (output_at second_tick 0))))
                (size (fb_at (output_at second_tick 0) (backFb (output_at second_tick 0))) / 4)
                (colour second_tick)
        :: mid
        ++ PageFlip (crtc_id (kmsOutput (output_at second_tick 0)))
                    (fb (fb_at (output_at second_tick 0)
                               (if flipped (output_at second_tick 0)
                                then rot (backFb (output_at second_tick 0))
                                else backFb (output_at second_tick 0))))
                    0 (hd 0 (flip_rcs second_tick))
        :: tail.
Proof.
  assert (Hv : valid second_tick 0) by (vm_compute; lia).
  assert (Hb : in_bounds (backFb (output_at second_tick 0)))
    by (change (in_bounds 0); exact in_bounds_0).
  assert (Hf : flight_ok second_tick 0)
    by (split; [vm_compute; lia|intros H; vm_compute in H; discriminate H]).
  assert (Hp : p (fb_at (output_at second_tick 0) (backFb (output_at second_tick 0)))
               <> MAP_FAILED) by (vm_compute; discriminate).
  assert (Hs : update_output 0 second_tick = Returns (final (update_output 0 second_tick)))
    by (vm_compute; reflexivity).
  assert (Hfl : flipped (output_at second_tick 0) = true) by (vm_compute; reflexivity).
  split; [exact Hv|]. split; [exact Hf|]. split; [exact Hs|]. split; [exact Hfl|].
  exact (update_output_presents second_tick (final (update_output 0 second_tick)) 0
           Hv Hb Hf Hp Hs).
Defined.

(** * A single Output never waits in vain *)

Lemma reads_submit_flip (i : nat) (st : State) :
  reads (submit_flip i st) = reads st.
Proof.
  unfold submit_flip, drmModePageFlip. cbn [fst snd].
  destruct (hd 0 (flip_rcs st) =? -1), (hd 0 (flip_rcs st) =? 0); reflexivity.
Qed.

Lemma accepted_head (rcs : list Z) :
  forallb (Z.eqb 0) rcs = true ->
  (hd 0 rcs =? 0) = true /\ forallb (Z.eqb 0) (tl rcs) = true.
Proof.
  destruct rcs as [|rc rcs]; [auto|]. cbn [forallb hd tl]. intros H.
  apply andb_prop in H. destruct H as [H1 H2].
  apply Z.eqb_eq in H1. subst rc. auto.
Qed.

Lemma lone_submit (w : State) :
  List.length (m_outputs w) = 1%nat -> both_mapped (output_at w 0) ->
  in_bounds (backFb (output_at w 0)) -> flipped (output_at w 0) = true ->
  forallb (Z.eqb 0) (flip_rcs w) = true -> forallb prompt (reads w) = true ->
  pending w = [] ->
  lone_ready (submit_flip 0 w).
Proof.
  intros Hl Hm Hb Hf Hrc Hrd Hp.
  destruct (submit_flip_facts 0 w) as (Hmo & Hps & Htl & _).
  destruct (accepted_head _ Hrc) as (Hhd & Htail).
  unfold lone_ready. rewrite output_at_submit_flip, Hmo, Hps, Htl, reads_submit_flip, Hhd, Hp.
  split; [exact Hl|]. split; [exact Hm|]. split; [exact Hb|]. split; [exact Htail|].
  split; [exact Hrd|]. right. split; [exact Hf|reflexivity].
Qed.

Lemma lone_update (st : State) :
  lone_ready st -> (1 <= List.length (reads st))%nat ->
  exists s, update st = Returns s /\ lone_ready s /\
            (List.length (reads st) <= S (List.length (reads s)))%nat.
Proof.
  intros (Hl & Hm & Hb & Hrc & Hrd & Hfp) Hlen.
  unfold update. rewrite Hl. cbn [seq update_loop]. unfold update_output.
  assert (Hlive : (p (fb_at (output_at st 0) (backFb (output_at st 0))) =? MAP_FAILED) = false)
    by (apply Z.eqb_neq; now apply both_mapped_slot).
  rewrite Hlive.
  set (st2 := set_rgb _ _ _ _).
  rewrite swapBuffers_unfold.
  change (output_at st2 0) with (output_at st 0). change (reads st2) with (reads st).
  destruct Hfp as [(Hf & Hp)|(Hf & Hp)]; rewrite Hf.
  - set (w := modify_output st2 0 (fun o => set_flipped o true)).
    assert (Hatw : output_at w 0 = set_flipped (output_at st 0) true).
    { unfold w. rewrite output_at_modify. cbn [Nat.eqb andb].
      change (m_outputs st2) with (m_outputs st). rewrite Hl. reflexivity. }
    exists (submit_flip 0 w). split; [reflexivity|]. split.
    + apply lone_submit.
      * unfold w, modify_output. cbn [m_outputs set_outputs].
        rewrite length_update_nth. exact Hl.
      * rewrite Hatw. exact Hm.
      * rewrite Hatw. exact Hb.
      * rewrite Hatw. reflexivity.
      * exact Hrc.
      * exact Hrd.
      * exact Hp.
    + rewrite reads_submit_flip. cbn. lia.
  - destruct (reads st) as [|mask rs] eqn:Er; [cbn in Hlen; lia|].
    cbn [forallb] in Hrd. apply andb_prop in Hrd. destruct Hrd as [Hmask Hrs].
    destruct mask as [|[|] m]; try discriminate Hmask.
    rewrite wait_flip_step by reflexivity.
    set (st1 := drmHandleEvent (true :: m) (set_reads st2 rs)).
    assert (E1 : st1 = pageFlipHandler 0
                         (emit (set_pending (set_reads st2 rs) []) [HandleEvent])).
    { unfold st1, drmHandleEvent.
      change (pending (set_reads st2 rs)) with (pending st). rewrite Hp.
      destruct m as [|[|] m']; reflexivity. }
    assert (Hv0 : valid (emit (set_pending (set_reads st2 rs) []) [HandleEvent]) 0)
      by (unfold valid; cbn; rewrite Hl; lia).
    assert (Hat1 : output_at st1 0
                   = set_backFb (output_at st 0) (rot (backFb (output_at st 0))))
      by (rewrite E1, output_at_handler_same by exact Hv0; reflexivity).
    assert (Hn : (backFb (output_at st1 0) =? backFb (output_at st 0)) = false)
      by (apply Z.eqb_neq; rewrite Hat1; cbn; now apply rot_neq).
    assert (Hw : wait_flip rs 0 (backFb (output_at st 0)) st1 = Returns (set_reads st1 rs))
      by (destruct rs; cbn [wait_flip]; now rewrite Hn).
    rewrite Hw. exists (submit_flip 0 (set_reads st1 rs)). split; [reflexivity|]. split.
    + apply lone_submit.
      * cbn [m_outputs set_reads]. rewrite E1, length_handler. exact Hl.
      * rewrite output_at_set_reads, Hat1. exact Hm.
      * rewrite output_at_set_reads, Hat1. cbn [backFb set_backFb].
        now apply rot_in_bounds.
      * rewrite output_at_set_reads, Hat1. exact Hf.
      * rewrite E1. exact Hrc.
      * exact Hrs.
      * rewrite E1. reflexivity.
    + rewrite reads_submit_flip. cbn. lia.
Qed.

Lemma lone_ticks (n : nat) (st : State) :
  lone_ready st -> (n <= List.length (reads st))%nat ->
  returned (ticks n st) = true.
Proof.
  revert st. induction n as [|n IH]; intros st Hr Hlen; [reflexivity|].
  cbn [ticks]. destruct (lone_update st Hr) as (s & -> & Hs & Hl); [lia|].
  apply IH; [exact Hs|lia].
Qed.

Lemma started_env (b : Boot) (rs : list (list bool)) (rcs : list Z) :
  reads (started b rs rcs) = rs /\ flip_rcs (started b rs rcs) = rcs.
Proof.
  unfold started, DumbBufferRenderer_new, Device_open.
  destruct (open_result b =? -1); [cbn; auto|].
  destruct ((getcap_rc b =? -1) || (hasDumbBuf b =? 0)); [cbn; auto|].
  cbn [fst]. unfold setMode, createFramebuffers, createScreens.
  set (s0 := set_fd _ _).
  assert (H : forall l s,
             reads (fold_left (fun s output => createScreen output s) l s) = reads s /\
             flip_rcs (fold_left (fun s output => createScreen output s) l s) = flip_rcs s).
  { induction l as [|q l IH]; intros s; [auto|]. cbn [fold_left].
    destruct (IH (createScreen q s)) as (-> & ->). auto. }
  destruct (H (discovered b) s0) as (Hr & Hf).
  set (s1 := fold_left _ (discovered b) s0) in *.
  destruct (createFramebuffers_from (alloc b) 0 (m_outputs s1)) as [os2 es2].
  cbn [m_outputs emit set_outputs].
  destruct (setMode_from (setcrtc_rc b) 0 os2) as [os3 es3].
  cbn [reads flip_rcs emit set_outputs]. rewrite Hr, Hf. auto.
Qed.

Lemma started_lone (b : Boot) (rs : list (list bool)) (rcs : list Z) (k : QKmsOutput) :
  opens b = true -> discovered b = [k] ->
  grants (alloc b 0%nat 0) = true -> grants (alloc b 0%nat 1) = true ->
  forallb (Z.eqb 0) rcs = true -> forallb prompt rs = true ->
  lone_ready (started b rs rcs).
Proof.
  intros Hopen Hd G0 G1 Hrc Hrd.
  destruct (started_shape b rs rcs Hopen) as (_ & Hos & _).
  destruct (started_quiet b rs rcs) as (Hp & _ & _).
  destruct (started_env b rs rcs) as (Er & Ef).
  rewrite Hd in Hos. cbn [map createFramebuffers_from] in Hos.
  destruct (create_slots_granted (alloc b 0%nat) (Output_new k) G0 G1) as (Eok & Hm).
  destruct (create_slots (alloc b 0%nat) (Output_new k) buffer_indices) as [[ok o1] e1].
  cbn [fst snd] in *. subst ok. cbn [fst snd setMode_from] in Hos.
  assert (Hat : exists o, m_outputs (started b rs rcs) = [o] /\ both_mapped o /\
                          backFb o = 0 /\ flipped o = false).
  { destruct (setcrtc_rc b 0%nat =? -1); cbn [fst] in Hos; eexists; (split; [exact Hos|]);
      repeat split; try apply Hm. }
  destruct Hat as (o & Ho & Hbm & Hb0 & Hf0).
  unfold lone_ready, output_at. rewrite Ho, Er, Ef, Hp. cbn [nth List.length].
  rewrite Hb0, Hf0. repeat split; auto; try apply Hbm; try apply in_bounds_0.
Qed.

(** X10.  With a single Output whose two buffers the kernel grants, flip
    requests that are all accepted and reads that each deliver the pending
    completion, the frame loop never blocks: for any number [n] of ticks, up
    to the number of reads the schedule holds, every tick returns, the
    Output has [n] frames written and [n] flips requested, and [main] exits
    with code 0. *)
Theorem lone_output_runs (b : Boot) (rs : list (list bool)) (rcs : list Z)
        (k : QKmsOutput) (n : nat) :
  opens b = true -> discovered b = [k] ->
  grants (alloc b 0%nat 0) = true -> grants (alloc b 0%nat 1) = true ->
  forallb (Z.eqb 0) rcs = true -> forallb prompt rs = true ->
  (n <= List.length rs)%nat ->
  returned (ticks n (started b rs rcs)) = true /\
  count (is_fill 0) (trace (final (ticks n (started b rs rcs)))) = n /\
  count (is_flip_call 0) (trace (final (ticks n (started b rs rcs)))) = n /\
  exit_code (main b rs rcs n) = Some 0.
Proof.
  intros Hopen Hd G0 G1 Hrc Hrd Hn.
  pose proof (started_lone b rs rcs k Hopen Hd G0 G1 Hrc Hrd) as Hl.
  assert (Hr : returned (ticks n (started b rs rcs)) = true).
  { apply lone_ticks; [exact Hl|]. now rewrite (proj1 (started_env b rs rcs)). }
  destruct (started_quiet b rs rcs) as (_ & Hq & _).
  destruct (startup_counts 0 _ Hq) as (F0 & C0).
  destruct Hl as (Hlen & Hm & _).
  rewrite (main_when_opened b rs rcs n Hopen).
  destruct (ticks n (started b rs rcs)) as [s|s] eqn:E; [|discriminate Hr].
  cbn [final].
  destruct (ticks_both 0 n _ s (started_inv b rs rcs)) as (F & C); try assumption.
  - unfold valid. rewrite Hlen. lia.
  - rewrite F, C, F0, C0. auto.
Qed.

Lemma lone_output_runs_witness :
  opens (boot_ok [kms_A]) = true /\
  forallb prompt (prompt_reads 4) = true /\
  returned (ticks 4 (started (boot_ok [kms_A]) (prompt_reads 4) [0; 0])) = true /\
  exit_code (main (boot_ok [kms_A]) (prompt_reads 4) [0; 0] 4) = Some 0.
Proof.
  destruct (lone_output_runs (boot_ok [kms_A]) (prompt_reads 4) [0; 0] kms_A 4
              eq_refl eq_refl eq_refl eq_refl eq_refl eq_refl (le_n 4))
    as (H1 & _ & _ & H4).
  split; [reflexivity|]. split; [reflexivity|]. split; [exact H1|exact H4].
Defined.

(** * Mode setting and allocation at start-up *)

Lemma setMode_from_stops (rc : nat -> Z) (j : nat) :
  forall (j0 : nat) (os : list Output),
  (forall i, (i < j)%nat -> rc (j0 + i)%nat <> -1) ->
  rc (j0 + j)%nat = -1 ->
  (j < List.length os)%nat ->
  (forall i, (i < j)%nat ->
     mode_set (kmsOutput (nth i (fst (setMode_from rc j0 os)) no_output)) = true) /\
  (forall i, (j <= i)%nat ->
     nth i (fst (setMode_from rc j0 os)) no_output = nth i os no_output) /\
  count is_set_crtc (snd (setMode_from rc j0 os)) = S j /\
  count is_power_on (snd (setMode_from rc j0 os)) = j.
Proof.
  induction j as [|j IH]; intros j0 os Hok Hbad Hlen.
  - destruct os as [|o more]; [cbn in Hlen; lia|].
    rewrite Nat.add_0_r in Hbad. cbn [setMode_from].
    apply Z.eqb_eq in Hbad. rewrite Hbad. cbn [fst snd].
    split; [intros i Hi; lia|]. split; [reflexivity|]. split; reflexivity.
  - destruct os as [|o more]; [cbn in Hlen; lia|].
    cbn [setMode_from].
    assert (H0 : (rc j0 =? -1) = false)
      by (apply Z.eqb_neq; rewrite <- (Nat.add_0_r j0); apply Hok; lia).
    rewrite H0.
    destruct (IH (S j0) more) as (M & U & C & P).
    + intros i Hi. replace (S j0 + i)%nat with (j0 + S i)%nat by lia. apply Hok. lia.
    + replace (S j0 + j)%nat with (j0 + S j)%nat by lia. exact Hbad.
    + cbn in Hlen. lia.
    + destruct (setMode_from rc (S j0) more) as [more' e2]. cbn [fst snd] in *.
      split; [|split; [|split]].
      * intros [|i] Hi; cbn [nth]; [reflexivity|]. apply M. lia.
      * intros [|i] Hi; [lia|]. cbn [nth]. apply U. lia.
      * unfold count in *. cbn [app filter is_set_crtc List.length]. now rewrite C.
      * unfold count in *. cbn [app filter is_power_on List.length]. now rewrite P.
Qed.

(** X11.  [setMode] gives up at the first mode set the kernel refuses: if
    the mode sets of the Outputs before position [j] succeed and the one at
    [j] returns -1, the Outputs before [j] are marked [mode_set] and powered
    on, the Output at [j] and all Outputs after it are left exactly as they
    were, and no mode set is even attempted for the Outputs after [j]. *)
Theorem setMode_stops_at_first_refusal (b : Boot) (st : State) (j : nat) :
  (forall i, (i < j)%nat -> setcrtc_rc b i <> -1) ->
  setcrtc_rc b j = -1 ->
  (j < List.length (m_outputs st))%nat ->
  (forall i, (i < j)%nat -> mode_set (kmsOutput (output_at (setMode b st) i)) = true) /\
  (forall i, (j <= i)%nat -> output_at (setMode b st) i = output_at st i) /\
  exists es, trace (setMode b st) = trace st ++ es /\
             count is_set_crtc es = S j /\ count is_power_on es = j.
Proof.
  intros Hok Hbad Hlen.
  destruct (setMode_from_stops (setcrtc_rc b) j 0 (m_outputs st) Hok Hbad Hlen)
    as (M & U & C & P).
  unfold setMode, output_at.
  destruct (setMode_from (setcrtc_rc b) 0 (m_outputs st)) as [os es]. cbn [fst snd] in *.
  cbn [m_outputs trace emit set_outputs].
  split; [exact M|]. split; [exact U|]. exists es. auto.
Qed.

Lemma setMode_stops_at_first_refusal_witness :
  (1 < List.length (m_outputs (started (boot_ok [kms_A; kms_B; kms_C]) [] [])))%nat /\
  mode_set (kmsOutput
              (output_at (setMode (mkBoot 3 0 1 [] alloc_ok
                                          (fun i => if Nat.eqb i 1 then -1 else 0) free_ok)
                                  (createFramebuffers (boot_ok [kms_A; kms_B; kms_C])
                                     (createScreens (boot_ok [kms_A; kms_B; kms_C])
                                        (initial [] []))))
                         0)) = true.
Proof.
  split; [vm_compute; lia|].
  refine (proj1 (setMode_stops_at_first_refusal
                   (mkBoot 3 0 1 [] alloc_ok (fun i => if Nat.eqb i 1 then -1 else 0) free_ok)
                   (createFramebuffers (boot_ok [kms_A; kms_B; kms_C])
                      (createScreens (boot_ok [kms_A; kms_B; kms_C]) (initial [] [])))
                   1 _ _ _) 0%nat _).
  - intros i Hi. assert (i = 0%nat) as -> by lia. cbn. discriminate.
  - reflexivity.
  - vm_compute. lia.
  - lia.
Defined.

Lemma createFramebuffers_from_all_granted (k : nat -> Z -> AllocResp) (j : nat)
      (os : list Output) :
  (forall x i, in_bounds i -> grants (k x i) = true) ->
  List.length (fst (createFramebuffers_from k j os)) = List.length os /\
  Forall both_mapped (fst (createFramebuffers_from k j os)).
Proof.
  intros Hg. revert j. induction os as [|o more IH]; intros j; [cbn; auto|].
  cbn [createFramebuffers_from].
  destruct (create_slots_granted (k j) o (Hg j 0 in_bounds_0) (Hg j 1 in_bounds_1))
    as (E & M).
  destruct (create_slots (k j) o buffer_indices) as [[ok o1] e1]. cbn [fst snd] in *.
  subst ok. destruct (IH (S j)) as (L & F).
  destruct (createFramebuffers_from k (S j) more) as [more' e2]. cbn [fst snd] in *.
  split; [cbn; now rewrite L|]. constructor; [exact M|exact F].
Qed.

(** X12.  When the device opens and the kernel grants every buffer, the
    constructor leaves one Output per discovered output, each with both
    slots mapped, [backFb] 0 and nothing in flight, whatever the mode sets
    answered: every Output is ready for the frame loop. *)
Theorem startup_all_granted (b : Boot) (rs : list (list bool)) (rcs : list Z) (i : nat) :
  opens b = true ->
  (forall x idx, in_bounds idx -> grants (alloc b x idx) = true) ->
  (i < List.length (discovered b))%nat ->
  List.length (m_outputs (started b rs rcs)) = List.length (discovered b) /\
  both_mapped (output_at (started b rs rcs) i) /\
  backFb (output_at (started b rs rcs) i) = 0 /\
  flipped (output_at (started b rs rcs) i) = false /\
  pending (started b rs rcs) = [].
Proof.
  intros Hopen Hg Hi.
  destruct (started_shape b rs rcs Hopen) as (_ & Hos & _).
  destruct (started_quiet b rs rcs) as (Hp & _ & Hf).
  destruct (createFramebuffers_from_all_granted (alloc b) 0 (map Output_new (discovered b)) Hg)
    as (L & F).
  destruct (setMode_from_fbs (setcrtc_rc b) 0
              (fst (createFramebuffers_from (alloc b) 0 (map Output_new (discovered b)))))
    as (L3 & F3).
  rewrite <- Hos in L3, F3.
  assert (Hlen : List.length (m_outputs (started b rs rcs)) = List.length (discovered b))
    by (rewrite L3, L; apply length_map).
  split; [exact Hlen|].
  assert (Hin : In (output_at (started b rs rcs) i) (m_outputs (started b rs rcs)))
    by (apply nth_In; lia).
  rewrite Forall_forall in Hf. destruct (Hf _ Hin) as (Hb & Hfl).
  split; [|auto].
  apply (both_mapped_fbs (nth i (fst (createFramebuffers_from (alloc b) 0
                                        (map Output_new (discovered b)))) no_output)).
  - apply F3.
  - rewrite Forall_forall in F. apply F. apply nth_In. rewrite L, length_map. exact Hi.
Qed.

Lemma startup_all_granted_witness :
  opens (boot_ok [kms_A; kms_B]) = true /\
  both_mapped (output_at (started (boot_ok [kms_A; kms_B]) [] []) 1) /\
  backFb (output_at (started (boot_ok [kms_A; kms_B]) [] []) 1) = 0.
Proof.
  assert (Hg : forall x idx, in_bounds idx ->
                 grants (alloc (boot_ok [kms_A; kms_B]) x idx) = true).
  { intros x idx _. unfold grants, alloc_ok. cbn [alloc boot_ok alloc_ok create_rc addfb_rc
      map_rc mmap_p]. cbn [Z.eqb negb andb].
    apply negb_true_iff. apply Z.eqb_neq. unfold MAP_FAILED. lia. }
  destruct (startup_all_granted (boot_ok [kms_A; kms_B]) [] [] 1 eq_refl Hg)
    as (_ & H2 & H3 & _); [cbn; lia|].
  split; [reflexivity|]. split; [exact H2|exact H3].
Defined.

(** * Callbacks only ever name existing Outputs *)

Lemma deliver_Forall (P : nat -> Prop) (mask : list bool) (q : list nat) :
  Forall P q -> Forall P (fst (deliver mask q)) /\ Forall P (snd (deliver mask q)).
Proof.
  revert q. induction mask as [|[|] mask IH]; intros [|t q] H; cbn [deliver fst snd];
    try (split; [constructor|exact H]).
  - inversion H as [|? ? Ht Hq]; subst. specialize (IH q Hq).
    destruct (deliver mask q) as [d r]. cbn [fst snd] in *.
    destruct IH. split; [now constructor|assumption].
  - inversion H as [|? ? Ht Hq]; subst. specialize (IH q Hq).
    destruct (deliver mask q) as [d r]. cbn [fst snd] in *.
    destruct IH. split; [assumption|now constructor].
Qed.

Lemma tokens_ok_ext (n : nat) (st s : State) :
  List.length (m_outputs s) = List.length (m_outputs st) ->
  pending s = pending st -> trace s = trace st ->
  tokens_ok n st -> tokens_ok n s.
Proof. unfold tokens_ok. intros -> -> ->. auto. Qed.

Lemma tokens_ok_emit (n : nat) (st : State) (es : list Event) :
  Forall (token_ok n) es -> tokens_ok n st -> tokens_ok n (emit st es).
Proof.
  intros He (L & P & T). split; [exact L|]. split; [exact P|].
  cbn [trace emit]. apply Forall_app. now split.
Qed.

Lemma tokens_ok_run_handlers (n : nat) (d : list nat) (st : State) :
  Forall (fun u => (u < n)%nat) d -> tokens_ok n st -> tokens_ok n (run_handlers d st).
Proof.
  intros Hd (L & P & T).
  destruct (run_handlers_frame d st) as (Hp & _ & _ & Ht & Hl).
  split; [now rewrite Hl|]. split; [now rewrite Hp|].
  rewrite Ht. apply Forall_app. split; [exact T|].
  apply Forall_forall. intros e He. apply in_map_iff in He.
  destruct He as (u & <- & Hu). rewrite Forall_forall in Hd. now apply Hd.
Qed.

Lemma tokens_ok_drmHandleEvent (n : nat) (mask : list bool) (st : State) :
  tokens_ok n st -> tokens_ok n (drmHandleEvent mask st).
Proof.
  intros (L & P & T). rewrite drmHandleEvent_unfold.
  destruct (deliver_Forall _ mask (pending st) P) as (Hd & Hr).
  apply tokens_ok_run_handlers; [exact Hd|].
  apply tokens_ok_emit; [repeat constructor|].
  split; [exact L|]. split; [exact Hr|exact T].
Qed.

Lemma tokens_ok_wait_flip (n : nat) (rs : list (list bool)) (i : nat) (fbIdx : Z)
      (st : State) :
  tokens_ok n st -> tokens_ok n (final (wait_flip rs i fbIdx st)).
Proof.
  revert st. induction rs as [|mask rs IH]; intros st H; cbn [wait_flip];
    destruct (backFb (output_at st i) =? fbIdx); cbn [final];
    try (now apply (tokens_ok_ext n st)).
  apply IH. apply tokens_ok_drmHandleEvent. now apply (tokens_ok_ext n st).
Qed.

Lemma tokens_ok_submit_flip (n : nat) (i : nat) (st : State) :
  (i < n)%nat -> tokens_ok n st -> tokens_ok n (submit_flip i st).
Proof.
  intros Hi (L & P & T).
  destruct (submit_flip_facts i st) as (Hm & Hp & _ & Ht).
  split; [now rewrite Hm|]. split.
  - rewrite Hp. destruct (hd 0 (flip_rcs st) =? 0); [|exact P].
    apply Forall_app. split; [exact P|]. now constructor.
  - rewrite Ht. apply Forall_app. split; [exact T|].
    constructor; [exact Hi|]. destruct (hd 0 (flip_rcs st) =? -1); repeat constructor.
Qed.

Lemma tokens_ok_swapBuffers (n : nat) (i : nat) (st : State) :
  (i < n)%nat -> tokens_ok n st -> tokens_ok n (final (swapBuffers i st)).
Proof.
  intros Hi H. rewrite swapBuffers_unfold. destruct (flipped (output_at st i)).
  - pose proof (tokens_ok_wait_flip n (reads st) i (backFb (output_at st i)) st H) as Hw.
    destruct (wait_flip (reads st) i (backFb (output_at st i)) st); cbn [final] in *;
      [now apply tokens_ok_submit_flip|exact Hw].
  - cbn [final]. apply tokens_ok_submit_flip; [exact Hi|].
    apply (tokens_ok_ext n st); try reflexivity; [|exact H].
    cbn. apply length_update_nth.
Qed.

Lemma tokens_ok_update_output (n : nat) (i : nat) (st : State) :
  (i < n)%nat -> tokens_ok n st -> tokens_ok n (final (update_output i st)).
Proof.
  intros Hi H. unfold update_output.
  destruct (p (fb_at (output_at st i) (backFb (output_at st i))) =? MAP_FAILED);
    [exact H|].
  apply tokens_ok_swapBuffers; [exact Hi|].
  apply (tokens_ok_ext n (emit st [Fill i (backFb (output_at st i))
           (p (fb_at (output_at st i) (backFb (output_at st i))))
           (size (fb_at (output_at st i) (backFb (output_at st i))) / 4) (colour st)]));
    try reflexivity.
  apply tokens_ok_emit; [|exact H]. constructor; [exact Hi|constructor].
Qed.

Lemma tokens_ok_update_loop (n : nat) (idxs : list nat) (st : State) :
  (forall i, In i idxs -> (i < n)%nat) -> tokens_ok n st ->
  tokens_ok n (final (update_loop idxs st)).
Proof.
  revert st. induction idxs as [|i more IH]; intros st Hi H; cbn [update_loop];
    [exact H|].
  pose proof (tokens_ok_update_output n i st (Hi i (or_introl eq_refl)) H) as H1.
  destruct (update_output i st); cbn [final] in *; [|exact H1].
  apply IH; [|exact H1]. intros x Hx. apply Hi. now right.
Qed.

Lemma tokens_ok_ticks (k : nat) (n : nat) (st : State) :
  tokens_ok n st -> tokens_ok n (final (ticks k st)).
Proof.
  revert st. induction k as [|k IH]; intros st H; cbn [ticks]; [exact H|].
  assert (H1 : tokens_ok n (final (update st))).
  { unfold update. apply tokens_ok_update_loop; [|exact H].
    intros i Hi. apply in_seq in Hi. destruct H as (L & _). lia. }
  destruct (update st); cbn [final] in *; [now apply IH|exact H1].
Qed.

(** X13.  In every state the frame loop reaches (any kernel answers, any
    schedule, returned or blocked), the vector of Outputs has the length the
    constructor gave it, and every flip request in the kernel's queue, every
    [drmModePageFlip] call, every completion callback and every fill names
    an Output inside that vector: [pageFlipHandler] is never handed a
    [user_data] that is not an element of [m_outputs]. *)
Theorem callbacks_name_existing_outputs (b : Boot) (rs : list (list bool))
        (rcs : list Z) (k : nat) :
  tokens_ok (List.length (m_outputs (started b rs rcs)))
            (final (ticks k (started b rs rcs))).
Proof.
  apply tokens_ok_ticks.
  destruct (started_quiet b rs rcs) as (Hp & Hq & _).
  split; [reflexivity|]. split; [rewrite Hp; constructor|].
  rewrite forallb_forall in Hq. apply Forall_forall. intros e He.
  specialize (Hq e He). destruct e; cbn in *; try exact Logic.I; discriminate Hq.
Qed.

(** * The legacy framebuffer variant *)

(** X14.  Whatever step of the legacy [Device::open] fails or succeeds,
    [Device::close] afterwards undoes exactly the calls of that [open] that
    acquired something, latest first (the munmap of a successful mmap, then
    the close of a successful open), and leaves the device as [Device()]
    made it; closing again does nothing. *)
Theorem legacy_close_undoes_open (k : LegacyFb.Info) :
  snd (LegacyFb.Device_close (snd (fst (LegacyFb.Device_open k LegacyFb.Device_new))))
  = flat_map LegacyFb.undo (rev (snd (LegacyFb.Device_open k LegacyFb.Device_new))) /\
  fst (LegacyFb.Device_close (snd (fst (LegacyFb.Device_open k LegacyFb.Device_new))))
  = LegacyFb.Device_new /\
  LegacyFb.Device_close LegacyFb.Device_new = (LegacyFb.Device_new, []).
Proof.
  split; [|split; reflexivity].
  unfold LegacyFb.Device_open, LegacyFb.Device_close.
  destruct (LegacyFb.open_result k =? -1) eqn:E1; [cbn; rewrite E1; reflexivity|].
  destruct (LegacyFb.fix_rc k =? 0); cbn [negb]; [|cbn; rewrite E1; reflexivity].
  destruct (LegacyFb.var_rc k =? 0); cbn [negb]; [|cbn; rewrite E1; reflexivity].
  cbn [LegacyFb.p LegacyFb.size].
  destruct (LegacyFb.mmap_result k =? MAP_FAILED) eqn:E4;
    [cbn; rewrite E1, E4; reflexivity|].
  cbn [LegacyFb.depth].
  destruct (LegacyFb.effective_depth k =? 32); cbn; rewrite E1, E4; reflexivity.
Qed.

Lemma s32_small (v : Z) : - 2 ^ 31 <= v < 2 ^ 31 -> LegacyFb.s32 v = v.
Proof. intros H. unfold LegacyFb.s32. rewrite Z.mod_small; lia. Qed.

Lemma u32_small (v : Z) : 0 <= v < 2 ^ 32 -> LegacyFb.u32 v = v.
Proof. intros H. unfold LegacyFb.u32. now apply Z.mod_small. Qed.

Lemma upto_range (n x : Z) : In x (LegacyFb.upto n) -> 0 <= x < n.
Proof.
  unfold LegacyFb.upto. intros H. apply in_map_iff in H.
  destruct H as (j & <- & Hj). apply in_seq in Hj. lia.
Qed.

Lemma length_upto (n : Z) : List.length (LegacyFb.upto n) = Z.to_nat n.
Proof. unfold LegacyFb.upto. now rewrite length_map, length_seq. Qed.

Lemma legacy_open_true (k : LegacyFb.Info) (d : LegacyFb.Device) :
  fst (fst (LegacyFb.Device_open k d)) = true ->
  LegacyFb.mmap_result k <> MAP_FAILED /\
  snd (fst (LegacyFb.Device_open k d))
  = LegacyFb.mkDevice (LegacyFb.open_result k)
      (LegacyFb.mkFramebuffer (LegacyFb.smem_len k) (LegacyFb.line_length k)
         (LegacyFb.mmap_result k) 32
         (LegacyFb.mkQRect (LegacyFb.s32 (LegacyFb.xoffset k))
            (LegacyFb.s32 (LegacyFb.yoffset k))
            (LegacyFb.s32 (LegacyFb.xres k)) (LegacyFb.s32 (LegacyFb.yres k)))).
Proof.
  unfold LegacyFb.Device_open.
  destruct (LegacyFb.open_result k =? -1); [discriminate|].
  destruct (LegacyFb.fix_rc k =? 0); cbn [negb]; [|discriminate].
  destruct (LegacyFb.var_rc k =? 0); cbn [negb]; [|discriminate].
  cbn [LegacyFb.p LegacyFb.size].
  destruct (LegacyFb.mmap_result k =? MAP_FAILED) eqn:E4; [discriminate|].
  cbn [LegacyFb.depth].
  destruct (LegacyFb.effective_depth k =? 32) eqn:E5; cbn [negb]; [|discriminate].
  intros _. apply Z.eqb_neq in E4. apply Z.eqb_eq in E5. cbn. rewrite E5. auto.
Qed.

(** X15.  After a legacy [Device::open] that returned true, on a kernel
    whose reported visible area lies inside the memory it reported, one
    [FbRenderer::update] stores exactly [xres * yres] pixels, and every one
    of these 4-byte stores lies inside the mapped framebuffer. *)
Theorem legacy_update_in_bounds (k : LegacyFb.Info) (r : LegacyFb.FbRenderer) :
  LegacyFb.fits k ->
  fst (fst (LegacyFb.Device_open k LegacyFb.Device_new)) = true ->
  LegacyFb.m_device r = snd (fst (LegacyFb.Device_open k LegacyFb.Device_new)) ->
  Forall (LegacyFb.in_mapping (LegacyFb.m_device r)) (snd (LegacyFb.update r)) /\
  List.length (snd (LegacyFb.update r))
  = (Z.to_nat (LegacyFb.yres k) * Z.to_nat (LegacyFb.xres k))%nat.
Proof.
  intros (Hx0 & Hx32 & Hy & Hw & Hh & Hp0 & Hs & Hrow & Hall) Hok Hd.
  destruct (legacy_open_true k LegacyFb.Device_new Hok) as (Hm & Ed).
  rewrite Ed in Hd.
  rewrite (s32_small (LegacyFb.xoffset k)), (s32_small (LegacyFb.yoffset k)),
          (s32_small (LegacyFb.xres k)), (s32_small (LegacyFb.yres k)) in Hd by lia.
  unfold LegacyFb.update. rewrite Hd. cbn [LegacyFb.fb LegacyFb.p LegacyFb.geom
    LegacyFb.rheight LegacyFb.rwidth].
  apply Z.eqb_neq in Hm. rewrite Hm. cbn [snd]. split.
  - apply Forall_forall. intros c Hc. apply in_flat_map in Hc.
    destruct Hc as (y & Hy' & Hc). apply upto_range in Hy'.
    unfold LegacyFb.row_stores in Hc. rewrite Hd in Hc.
    cbn [LegacyFb.fb LegacyFb.geom LegacyFb.rwidth LegacyFb.pitch] in Hc.
    apply in_map_iff in Hc. destruct Hc as (x & <- & Hx'). apply upto_range in Hx'.
    unfold LegacyFb.in_mapping, LegacyFb.screenStart.
    cbn [LegacyFb.fb LegacyFb.p LegacyFb.size LegacyFb.geom LegacyFb.pitch
         LegacyFb.depth LegacyFb.rx LegacyFb.ry].
    assert (B1 : 0 <= LegacyFb.yoffset k * LegacyFb.line_length k) by nia.
    assert (B2 : LegacyFb.yoffset k * LegacyFb.line_length k
                 <= (LegacyFb.yoffset k + LegacyFb.yres k) * LegacyFb.line_length k) by nia.
    assert (B3 : 0 <= y * LegacyFb.line_length k) by nia.
    assert (B4 : (LegacyFb.yoffset k + y + 1) * LegacyFb.line_length k
                 <= (LegacyFb.yoffset k + LegacyFb.yres k) * LegacyFb.line_length k) by nia.
    rewrite (u32_small (LegacyFb.yoffset k * LegacyFb.line_length k)) by lia.
    rewrite (u32_small (y * LegacyFb.line_length k)) by nia.
    rewrite (s32_small (LegacyFb.xoffset k * 32)) by lia.
    replace (LegacyFb.xoffset k * 32) with (LegacyFb.xoffset k * 4 * 8) by lia.
    rewrite Z.quot_mul by lia.
    split; nia.
  - rewrite flat_map_concat_map.
    assert (L : forall l, List.length (List.concat (map (LegacyFb.row_stores r) l))
                          = (List.length l * Z.to_nat (LegacyFb.xres k))%nat).
    { induction l as [|y l IH]; [reflexivity|]. cbn [map List.concat]. rewrite length_app, IH.
      unfold LegacyFb.row_stores at 1. rewrite length_map, length_upto, Hd.
      cbn [LegacyFb.fb LegacyFb.geom LegacyFb.rwidth List.length]. lia. }
    now rewrite L, length_upto.
Qed.

Lemma legacy_update_in_bounds_witness :
  LegacyFb.fits LegacyFb.info_32 /\
  fst (fst (LegacyFb.Device_open LegacyFb.info_32 LegacyFb.Device_new)) = true /\
  List.length (snd (LegacyFb.update
    (LegacyFb.mkFbRenderer
       (snd (fst (LegacyFb.Device_open LegacyFb.info_32 LegacyFb.Device_new))) 0 0 0)))
  = (48 * 64)%nat.
Proof.
  assert (Hf : LegacyFb.fits LegacyFb.info_32)
    by (unfold LegacyFb.fits, LegacyFb.info_32; cbn; lia).
  assert (Hok : fst (fst (LegacyFb.Device_open LegacyFb.info_32 LegacyFb.Device_new)) = true)
    by (vm_compute; reflexivity).
  split; [exact Hf|]. split; [exact Hok|].
  exact (proj2 (legacy_update_in_bounds LegacyFb.info_32
                  (LegacyFb.mkFbRenderer
                     (snd (fst (LegacyFb.Device_open LegacyFb.info_32 LegacyFb.Device_new)))
                     0 0 0) Hf Hok eq_refl)).
Defined.
